(** * BEEP feature extractors ([beep/features/core.py]): a shallow embedding

    The development follows the Python source function by function.

    - Numbers.  The source computes on IEEE doubles; the embedding computes
      on exact rationals ([Q]).  [NaN], where pandas introduces it ([diff],
      missing rows, forward fill), is [None] in an [option Q].  Where numpy
      would go on with an infinity or a NaN produced by arithmetic (a
      division by zero, the minimum of an empty column) the embedding stops
      with [NonFinite]: such runs are outside of what is modelled.
    - Exceptions.  A Python call that can raise returns a [result]; the
      exception classes the source can reach are the constructors of [exn].
    - Data frames.  A [DataFrame] is its ordered list of named columns; the
      row labels play no role in the functions embedded here, except in the
      feature table of [ExclusionCriteria], whose index is modelled.
    - Library calls (numpy, pandas, scipy) are modelled from their documented
      behaviour; helpers of the repository that live outside of [core.py]
      are taken as inputs. *)

From Stdlib Require Import List String Ascii Bool Arith ZArith QArith Qabs Qminmax Lia Lqa.
From Stdlib Require Import DecimalString.
Import ListNotations.
Open Scope string_scope.
Open Scope list_scope.
Open Scope Q_scope.

Set Implicit Arguments.

(** ** Python exceptions as results *)

Module Py.

Inductive exn : Type :=
| BEEPFeaturizationError (msg : string)
| ValueError (msg : string)
| UnboundLocalError (name : string)
| IndexError (msg : string)
| KeyError (key : string)
| ZeroDivisionError
| NonFinite (place : string).

Inductive result (A : Type) : Type :=
| Ok (a : A)
| Raise (e : exn).

Arguments Ok {A} a.
Arguments Raise {A} e.

Definition bind {A B : Type} (m : result A) (k : A -> result B) : result B :=
  match m with
  | Ok a => k a
  | Raise e => Raise e
  end.

(** A [for] loop that collects one value per element and stops at the
    first exception. *)
Fixpoint mapM {A B : Type} (f : A -> result B) (l : list A) : result (list B) :=
  match l with
  | [] => Ok []
  | a :: l' =>
      bind (f a) (fun b => bind (mapM f l') (fun bs => Ok (b :: bs)))
  end.

End Py.

Import Py.

Notation "x <- m ;; k" := (Py.bind m (fun x => k))
  (at level 61, m at next level, right associativity).

(** ** [CycleSummaryStats.get_summary_statistics] *)

Module CycleSummaryStats.

(** [DEFAULT_HYPERPARAMETERS["statistics"]] *)
Definition DEFAULT_statistics : list string :=
  ["var"; "min"; "mean"; "skew"; "kurtosis"; "abs"; "square"].

(** [s in names] on a list of strings *)
Definition py_in (s : string) (names : list string) : bool :=
  existsb (String.eqb s) names.

Section Statistics.

(** The numeric library: [A] is the array type, [V] the type of floats.
    Python's builtin [min] raises on an empty array, the numpy and scipy
    reductions do not. *)
Variables A V : Type.
Variable np_var np_mean skew kurtosis_pearson_unbiased : A -> V.
Variable py_min : A -> result V.
Variable sum_absolute sum_square : A -> V.
Variable np_absolute np_log10 : V -> V.

Definition append_if (b : bool) (v : result V) (stats : list V)
  : result (list V) :=
  if b then x <- v ;; Ok (stats ++ [x]) else Ok stats.

Definition get_summary_statistics (stats_names : list string) (array : A)
  : result (list V) :=
  let supported_stats := DEFAULT_statistics in
  if existsb (fun s => negb (py_in s supported_stats)) stats_names
  then Raise (ValueError "Unsupported statistics")
  else
    let stats := [] in
    stats <- append_if (py_in "var" stats_names)
               (Ok (np_log10 (np_absolute (np_var array)))) stats ;;
    stats <- append_if (py_in "min" stats_names)
               (m <- py_min array ;; Ok (np_log10 (np_absolute m))) stats ;;
    stats <- append_if (py_in "mean" stats_names)
               (Ok (np_log10 (np_absolute (np_mean array)))) stats ;;
    stats <- append_if (py_in "skew" stats_names)
               (Ok (np_log10 (np_absolute (skew array)))) stats ;;
    stats <- append_if (py_in "kurtosis" stats_names)
               (Ok (np_log10 (np_absolute (kurtosis_pearson_unbiased array)))) stats ;;
    stats <- append_if (py_in "abs" stats_names)
               (Ok (np_log10 (sum_absolute array))) stats ;;
    stats <- append_if (py_in "square" stats_names)
               (Ok (np_log10 (sum_square array))) stats ;;
    Ok stats.

End Statistics.

(** The column labels [create_features] gives to the statistics of the
    quantities: [[y + "_" + x for x in quantities for y in statistics]]. *)
Definition feature_columns (quantities stats_names : list string) : list string :=
  flat_map (fun x => map (fun y => y ++ "_" ++ x)%string stats_names) quantities.

(** An instance that leaves the numeric library uninterpreted: a float is
    the expression that computes it. *)
Inductive expr : Type :=
| Var (a : list Z)
| Min (a : list Z)
| Mean (a : list Z)
| Skew (a : list Z)
| Kurtosis (a : list Z)
| SumAbs (a : list Z)
| SumSquare (a : list Z)
| Absolute (e : expr)
| Log10 (e : expr).

Definition min_expr (a : list Z) : result expr :=
  match a with
  | [] => Raise (ValueError "min() arg is an empty sequence")
  | _ => Ok (Min a)
  end.

Definition summary_expr : list string -> list Z -> result (list expr) :=
  get_summary_statistics Var Mean Skew Kurtosis min_expr SumAbs SumSquare
    Absolute Log10.

End CycleSummaryStats.

(** ** numpy, pandas and scipy, as far as the extractors use them *)

Module Np.

Definition Series := list Q.

Definition Qltb (a b : Q) : bool := negb (Qle_bool b a).

(** [Series.min()] and [Series.max()]: NaN ([None]) on an empty series. *)
Definition series_min (s : Series) : option Q :=
  match s with
  | [] => None
  | x :: l => Some (fold_left Qmin l x)
  end.

Definition series_max (s : Series) : option Q :=
  match s with
  | [] => None
  | x :: l => Some (fold_left Qmax l x)
  end.

(** [Series.diff()]: NaN in the first row, then the difference with the
    row before; NaN propagates. *)
Fixpoint diff_from (prev : option Q) (l : list (option Q)) : list (option Q) :=
  match l with
  | [] => []
  | x :: l' =>
      match prev, x with
      | Some p, Some v => Some (v - p)
      | _, _ => None
      end :: diff_from x l'
  end.

Definition diff (l : list (option Q)) : list (option Q) := diff_from None l.

(** [series < c], elementwise; a comparison with NaN is [False]. *)
Definition lt_scalar (l : list (option Q)) (c : Q) : list bool :=
  map (fun v => match v with Some q => Qltb q c | None => false end) l.

(** [s[mask]]: the rows where the mask holds. *)
Fixpoint select {A : Type} (mask : list bool) (s : list A) : list A :=
  match mask, s with
  | b :: mask', x :: s' => if b then x :: select mask' s' else select mask' s'
  | _, _ => []
  end.

(** [s.iloc[-k]] for [k >= 1]. *)
Definition iloc_from_end (s : Series) (k : nat) : result Q :=
  match nth_error (rev s) (k - 1) with
  | Some v => Ok v
  | None => Raise (IndexError "single positional indexer is out-of-bounds")
  end.

(** [np.linspace(start, stop, num)]: [arange(num) * step + start] with
    [step = (stop - start) / (num - 1)]; numpy then stores [stop] itself
    in the last slot, which in exact arithmetic is the same number. *)
Definition linspace (start stop : Q) (num : nat) : list Q :=
  let step := (stop - start) / inject_Z (Z.of_nat (num - 1)) in
  map (fun i => inject_Z (Z.of_nat i) * step + start) (seq 0 num).

(** [np.argmin]: the first index of the smallest entry. *)
Fixpoint argmin_from (best : Q) (best_i i : nat) (l : list Q) : nat :=
  match l with
  | [] => best_i
  | x :: l' =>
      if Qltb x best then argmin_from x i (S i) l'
      else argmin_from best best_i (S i) l'
  end.

Definition argmin (l : list Q) : result nat :=
  match l with
  | [] => Raise (ValueError "attempt to get argmin of an empty sequence")
  | x :: l' => Ok (argmin_from x 0%nat 1%nat l')
  end.

(** *** [scipy.interpolate.interp1d(x, y, kind='linear', ...)] *)

Inductive fill : Type :=
| fill_nan
| fill_extrapolate.

(** The constructor sorts the points by [x] (a stable sort). *)
Fixpoint insert_by_x (p : Q * Q) (l : list (Q * Q)) : list (Q * Q) :=
  match l with
  | [] => [p]
  | q :: l' =>
      if Qle_bool (fst p) (fst q) then p :: l else q :: insert_by_x p l'
  end.

Definition sort_by_x (l : list (Q * Q)) : list (Q * Q) :=
  fold_right insert_by_x [] l.

Record interp1d : Type := {
  points : list (Q * Q);
  bounds_error : bool;
  fill_value : fill
}.

Definition interp1d_new (x y : Series) (bounds_error : bool) (fill_value : fill)
  : result interp1d :=
  if negb (List.length x =? List.length y)%nat
  then Raise (ValueError "x and y arrays must be equal in length along interpolation axis.")
  else Ok {| points := sort_by_x (combine x y);
             bounds_error := bounds_error;
             fill_value := fill_value |}.

(** The line through two neighbouring points, evaluated at [x]. *)
Definition segment (p0 p1 : Q * Q) (x : Q) : result Q :=
  let (x_lo, y_lo) := p0 in
  let (x_hi, y_hi) := p1 in
  if Qeq_bool x_hi x_lo then Raise (NonFinite "interp1d: repeated x value")
  else Ok ((y_hi - y_lo) / (x_hi - x_lo) * (x - x_lo) + y_lo).

(** The segment used for [x] is the first one whose right end is not
    below [x], and the last one beyond the data. *)
Fixpoint linear (pts : list (Q * Q)) (x : Q) : result Q :=
  match pts with
  | p0 :: ((p1 :: rest) as tl) =>
      match rest with
      | [] => segment p0 p1 x
      | _ :: _ => if Qle_bool x (fst p1) then segment p0 p1 x else linear tl x
      end
  | _ => Raise (NonFinite "interp1d: fewer than two points")
  end.

(** The value of the interpolant at [x], where it has one. *)
Definition linear_value (pts : list (Q * Q)) (x : Q) : Q :=
  match linear pts x with
  | Ok v => v
  | Raise _ => 0
  end.

Definition out_of_bounds (pts : list (Q * Q)) (x : Q) : bool :=
  match pts with
  | [] => true
  | p :: _ => Qltb x (fst p) || Qltb (fst (last pts p)) x
  end.

Definition interp1d_call (f : interp1d) (x_new : list Q) : result (list Q) :=
  let outside := existsb (out_of_bounds (points f)) x_new in
  if outside && bounds_error f
  then Raise (ValueError "A value in x_new is outside of the interpolation range.")
  else
    match fill_value f with
    | fill_extrapolate => mapM (linear (points f)) x_new
    | fill_nan =>
        if outside then Raise (NonFinite "interp1d: NaN outside of the data")
        else mapM (linear (points f)) x_new
    end.

End Np.

(** *** Data frames with numeric columns *)

Module Pd.

Definition DataFrame := list (string * Np.Series).

(** [df[name]] *)
Fixpoint getitem (df : DataFrame) (name : string) : result Np.Series :=
  match df with
  | [] => Raise (KeyError name)
  | (n, c) :: df' => if String.eqb n name then Ok c else getitem df' name
  end.

(** [df[mask]] *)
Definition filter_rows (mask : list bool) (df : DataFrame) : DataFrame :=
  map (fun nc => (fst nc, Np.select mask (snd nc))) df.

(** [series.values[0]] *)
Definition values0 (s : Np.Series) : result Q :=
  match s with
  | v :: _ => Ok v
  | [] => Raise (IndexError "index 0 is out of bounds for axis 0 with size 0")
  end.

(** A Python [dict] with string keys: assignment to a key that is present
    replaces its value in place. *)
Fixpoint dict_set {A : Type} (k : string) (v : A) (d : list (string * A))
  : list (string * A) :=
  match d with
  | [] => [(k, v)]
  | (k', v') :: d' =>
      if String.eqb k k' then (k, v) :: d' else (k', v') :: dict_set k v d'
  end.

Fixpoint dict_get {A : Type} (k : string) (d : list (string * A)) : option A :=
  match d with
  | [] => None
  | (k', v) :: d' => if String.eqb k k' then Some v else dict_get k d'
  end.

End Pd.

(** ** [DiagnosticProperties.get_threshold_targets] *)

Module DiagnosticProperties.

Import Np Pd.

Record hyperparameters : Type := {
  cycle_type : string;
  metric : string;
  interpolation_axes : list string;
  threshold : Q;
  threshold_str : string;  (** [str(threshold)], used in the column names *)
  filter_kinks : option Q;
  extrapolate_threshold : bool
}.

Definition DEFAULT_HYPERPARAMETERS : hyperparameters := {|
  cycle_type := "rpt_1C";
  metric := "discharge_energy";
  interpolation_axes := ["normalized_regular_throughput"; "cycle_index"];
  threshold := 8 # 10;
  threshold_str := "0.8";
  filter_kinks := None;
  extrapolate_threshold := true
|}.

(** [df['fractional_metric'].diff().diff()] *)
Definition second_difference (y : Series) : list (option Q) :=
  diff (diff (map Some y)).

(** Lines 827-831.  [if filter_kinks:] is false for [None] and for [0.0]. *)
Definition kink_filter (hp : hyperparameters) (df : DataFrame) : result DataFrame :=
  match filter_kinks hp with
  | None => Ok df
  | Some k =>
      if Qeq_bool k 0 then Ok df
      else
        y <- getitem df "fractional_metric" ;;
        let kinks := lt_scalar (second_difference y) k in
        if existsb (fun b => b) kinks then
          bad <- getitem (filter_rows kinks df) "cycle_index" ;;
          cycle_index <- getitem df "cycle_index" ;;
          match series_min bad with
          | Some last_good_cycle =>
              Ok (filter_rows (map (fun c => Qltb c last_good_cycle) cycle_index) df)
          | None => Ok (filter_rows (map (fun _ => false) cycle_index) df)
          end
        else Ok df
  end.

(** The three local variables that only the branches of lines 839-866
    assign; [None] is "not bound". *)
Record locals : Type := {
  l_fill_value : option fill;
  l_bounds_error : option bool;
  l_x_linspaces : option (list (list Q))
}.

Definition read {A : Type} (name : string) (v : option A) : result A :=
  match v with
  | Some a => Ok a
  | None => Raise (UnboundLocalError name)
  end.

(** [df['fractional_metric'].min() > threshold] *)
Definition min_above (y : Series) (thr : Q) : bool :=
  match series_min y with
  | Some m => Qltb thr m
  | None => false
  end.

(** Line 855. *)
Definition x_thresh_extrap (thr y1 y2 x1 x2 : Q) : result Q :=
  if Qeq_bool (y2 - y1) 0 then Raise (NonFinite "x_thresh_extrap: y2 = y1")
  else Ok ((thr - (1 # 10) - y1) * (x2 - x1) / (y2 - y1) + x1).

Definition extrapolation_linspace (thr : Q) (y x_axis : Series) : result (list Q) :=
  y1 <- iloc_from_end y 2 ;;
  y2 <- iloc_from_end y 1 ;;
  x1 <- iloc_from_end x_axis 2 ;;
  x2 <- iloc_from_end x_axis 1 ;;
  x_end <- x_thresh_extrap thr y1 y2 x1 x2 ;;
  match series_min x_axis with
  | Some lo => Ok (linspace lo x_end 1000)
  | None => Raise (NonFinite "linspace: empty axis")
  end.

Definition interpolation_linspace (x_axis : Series) : result (list Q) :=
  match series_min x_axis, series_max x_axis with
  | Some lo, Some hi => Ok (linspace lo hi 1000)
  | _, _ => Raise (NonFinite "linspace: empty axis")
  end.

(** Lines 838-866.  In the first branch the exception object is built
    and dropped: the statement has no [raise]. *)
Definition threshold_branch (hp : hyperparameters) (x_axes : list Series) (y : Series)
  : result locals :=
  if min_above y (threshold hp) && negb (extrapolate_threshold hp) then
    Ok {| l_fill_value := None; l_bounds_error := None; l_x_linspaces := None |}
  else if min_above y (threshold hp) && extrapolate_threshold hp then
    x_linspaces <- mapM (extrapolation_linspace (threshold hp) y) x_axes ;;
    Ok {| l_fill_value := Some fill_extrapolate;
          l_bounds_error := Some false;
          l_x_linspaces := Some x_linspaces |}
  else
    x_linspaces <- mapM interpolation_linspace x_axes ;;
    Ok {| l_fill_value := Some fill_nan;
          l_bounds_error := Some true;
          l_x_linspaces := Some x_linspaces |}.

(** Lines 868-878. *)
Definition build_f_axis (loc : locals) (x_axes : list Series) (y : Series)
  : result (list interp1d) :=
  mapM (fun x_axis =>
          bounds_error <- read "bounds_error" (l_bounds_error loc) ;;
          fill_value <- read "fill_value" (l_fill_value loc) ;;
          interp1d_new x_axis y bounds_error fill_value) x_axes.

(** Lines 885-886 for one axis. *)
Definition nearest_sample (f : interp1d) (thr : Q) (x_linspace : list Q) : result Q :=
  values <- interp1d_call f x_linspace ;;
  let crossing_array := map (fun v => Qabs (v - thr)) values in
  i <- argmin crossing_array ;;
  match nth_error x_linspace i with
  | Some x => Ok x
  | None => Raise (IndexError "index out of bounds")
  end.

(** Lines 880-886. *)
Fixpoint x_to_threshold_loop (f_axis : list interp1d) (thr : Q) (indx : nat)
  (x_linspaces : list (list Q)) : result (list Q) :=
  match x_linspaces with
  | [] => Ok []
  | x_linspace :: rest =>
      f <- match nth_error f_axis indx with
           | Some f => Ok f
           | None => Raise (IndexError "list index out of range")
           end ;;
      x <- nearest_sample f thr x_linspace ;;
      xs <- x_to_threshold_loop f_axis thr (S indx) rest ;;
      Ok (x :: xs)
  end.

Definition list_item (l : list Q) (i : nat) : result Q :=
  match nth_error l i with
  | Some v => Ok v
  | None => Raise (IndexError "list index out of range")
  end.

(** Lines 888-892: [~(x[0] > 0) or ~(x[1] > 0)], on numpy booleans. *)
Definition check_positive (x_to_threshold : list Q) : result unit :=
  x0 <- list_item x_to_threshold 0 ;;
  if negb (Qltb 0 x0) then
    Raise (BEEPFeaturizationError
             "DiagnosticProperties data does not have a positive value to threshold")
  else
    x1 <- list_item x_to_threshold 1 ;;
    if negb (Qltb 0 x1) then
      Raise (BEEPFeaturizationError
               "DiagnosticProperties data does not have a positive value to threshold")
    else Ok tt.

(** [l.index(s)] for a string that is in the list *)
Fixpoint py_index (s : string) (l : list string) : nat :=
  match l with
  | [] => 0
  | a :: l' => if String.eqb a s then 0 else S (py_index s l')
  end.

Definition column_key (hp : hyperparameters) (x_axis : string) : string :=
  (cycle_type hp ++ metric hp ++ threshold_str hp ++ "_" ++ x_axis)%string.

(** Lines 909-912. *)
Fixpoint fill_dict (hp : hyperparameters) (x_to_threshold : list Q) (indx : nat)
  (axes : list string) (d : list (string * Q)) : result (list (string * Q)) :=
  match axes with
  | [] => Ok d
  | x_axis :: rest =>
      v <- list_item x_to_threshold indx ;;
      fill_dict hp x_to_threshold (S indx) rest (dict_set (column_key hp x_axis) v d)
  end.

(** Lines 833-886: the crossing value of every axis, with the frame they
    were computed from. *)
Definition crossing_values (hp : hyperparameters) (df : DataFrame)
  : result (DataFrame * list Q) :=
  df <- kink_filter hp df ;;
  x_axes <- mapM (getitem df) (interpolation_axes hp) ;;
  y_interpolation_axis <- getitem df "fractional_metric" ;;
  loc <- threshold_branch hp x_axes y_interpolation_axis ;;
  f_axis <- build_f_axis loc x_axes y_interpolation_axis ;;
  x_linspaces <- read "x_linspaces" (l_x_linspaces loc) ;;
  x_to_threshold <- x_to_threshold_loop f_axis (threshold hp) 0 x_linspaces ;;
  Ok (df, x_to_threshold).

(** Lines 888-914: the one-row frame that is returned, as its list of
    named values. *)
Definition threshold_frame (hp : hyperparameters) (df : DataFrame)
  (x_to_threshold : list Q) : result (list (string * Q)) :=
  _ <- check_positive x_to_threshold ;;
  xa <-
    (if CycleSummaryStats.py_in "normalized_regular_throughput" (interpolation_axes hp)
     then
       x <- list_item x_to_threshold
              (py_index "normalized_regular_throughput" (interpolation_axes hp)) ;;
       irt <- getitem df "initial_regular_throughput" ;;
       irt0 <- values0 irt ;;
       Ok (x_to_threshold ++ [x * irt0],
           interpolation_axes hp ++ ["real_regular_throughput"])
     else Ok (x_to_threshold, interpolation_axes hp)) ;;
  irt <- getitem df "initial_regular_throughput" ;;
  irt0 <- values0 irt ;;
  fill_dict hp (fst xa) 0 (snd xa) [("initial_regular_throughput", irt0)].

Definition get_threshold_targets (hp : hyperparameters) (df : DataFrame)
  : result (list (string * Q)) :=
  dx <- crossing_values hp df ;;
  threshold_frame hp (fst dx) (snd dx).

End DiagnosticProperties.

(** ** [ExclusionCriteria] *)

Module ExclusionCriteria.

Import Np Pd.

(** *** The feature table

    [features] starts as [pd.DataFrame()] and gets its columns by
    assignment.  Every series assigned went through
    [reset_index(drop=True)], so row labels are positions [0, 1, ...] and
    the table is its number of rows with its ordered columns. *)

Inductive cell : Type :=
| Num (q : Q)
| Flag (b : bool)
| NaN.

Record Frame : Type := {
  n_rows : nat;
  cols : list (string * list cell)
}.

Definition empty_frame : Frame := {| n_rows := 0; cols := [] |}.

(** [series.reindex(range(n))]: the first [n] rows, NaN where the series
    has none. *)
Fixpoint reindex (n : nat) (s : list cell) : list cell :=
  match n with
  | O => []
  | S n' =>
      match s with
      | [] => NaN :: reindex n' []
      | c :: s' => c :: reindex n' s'
      end
  end.

(** [features[name] = series].  pandas aligns the series to the index of
    the frame: rows of the series whose label the frame does not have are
    dropped, rows of the frame that the series does not have get NaN.
    There is one exception: a frame whose index is empty takes the index
    of a non-empty series assigned to it, and the columns it already has
    are filled with NaN. *)
Definition setitem_series (name : string) (s : list cell) (f : Frame) : Frame :=
  let f' :=
    if ((n_rows f =? 0) && negb (List.length s =? 0))%nat
    then {| n_rows := List.length s;
            cols := map (fun c => (fst c, reindex (List.length s) (snd c))) (cols f) |}
    else f in
  {| n_rows := n_rows f';
     cols := dict_set name (reindex (n_rows f') s) (cols f') |}.

(** [features[name] = scalar] *)
Definition setitem_scalar (name : string) (v : cell) (f : Frame) : Frame :=
  {| n_rows := n_rows f;
     cols := dict_set name (repeat v (n_rows f)) (cols f) |}.

Definition column (name : string) (f : Frame) : result (list cell) :=
  match dict_get name (cols f) with
  | Some c => Ok c
  | None => Raise (KeyError name)
  end.

(** Python truth value of a cell: NaN is a non-zero float. *)
Definition truth (c : cell) : bool :=
  match c with
  | Flag b => b
  | Num q => negb (Qeq_bool q 0)
  | NaN => true
  end.

(** *** Inputs *)

Record summary_row : Type := {
  index : Z;
  cycle_index : Z;
  charge_throughput : option Q
}.

Record data_row : Type := {
  data_cycle_index : Z;
  step_type : string;
  test_time : Q
}.

(** A row of the table [get_fractional_quantity_remaining_nx] returns;
    [cycle_index] holds whole numbers, so [int(...)] of it is itself. *)
Record diag_row : Type := {
  diag_cycle_index : Z;
  fractional_metric : option Q
}.

Record protocol_parameters : Type := {
  capacity_nominal : Q;
  charge_constant_current_1 : Q;
  charge_constant_current_2 : Q
}.

Record DataPath : Type := {
  structured_summary : list summary_row;
  structured_data : list data_row;
  nominal_capacity : option Q;  (** [structuring_parameters.get("nominal_capacity")] *)
  paths : list (string * string)
}.

Record hyperparameters : Type := {
  parameters_dir : string;
  EOL_cycle_type : string;
  EOL_threshold : Q;
  EOL_quantity : string;
  throughput_n : Z;
  throughput_cutoff : Q;
  equivalent_full_cycles_cutoff : Q;
  early_CV_cutoff : Q
}.

Definition DEFAULT_HYPERPARAMETERS (dir : string) : hyperparameters := {|
  parameters_dir := dir;
  EOL_cycle_type := "rpt_0.2C";
  EOL_threshold := 8 # 10;
  EOL_quantity := "discharge_capacity";
  throughput_n := 30;
  throughput_cutoff := 20;
  equivalent_full_cycles_cutoff := 30;
  early_CV_cutoff := 3 # 10
|}.

(** [fillna(method='ffill')] *)
Fixpoint ffill_from (prev : option Q) (l : list (option Q)) : list (option Q) :=
  match l with
  | [] => []
  | Some v :: l' => Some v :: ffill_from (Some v) l'
  | None :: l' => prev :: ffill_from prev l'
  end.

Definition ffill (l : list (option Q)) : list (option Q) := ffill_from None l.

(** [s.iloc[-k:]] *)
Definition tail_slice {A : Type} (k : nat) (s : list A) : list A :=
  skipn (List.length s - k) s.

Definition to_cell (v : option Q) : cell :=
  match v with
  | Some q => Num q
  | None => NaN
  end.

(** [x > c] and [x < c] on a float that may be NaN *)
Definition gt_float (v : option Q) (c : Q) : bool :=
  match v with
  | Some q => Qltb c q
  | None => false
  end.

Definition lt_float (v : option Q) (c : Q) : bool :=
  match v with
  | Some q => Qltb q c
  | None => false
  end.

Definition first_item {A : Type} (s : list A) : result A :=
  match s with
  | a :: _ => Ok a
  | [] => Raise (IndexError "single positional indexer is out-of-bounds")
  end.

Definition last_item {A : Type} (s : list A) : result A :=
  first_item (rev s).

(** [paths['raw'] if 'raw' in paths.keys() else paths['structured']] *)
Definition file_path (dp : DataPath) : result string :=
  match dict_get "raw" (paths dp) with
  | Some p => Ok p
  | None =>
      match dict_get "structured" (paths dp) with
      | Some p => Ok p
      | None => Raise (KeyError "structured")
      end
  end.

Definition Z_max_list (l : list Z) : option Z :=
  match l with
  | [] => None
  | z :: l' => Some (fold_left Z.max l' z)
  end.

Section Helpers.

(** Functions of the repository that [core.py] imports:
    [featurizer_helpers.get_fractional_quantity_remaining_nx] (called
    with the datapath, the EOL quantity, the EOL cycle type and the
    parameters directory), [get_protocol_parameters] (file path and
    parameters directory) and [get_CV_segment_from_charge]. *)
Variable get_fractional_quantity_remaining_nx :
  DataPath -> string -> string -> string -> result (list diag_row).
Variable get_protocol_parameters : string -> string -> result protocol_parameters.
Variable get_CV_segment_from_charge : list data_row -> result (list data_row).
Variable check_diagnostic_validation : DataPath -> bool * option string.

(** [validate] *)
Definition validate (dp : DataPath) : bool * option string :=
  if negb (match dict_get "raw" (paths dp) with Some _ => true | None => false end
           || match dict_get "structured" (paths dp) with Some _ => true | None => false end)
  then (false, Some "datapath paths not set, unable to fetch charging protocol")
  else check_diagnostic_validation dp.

(** Lines 969-979. *)
Definition throughput_rule (hp : hyperparameters) (dp : DataPath) (features : Frame)
  : Frame :=
  let n := throughput_n hp in
  let first_n_cycles_throughput :=
    map (fun r => match charge_throughput r with Some q => q | None => 0 end)
      (filter (fun r => Z.eqb (index r) n) (structured_summary dp)) in
  let cutoff := throughput_cutoff hp in
  let first_n_cycles_throughput_criteria :=
    map (fun x => Qltb cutoff x) first_n_cycles_throughput in
  let features :=
    setitem_series "first_n_cycles_throughput"
      (map Num first_n_cycles_throughput) features in
  setitem_series "is_above_first_n_cycles_throughput"
    (map Flag first_n_cycles_throughput_criteria) features.

(** Lines 987-995: the series of values the rule looks at. *)
Definition fractional_capacity_at_EOT (diag : list diag_row) : result (list (option Q)) :=
  let filled := ffill (map fractional_metric diag) in
  let at_EOT := tail_slice 1 filled in
  v <- first_item at_EOT ;;
  if gt_float v 1 then Ok (tail_slice 2 filled) else Ok at_EOT.

(** Lines 987-998. *)
Definition EOL_rule (hp : hyperparameters) (diag : list diag_row) (features : Frame)
  : result Frame :=
  at_EOT <- fractional_capacity_at_EOT diag ;;
  let threshold := EOL_threshold hp in
  let criteria := map (fun x => lt_float x threshold) at_EOT in
  let features :=
    setitem_series "fractional_capacity_at_EOT" (map to_cell at_EOT) features in
  Ok (setitem_series "is_below_fractional_capacity_at_EOT" (map Flag criteria) features).

(** Lines 1002-1009. *)
Definition cutoff_cycle_index (hp : hyperparameters) (diag : list diag_row)
  (features : Frame) : result Z :=
  c <- column "is_below_fractional_capacity_at_EOT" features ;;
  reached <- first_item c ;;
  if truth reached then
    r <- first_item
           (filter (fun r => lt_float (fractional_metric r) (EOL_threshold hp)) diag) ;;
    Ok (diag_cycle_index r)
  else
    r <- last_item diag ;;
    Ok (diag_cycle_index r).

(** Lines 1012-1019. *)
Definition find_nominal_capacity (hp : hyperparameters) (dp : DataPath) : result Q :=
  match nominal_capacity dp with
  | Some c => Ok c
  | None =>
      fp <- file_path dp ;;
      parameters <- get_protocol_parameters fp (parameters_dir hp) ;;
      Ok (capacity_nominal parameters)
  end.

(** Lines 1021-1033. *)
Definition EFC_rule (hp : hyperparameters) (dp : DataPath) (cutoff_cycle : Z)
  (nominal : Q) (features : Frame) : result Frame :=
  let summary := structured_summary dp in
  let last_regular_cycle_before_EOL :=
    Z_max_list (map cycle_index
                  (filter (fun r => Z.leb (cycle_index r) cutoff_cycle) summary)) in
  let throughput :=
    select
      (map (fun r => match last_regular_cycle_before_EOL with
                     | Some c => Z.eqb (cycle_index r) c
                     | None => false
                     end) summary)
      (ffill (map charge_throughput summary)) in
  equivalent_full_cycles_at_EOL <-
    mapM (fun x => if Qeq_bool nominal 0 then Raise ZeroDivisionError
                   else Ok (match x with
                            | Some q => Some (q / nominal)
                            | None => None
                            end)) throughput ;;
  let cutoff := equivalent_full_cycles_cutoff hp in
  let criteria := map (fun x => gt_float x cutoff) equivalent_full_cycles_at_EOL in
  let features :=
    setitem_series "equivalent_full_cycles_at_EOL"
      (map to_cell equivalent_full_cycles_at_EOL) features in
  Ok (setitem_series "is_above_equivalent_full_cycles_at_EOL" (map Flag criteria) features).

(** Lines 1051-1062: the constant-voltage onset of one cycle, as a
    fraction of the duration of the cycle.  The three times are Python
    floats, whose division raises on a zero divisor. *)
Definition CV_onset_frac (dp : DataPath) (cycle : Z) : result Q :=
  let cycle_data :=
    filter (fun r => Z.eqb (data_cycle_index r) cycle) (structured_data dp) in
  let charge_data :=
    filter (fun r => String.eqb (step_type r) "charge") cycle_data in
  CV_segment <- get_CV_segment_from_charge charge_data ;;
  onset <- first_item CV_segment ;;
  let CV_onset_time := test_time onset in
  match series_min (map test_time cycle_data), series_max (map test_time cycle_data) with
  | Some cycle_start_time, Some cycle_end_time =>
      if Qeq_bool (cycle_end_time - cycle_start_time) 0 then Raise ZeroDivisionError
      else Ok ((CV_onset_time - cycle_start_time) / (cycle_end_time - cycle_start_time))
  | _, _ => Raise (NonFinite "test_time of an empty cycle")
  end.

(** The onset fraction of a cycle is computed and is not below the
    cutoff. *)
Definition onset_not_early (hp : hyperparameters) (dp : DataPath) (cycle : Z) : Prop :=
  exists frac,
    CV_onset_frac dp cycle = Ok frac /\ early_CV_cutoff hp <= frac.

(** Lines 1047-1066: the loop, with its [break]. *)
Fixpoint early_CV_loop (hp : hyperparameters) (dp : DataPath) (cycles : list Z)
  : result bool :=
  match cycles with
  | [] => Ok true
  | cycle :: rest =>
      frac <- CV_onset_frac dp cycle ;;
      if Qltb frac (early_CV_cutoff hp) then Ok false
      else early_CV_loop hp dp rest
  end.

(** Lines 1044-1068: the value of [is_not_early_CV]. *)
Definition is_not_early_CV (hp : hyperparameters) (dp : DataPath)
  (parameters : protocol_parameters) (cutoff_cycle : Z) : result bool :=
  let CC1 := charge_constant_current_1 parameters in
  let CC2 := charge_constant_current_2 parameters in
  if Qle_bool CC1 CC2 then Ok true
  else
    let regular_cycles_pre_EOL :=
      filter (fun r => Z.leb (cycle_index r) cutoff_cycle) (structured_summary dp) in
    early_CV_loop hp dp (map cycle_index regular_cycles_pre_EOL).

(** Line 1071: [c[:3] == "is_"] *)
Definition is_criterion (c : string) : bool :=
  String.eqb (substring 0 3 c) "is_".

Definition exclusion_criteria_columns (features : Frame) : list (string * list cell) :=
  filter (fun c => is_criterion (fst c)) (cols features).

(** Line 1072: one value of [to_include] per row of the table. *)
Definition to_include_row (features : Frame) (i : nat) : cell :=
  Flag (forallb (fun c => truth (nth i (snd c) NaN)) (exclusion_criteria_columns features)).

Definition set_to_include (features : Frame) : Frame :=
  setitem_series "to_include"
    (map (to_include_row features) (seq 0 (n_rows features))) features.

Definition create_features (hp : hyperparameters) (dp : DataPath) : result Frame :=
  let features := empty_frame in
  let features := throughput_rule hp dp features in
  diag <- get_fractional_quantity_remaining_nx dp (EOL_quantity hp)
            (EOL_cycle_type hp) (parameters_dir hp) ;;
  features <- EOL_rule hp diag features ;;
  cutoff_cycle <- cutoff_cycle_index hp diag features ;;
  nominal <- find_nominal_capacity hp dp ;;
  features <- EFC_rule hp dp cutoff_cycle nominal features ;;
  fp <- file_path dp ;;
  parameters <- get_protocol_parameters fp (parameters_dir hp) ;;
  not_early <- is_not_early_CV hp dp parameters cutoff_cycle ;;
  let features := setitem_scalar "is_not_early_CV" (Flag not_early) features in
  Ok (set_to_include features).

End Helpers.

End ExclusionCriteria.

(** ** What the solver is meant to compute

    These definitions follow the description of the threshold-crossing
    search, not the code: a uniform grid of 1000 samples, the
    piecewise-linear function through the points of the series, and the
    sample whose value is nearest to the threshold. *)

Module Crossing.

(** Sample [i] of the 1000 evenly spaced samples from [lo] to [hi]. *)
Definition sample (lo hi : Q) (i : nat) : Q :=
  inject_Z (Z.of_nat i) * ((hi - lo) / 999) + lo.

Fixpoint increasing (l : list Q) : Prop :=
  match l with
  | x :: ((y :: _) as tl) => x < y /\ increasing tl
  | _ => True
  end.

Fixpoint decreasing (l : list Q) : Prop :=
  match l with
  | x :: ((y :: _) as tl) => y < x /\ decreasing tl
  | _ => True
  end.

(** [interpolates pts x y]: [x] lies between two neighbouring points of
    [pts] and [y] is the value at [x] of the straight line through them. *)
Inductive interpolates : list (Q * Q) -> Q -> Q -> Prop :=
| interpolates_here (x0 y0 x1 y1 : Q) (rest : list (Q * Q)) (x y : Q) :
    x0 <= x -> x <= x1 -> x0 < x1 ->
    y == y0 + (y1 - y0) * (x - x0) / (x1 - x0) ->
    interpolates ((x0, y0) :: (x1, y1) :: rest) x y
| interpolates_later (p : Q * Q) (rest : list (Q * Q)) (x y : Q) :
    interpolates rest x y ->
    interpolates (p :: rest) x y.

(** [v] is the sample of the grid from [lo] to [hi] at which [F] is
    nearest to [thr]. *)
Definition nearest_on_grid (F : Q -> Q) (thr lo hi v : Q) : Prop :=
  exists k, (k < 1000)%nat
    /\ v = sample lo hi k
    /\ forall i, (i < 1000)%nat ->
         Qabs (F (sample lo hi k) - thr) <= Qabs (F (sample lo hi i) - thr).

(** The straight line through two points, at [x]. *)
Definition line (p0 p1 : Q * Q) (x : Q) : Q :=
  (snd p1 - snd p0) / (fst p1 - fst p0) * (x - fst p0) + snd p0.

(** The point at which the straight line through [(x1, y1)] and
    [(x2, y2)] takes the value [y]. *)
Definition line_reaches (x1 y1 x2 y2 y : Q) : Q :=
  x1 + (y - y1) * (x2 - x1) / (y2 - y1).

End Crossing.

(** ** Concrete runs used below *)

Module Runs.

Import Np Pd.

Module DP := DiagnosticProperties.

Definition with_axes (axes : list string) (k : option Q) (extrapolate : bool)
  : DP.hyperparameters := {|
  DP.cycle_type := "rpt_1C";
  DP.metric := "discharge_energy";
  DP.interpolation_axes := axes;
  DP.threshold := 8 # 10;
  DP.threshold_str := "0.8";
  DP.filter_kinks := k;
  DP.extrapolate_threshold := extrapolate
|}.

Definition default_axes : list string :=
  ["normalized_regular_throughput"; "cycle_index"].

(** Three diagnostics, all above the threshold of 0.8. *)
Definition above_threshold : DataFrame :=
  [("cycle_index", [1; 50; 100]);
   ("normalized_regular_throughput", [1; 50; 100]);
   ("initial_regular_throughput", [2; 2; 2]);
   ("fractional_metric", [1; 95 # 100; 80005 # 100000])].

(** Four diagnostics that reach the threshold at the third; the column
    [x] counts from the last diagnostic. *)
Definition three_axes : DataFrame :=
  [("cycle_index", [1; 2; 3; 4]);
   ("normalized_regular_throughput", [5 # 10; 1; 15 # 10; 2]);
   ("x", [-30; -20; -10; 0]);
   ("initial_regular_throughput", [2; 2; 2; 2]);
   ("fractional_metric", [1; 9 # 10; 8 # 10; 7 # 10])].

(** Steady degradation over three diagnostics, then an abrupt drop. *)
Definition late_kink : DataFrame :=
  [("cycle_index", [1; 50; 100; 150]);
   ("normalized_regular_throughput", [1; 50; 100; 150]);
   ("initial_regular_throughput", [2; 2; 2; 2]);
   ("fractional_metric", [1; 95 # 100; 90 # 100; 75 # 100])].

Definition late_kink_first_two : DataFrame :=
  [("cycle_index", [1; 50]);
   ("normalized_regular_throughput", [1; 50]);
   ("initial_regular_throughput", [2; 2]);
   ("fractional_metric", [1; 95 # 100])].

(** Steady degradation only. *)
Definition steady : DataFrame :=
  [("cycle_index", [1; 50; 100; 150]);
   ("normalized_regular_throughput", [1; 50; 100; 150]);
   ("initial_regular_throughput", [2; 2; 2; 2]);
   ("fractional_metric", [1; 95 # 100; 90 # 100; 85 # 100])].

Definition steady_first_two : DataFrame :=
  [("cycle_index", [1; 50]);
   ("normalized_regular_throughput", [1; 50]);
   ("initial_regular_throughput", [2; 2]);
   ("fractional_metric", [1; 95 # 100])].

(** The metric falls in a straight line from 1.0 to 0.5 while both axes
    go from 0 to 100. *)
Definition linear_decline : DataFrame :=
  [("cycle_index", [0; 10; 20; 30; 40; 50; 60; 70; 80; 90; 100]);
   ("normalized_regular_throughput", [0; 10; 20; 30; 40; 50; 60; 70; 80; 90; 100]);
   ("initial_regular_throughput", [2; 2; 2; 2; 2; 2; 2; 2; 2; 2; 2]);
   ("fractional_metric",
    [1; 95 # 100; 90 # 100; 85 # 100; 80 # 100; 75 # 100; 70 # 100; 65 # 100;
     60 # 100; 55 # 100; 50 # 100])].

(** Two diagnostics just above the threshold, on axes that start at 0. *)
Definition from_zero : DataFrame :=
  [("cycle_index", [0; 1]);
   ("normalized_regular_throughput", [0; 1]);
   ("initial_regular_throughput", [2; 2]);
   ("fractional_metric", [80004 # 100000; 80002 # 100000])].

(** Three diagnostics above the threshold, on axes that start at 0. *)
Definition zero_start : DataFrame :=
  [("cycle_index", [0; 50; 100]);
   ("normalized_regular_throughput", [0; 50; 100]);
   ("initial_regular_throughput", [2; 2; 2]);
   ("fractional_metric", [1; 95 # 100; 90 # 100])].

Module EC := ExclusionCriteria.

Definition regular_cycle (i : Z) (throughput : Q) : EC.summary_row :=
  {| EC.index := i; EC.cycle_index := i; EC.charge_throughput := Some throughput |}.

Definition sample (cycle : Z) (step : string) (t : Q) : EC.data_row :=
  {| EC.data_cycle_index := cycle; EC.step_type := step; EC.test_time := t |}.

Definition diagnostic (cycle : Z) (fraction : Q) : EC.diag_row :=
  {| EC.diag_cycle_index := cycle; EC.fractional_metric := Some fraction |}.

(** Three regular cycles.  Cycle 1 spends its first tenth in constant
    current; cycle 2 has no samples. *)
Definition three_cycles : EC.DataPath := {|
  EC.structured_summary := [regular_cycle 0 1; regular_cycle 1 2; regular_cycle 2 3];
  EC.structured_data :=
    [sample 0 "charge" 0; sample 0 "charge" 50; sample 0 "discharge" 100;
     sample 1 "charge" 100; sample 1 "charge" 110; sample 1 "discharge" 200];
  EC.nominal_capacity := Some 1;
  EC.paths := [("raw", "run.csv")]
|}.

(** The default hyperparameters look at the row labelled 30, which a run
    of three cycles does not have; [early_cycle 2] looks at the last row
    of [three_cycles]. *)
Definition early_cycle (n : Z) : EC.hyperparameters := {|
  EC.parameters_dir := "parameters";
  EC.EOL_cycle_type := "rpt_0.2C";
  EC.EOL_threshold := 8 # 10;
  EC.EOL_quantity := "discharge_capacity";
  EC.throughput_n := n;
  EC.throughput_cutoff := 20;
  EC.equivalent_full_cycles_cutoff := 30;
  EC.early_CV_cutoff := 3 # 10
|}.

(** Diagnostics whose last value is above 1. *)
Definition rebound : list EC.diag_row :=
  [diagnostic 0 1; diagnostic 1 (75 # 100); diagnostic 2 (105 # 100)].

Definition fractions_of (diag : list EC.diag_row)
  (dp : EC.DataPath) (quantity cycle_type dir : string) : result (list EC.diag_row) :=
  Ok diag.

Definition protocol (cc1 cc2 : Q) (file dir : string) : result EC.protocol_parameters :=
  Ok {| EC.capacity_nominal := 1;
        EC.charge_constant_current_1 := cc1;
        EC.charge_constant_current_2 := cc2 |}.

(** A stand-in for [get_CV_segment_from_charge]: the constant-voltage
    segment is the charge data after its first sample. *)
Definition after_first_sample (charge : list EC.data_row) : result (list EC.data_row) :=
  Ok (tl charge).

End Runs.

(** ** Python lists and strings *)

Module PyList.

(** [l[i]] on a Python list and [df.iloc[i]] on the rows of a frame: a
    negative position counts from the end. *)
Definition position (n : nat) (i : Z) : option nat :=
  let i' := if (i <? 0)%Z then (Z.of_nat n + i)%Z else i in
  if ((i' <? 0) || (Z.of_nat n <=? i'))%Z then None else Some (Z.to_nat i').

Definition py_item {A : Type} (l : list A) (i : Z) : result A :=
  match position (List.length l) i with
  | Some k =>
      match nth_error l k with
      | Some a => Ok a
      | None => Raise (IndexError "list index out of range")
      end
  | None => Raise (IndexError "list index out of range")
  end.

Definition iloc {A : Type} (rows : list A) (i : Z) : result A :=
  match position (List.length rows) i with
  | Some k =>
      match nth_error rows k with
      | Some a => Ok a
      | None => Raise (IndexError "single positional indexer is out-of-bounds")
      end
  | None => Raise (IndexError "single positional indexer is out-of-bounds")
  end.

(** [max(l)] on a list of integers *)
Definition py_max (l : list Z) : result Z :=
  match l with
  | [] => Raise (ValueError "max() arg is an empty sequence")
  | z :: l' => Ok (fold_left Z.max l' z)
  end.

(** [str(i)] of an integer *)
Definition py_str (i : Z) : string := NilZero.string_of_int (Z.to_int i).

(** [suffixes t]: [t] and all its proper suffixes. *)
Fixpoint suffixes (t : string) : list string :=
  t :: match t with
       | EmptyString => []
       | String _ t' => suffixes t'
       end.

End PyList.

(** ** [CycleSummaryStats.create_features] *)

Module CycleSummaryFeatures.

Import PyList.

(** A row of [datapath.structured_data], with the columns that
    [create_features] reads; a float may be NaN. *)
Record data_row : Type := {
  cycle_index : Z;
  step_type : string;
  charge_capacity : option Q;
  discharge_capacity : option Q;
  charge_energy : option Q;
  discharge_energy : option Q
}.

Record hyperparameters : Type := {
  cycle_comp_num : list Z;
  statistics : list string
}.

Definition DEFAULT_HYPERPARAMETERS : hyperparameters := {|
  cycle_comp_num := [10; 100]%Z;
  statistics := CycleSummaryStats.DEFAULT_statistics
|}.

(** [a.values - b.values] on two one-dimensional arrays: numpy stretches
    an array of length 1 and refuses other lengths that differ; NaN
    propagates. *)
Definition minus (x y : option Q) : option Q :=
  match x, y with
  | Some a, Some b => Some (a - b)
  | _, _ => None
  end.

Fixpoint zip_minus (a b : list (option Q)) : list (option Q) :=
  match a, b with
  | x :: a', y :: b' => minus x y :: zip_minus a' b'
  | _, _ => []
  end.

Definition np_subtract (a b : list (option Q)) : result (list (option Q)) :=
  if (List.length a =? List.length b)%nat then Ok (zip_minus a b)
  else
    match a, b with
    | [x], _ => Ok (map (fun y => minus x y) b)
    | _, [y] => Ok (map (fun x => minus x y) a)
    | _, _ => Raise (ValueError "operands could not be broadcast together")
    end.

(** [array[~np.isnan(array)]] *)
Fixpoint drop_nan (l : list (option Q)) : list Q :=
  match l with
  | [] => []
  | Some q :: l' => q :: drop_nan l'
  | None :: l' => drop_nan l'
  end.

(** [cycle[cycle.step_type == step].column], for the rows of one cycle *)
Definition step_column (rows : list data_row) (cycle : Z) (step : string)
  (column : data_row -> option Q) : list (option Q) :=
  map column
    (filter (fun r => String.eqb (step_type r) step)
       (filter (fun r => Z.eqb (cycle_index r) cycle) rows)).

(** The four quantities of lines 199-204. *)
Definition quantities : list string :=
  ["charging_capacity"; "discharging_capacity"; "charging_energy"; "discharging_energy"].

Section Features.

(** The numeric library, as in [get_summary_statistics], on arrays of
    numbers; [zero] is the float 0.0 of [np.zeros]. *)
Variable V : Type.
Variable zero : V.
Variable np_var np_mean skew kurtosis_pearson_unbiased : list Q -> V.
Variable py_min : list Q -> result V.
Variable sum_absolute sum_square : list Q -> V.
Variable np_absolute np_log10 : V -> V.

Definition get_summary_statistics (hp : hyperparameters) (array : list Q)
  : result (list V) :=
  CycleSummaryStats.get_summary_statistics np_var np_mean skew
    kurtosis_pearson_unbiased py_min sum_absolute sum_square np_absolute np_log10
    (statistics hp) array.

(** The vector of [get_summary_statistics] for the seven names, in the
    order of lines 238-252, for an array whose minimum is [m]. *)
Definition seven_statistics (array : list Q) (m : V) : list V :=
  [np_log10 (np_absolute (np_var array));
   np_log10 (np_absolute m);
   np_log10 (np_absolute (np_mean array));
   np_log10 (np_absolute (skew array));
   np_log10 (np_absolute (kurtosis_pearson_unbiased array));
   np_log10 (sum_absolute array);
   np_log10 (sum_square array)].

(** [X.loc[0, first:last] = stats] on the one row of [X]: the slice of
    labels includes [last]; an array of one value is stretched over the
    slice, any other length than that of the slice is refused. *)
Definition loc_set (X : list V) (first last : nat) (stats : list V) : result (list V) :=
  let width := (last + 1 - first)%nat in
  if (List.length stats =? width)%nat
  then Ok (firstn first X ++ stats ++ skipn (last + 1) X)
  else
    match stats with
    | [v] => Ok (firstn first X ++ repeat v width ++ skipn (last + 1) X)
    | _ => Raise (ValueError "could not broadcast input array")
    end.

(** [X.columns = labels] *)
Definition set_columns (X : list V) (labels : list string) : result (list (string * V)) :=
  if (List.length labels =? List.length X)%nat then Ok (combine labels X)
  else Raise (ValueError "Length mismatch").

(** Lines 163-170, 172-179, 182-187 and 190-197: the statistics of the
    difference of one column between the two cycles. *)
Definition difference_statistics (hp : hyperparameters) (rows : list data_row)
  (cycle_1 cycle_0 : Z) (step : string) (column : data_row -> option Q)
  : result (list V) :=
  diff <- np_subtract (step_column rows cycle_1 step column)
            (step_column rows cycle_0 step column) ;;
  get_summary_statistics hp (drop_nan diff).

(** Lines 154-209: the one row of [X], as its list of labelled values. *)
Definition create_features (hp : hyperparameters) (rows : list data_row)
  : result (list (string * V)) :=
  let X := repeat zero 28 in
  cycle_1 <- py_item (cycle_comp_num hp) 1 ;;
  cycle_0 <- py_item (cycle_comp_num hp) 0 ;;
  stats <- difference_statistics hp rows cycle_1 cycle_0 "charge" charge_capacity ;;
  X <- loc_set X 0 6 stats ;;
  stats <- difference_statistics hp rows cycle_1 cycle_0 "discharge" discharge_capacity ;;
  X <- loc_set X 7 13 stats ;;
  stats <- difference_statistics hp rows cycle_1 cycle_0 "charge" charge_energy ;;
  X <- loc_set X 14 20 stats ;;
  stats <- difference_statistics hp rows cycle_1 cycle_0 "charge" discharge_energy ;;
  X <- loc_set X 21 27 stats ;;
  set_columns X (CycleSummaryStats.feature_columns quantities (statistics hp)).

End Features.

(** A run in which the rows that are not of a charge step carry another
    discharge energy, [g r]. *)
Definition with_discharge_energy (g : data_row -> option Q) (r : data_row) : data_row :=
  if String.eqb (step_type r) "charge" then r
  else {| cycle_index := cycle_index r;
          step_type := step_type r;
          charge_capacity := charge_capacity r;
          discharge_capacity := discharge_capacity r;
          charge_energy := charge_energy r;
          discharge_energy := g r |}.

End CycleSummaryFeatures.

(** ** [DiagnosticSummaryStats]: [validate] and [get_summary_diff] *)

Module DiagnosticSummaryStats.

Import Pd PyList.

(** A row of [datapath.diagnostic_summary]: its cycle type, its cycle
    index and its numeric columns by name. *)
Record summary_row : Type := {
  cycle_type : string;
  cycle_index : Z;
  values : list (string * Q)
}.

Record hyperparameters : Type := {
  diagnostic_cycle_type : string;
  diag_pos_list : list Z
}.

Definition DEFAULT_HYPERPARAMETERS : hyperparameters := {|
  diagnostic_cycle_type := "rpt_0.2C";
  diag_pos_list := [0; 1]%Z
|}.

(** The datapath, as far as the two methods read it. *)
Record DataPath : Type := {
  diagnostic_summary : list summary_row
}.

(** The default arguments of [get_summary_diff] *)
Definition DEFAULT_cycle_types : list string := ["rpt_0.2C"; "rpt_1C"; "rpt_2C"].

Definition DEFAULT_metrics : list string :=
  ["discharge_capacity"; "discharge_energy"; "charge_capacity"; "charge_energy"].

(** [summary[summary.cycle_type == cycle_type]] *)
Definition of_type (cycle_type_ : string) (summary : list summary_row)
  : list summary_row :=
  filter (fun r => String.eqb (cycle_type r) cycle_type_) summary.

(** [series.nunique()] *)
Definition nunique (l : list Z) : nat := List.length (nodup Z.eq_dec l).

(** [row[metric]] *)
Definition row_item (r : summary_row) (metric : string) : result Q :=
  match dict_get metric (values r) with
  | Some v => Ok v
  | None => Raise (KeyError metric)
  end.

Section Validate.

(** [featurizer_helpers.check_diagnostic_validation] *)
Variable check_diagnostic_validation : DataPath -> bool * option string.

(** Lines 293-304. *)
Definition validate (hp : hyperparameters) (dp : DataPath)
  : result (bool * option string) :=
  let (val, msg) := check_diagnostic_validation dp in
  if val then
    let df := of_type (diagnostic_cycle_type hp) (diagnostic_summary dp) in
    m <- py_max (diag_pos_list hp) ;;
    if (m + 1 <=? Z.of_nat (nunique (map cycle_index df)))%Z
    then Ok (true, None)
    else Ok (false, Some "Diagnostic cycles insufficient for featurization")
  else Ok (val, msg).

End Validate.

(** Lines 335-337: the relative difference for one metric.  The operands
    are evaluated from left to right; the divisor is the value that was
    subtracted. *)
Definition summary_diff (diag_type_summary : list summary_row) (pos : list Z)
  (metric : string) : result Q :=
  p1 <- py_item pos 1 ;;
  r1 <- iloc diag_type_summary p1 ;;
  v1 <- row_item r1 metric ;;
  p0 <- py_item pos 0 ;;
  r0 <- iloc diag_type_summary p0 ;;
  v0 <- row_item r0 metric ;;
  if Qeq_bool v0 0 then Raise (NonFinite "get_summary_diff: division by zero")
  else Ok ((v1 - v0) / v0).

(** Lines 339-340. *)
Definition summary_diff_label (p0 p1 : Z) (cycle_type_ metric : string) : string :=
  ("diag_sum_diff_" ++ py_str p0 ++ "_" ++ py_str p1 ++ "_" ++ cycle_type_ ++ metric)%string.

Definition summary_diff_name (pos : list Z) (cycle_type_ metric : string)
  : result string :=
  p0 <- py_item pos 0 ;;
  p1 <- py_item pos 1 ;;
  Ok (summary_diff_label p0 p1 cycle_type_ metric).

(** Lines 334-340: the inner loop, on the two lists it appends to. *)
Fixpoint metrics_loop (diag_type_summary : list summary_row) (pos : list Z)
  (cycle_type_ : string) (metrics : list string) (acc : list Q * list string)
  : result (list Q * list string) :=
  match metrics with
  | [] => Ok acc
  | metric :: rest =>
      diff <- summary_diff diag_type_summary pos metric ;;
      name <- summary_diff_name pos cycle_type_ metric ;;
      metrics_loop diag_type_summary pos cycle_type_ rest
        (fst acc ++ [diff], snd acc ++ [name])
  end.

(** Lines 331-340: the outer loop. *)
Fixpoint cycle_types_loop (diagnostic_summary : list summary_row) (pos : list Z)
  (cycle_types metrics : list string) (acc : list Q * list string)
  : result (list Q * list string) :=
  match cycle_types with
  | [] => Ok acc
  | cycle_type_ :: rest =>
      acc <- metrics_loop (of_type cycle_type_ diagnostic_summary) pos
               cycle_type_ metrics acc ;;
      cycle_types_loop diagnostic_summary pos rest metrics acc
  end.

(** Line 327: [not pos] holds for [None] and for the empty list. *)
Definition positions (hp : hyperparameters) (pos : option (list Z)) : list Z :=
  match pos with
  | None | Some [] => diag_pos_list hp
  | Some pos => pos
  end.

(** Lines 327-341. *)
Definition get_summary_diff (hp : hyperparameters) (dp : DataPath)
  (pos : option (list Z)) (cycle_types metrics : list string)
  : result (list Q * list string) :=
  cycle_types_loop (diagnostic_summary dp) (positions hp pos) cycle_types metrics
    ([], []).

End DiagnosticSummaryStats.

(** ** The filter on the diagnostic data

    [HPPCResistanceVoltageFeatures.create_features] (lines 44-52) and
    [DiagnosticSummaryStats.create_features] (lines 358-366) start with
    the same two statements, which replace [datapath.diagnostic_data]. *)

Module DiagnosticData.

(** A row of [diagnostic_data]: the columns the filter reads, and the
    other columns as [payload].  The three columns of the group key hold
    whole numbers. *)
Record row (P : Type) : Type := {
  cycle_index : Z;
  step_index : Z;
  step_index_counter : Z;
  test_time : option Q;
  payload : P
}.

Record hyperparameters : Type := {
  test_time_filter_sec : Q;
  cycle_index_filter : Z
}.

Definition DEFAULT_HYPERPARAMETERS : hyperparameters := {|
  test_time_filter_sec := 1000000;
  cycle_index_filter := 6
|}.

Section Filter.

Variable P : Type.

(** [(test_time > test_time_filter_sec) & (cycle_index < cycle_index_filter)];
    a comparison with NaN is [False]. *)
Definition final_diagnostic (hp : hyperparameters) (r : row P) : bool :=
  match test_time r with
  | Some t => Np.Qltb (test_time_filter_sec hp) t
  | None => false
  end && Z.ltb (cycle_index r) (cycle_index_filter hp).

(** Lines 44-49: [diagnostic_data[~(...)]] *)
Definition drop_final_diagnostic (hp : hyperparameters) (rows : list (row P))
  : list (row P) :=
  filter (fun r => negb (final_diagnostic hp r)) rows.

(** The rows of one group of
    [groupby(["cycle_index", "step_index", "step_index_counter"])] *)
Definition same_group (r r' : row P) : bool :=
  Z.eqb (cycle_index r) (cycle_index r')
  && Z.eqb (step_index r) (step_index r')
  && Z.eqb (step_index_counter r) (step_index_counter r').

Definition isnull (v : option Q) : bool :=
  match v with
  | Some _ => false
  | None => true
  end.

(** Lines 50-52: [groupby(...).filter(lambda x: ~x["test_time"].isnull().all())]
    keeps the rows of the groups for which the function holds, in the
    order of the frame. *)
Definition drop_null_groups (rows : list (row P)) : list (row P) :=
  filter (fun r =>
            negb (forallb (fun r' => isnull (test_time r'))
                    (filter (same_group r) rows))) rows.

Definition filter_diagnostic_data (hp : hyperparameters) (rows : list (row P))
  : list (row P) :=
  drop_null_groups (drop_final_diagnostic hp rows).

End Filter.

End DiagnosticData.

(** ** Rows of a frame *)

Module Frames.

Import Np Pd.

(** [df.iloc[:n]] *)
Definition first_rows (n : nat) (df : DataFrame) : DataFrame :=
  map (fun nc => (fst nc, firstn n (snd nc))) df.

End Frames.

(** ** Further concrete runs *)

Module Cases.

Import Np Pd.

(** One diagnostic, above the threshold of 0.8. *)
Definition single_diagnostic : DataFrame :=
  [("cycle_index", [1]);
   ("normalized_regular_throughput", [1]);
   ("initial_regular_throughput", [2]);
   ("fractional_metric", [95 # 100])].

Module EC := ExclusionCriteria.

(** A run whose datapath has no file paths. *)
Definition no_paths : EC.DataPath := {|
  EC.structured_summary := [];
  EC.structured_data := [];
  EC.nominal_capacity := None;
  EC.paths := []
|}.

(** A run whose cycle 0 has a single sample. *)
Definition one_sample_cycle : EC.DataPath := {|
  EC.structured_summary := [Runs.regular_cycle 0 1];
  EC.structured_data := [Runs.sample 0 "charge" 5];
  EC.nominal_capacity := Some 1;
  EC.paths := [("raw", "run.csv")]
|}.

(** A stand-in for [get_CV_segment_from_charge]: all of the charge data
    is at constant voltage. *)
Definition whole_charge (charge : list EC.data_row) : result (list EC.data_row) :=
  Ok charge.

Module DS := DiagnosticSummaryStats.

Definition diagnostic_summary_row (type : string) (cycle : Z) (capacity energy : Q)
  : DS.summary_row := {|
  DS.cycle_type := type;
  DS.cycle_index := cycle;
  DS.values := [("discharge_capacity", capacity); ("discharge_energy", energy)]
|}.

(** Two diagnostics of type [rpt_0.2C] and one of type [rpt_1C]. *)
Definition two_diagnostics : DS.DataPath := {|
  DS.diagnostic_summary :=
    [diagnostic_summary_row "rpt_0.2C" 1 2 8;
     diagnostic_summary_row "rpt_1C" 2 2 8;
     diagnostic_summary_row "rpt_0.2C" 101 1 6]
|}.

Module CF := CycleSummaryFeatures.

Definition charge_row (cycle : Z) (capacity energy : Q) : CF.data_row := {|
  CF.cycle_index := cycle;
  CF.step_type := "charge";
  CF.charge_capacity := Some capacity;
  CF.discharge_capacity := None;
  CF.charge_energy := Some energy;
  CF.discharge_energy := Some 0
|}.

Definition discharge_row (cycle : Z) (capacity energy : Q) : CF.data_row := {|
  CF.cycle_index := cycle;
  CF.step_type := "discharge";
  CF.charge_capacity := None;
  CF.discharge_capacity := Some capacity;
  CF.charge_energy := None;
  CF.discharge_energy := Some energy
|}.

(** Cycles 10 and 100, two samples per step. *)
Definition two_cycles : list CF.data_row :=
  [charge_row 10 1 4; charge_row 10 2 8;
   discharge_row 10 2 8; discharge_row 10 1 4;
   charge_row 100 (9 # 10) 3; charge_row 100 (18 # 10) 7;
   discharge_row 100 (18 # 10) 7; discharge_row 100 (9 # 10) 3].

(** The numeric library left uninterpreted: a float is the name of the
    reduction that computes it, with the number of values it was
    computed from. *)
Definition reduction (name : string) (array : list Q) : string * nat :=
  (name, List.length array).

Definition reduction_min (array : list Q) : result (string * nat) :=
  match array with
  | [] => Raise (ValueError "min() arg is an empty sequence")
  | _ => Ok ("min", List.length array)
  end.

Definition symbolic_features : CF.hyperparameters -> list CF.data_row
  -> result (list (string * (string * nat))) :=
  CF.create_features ("zero", 0%nat) (reduction "var") (reduction "mean")
    (reduction "skew") (reduction "kurtosis") reduction_min
    (reduction "abs") (reduction "square") (fun v => v) (fun v => v).

End Cases.

(** * Properties *)

Import Np Pd.

(** ** Comparisons and dictionaries *)

Lemma Qltb_lt (a b : Q) : Qltb a b = true <-> a < b.
Proof.
  unfold Qltb. rewrite negb_true_iff. split.
  - intros H. apply Qnot_le_lt. intros Hle. apply Qle_bool_iff in Hle. congruence.
  - intros H. destruct (Qle_bool b a) eqn:E; [|reflexivity].
    apply Qle_bool_iff in E. lra.
Qed.

Lemma Qltb_ge (a b : Q) : Qltb a b = false <-> b <= a.
Proof.
  unfold Qltb. rewrite negb_false_iff. apply Qle_bool_iff.
Qed.

Section DictFacts.

Variable A : Type.

Lemma dict_get_set_same (k : string) (v : A) (d : list (string * A)) :
  dict_get k (dict_set k v d) = Some v.
Proof.
  induction d as [|[k' v'] d IH]; cbn.
  - now rewrite String.eqb_refl.
  - destruct (String.eqb k k') eqn:E; cbn; rewrite ?String.eqb_refl, ?E; auto.
Qed.

Lemma dict_get_set_other (k k0 : string) (v : A) (d : list (string * A)) :
  k0 <> k -> dict_get k0 (dict_set k v d) = dict_get k0 d.
Proof.
  intros Hne. induction d as [|[k' v'] d IH]; cbn.
  - destruct (String.eqb k0 k) eqn:E; [apply String.eqb_eq in E; contradiction | reflexivity].
  - destruct (String.eqb k k') eqn:E; cbn.
    + apply String.eqb_eq in E; subst k'.
      destruct (String.eqb k0 k) eqn:E'; [apply String.eqb_eq in E'; contradiction | reflexivity].
    + now rewrite IH.
Qed.

End DictFacts.

(** ** Summary statistics *)

Section SummaryStatisticsFacts.

Import CycleSummaryStats.

Variables A V : Type.
Variable np_var np_mean skew kurtosis : A -> V.
Variable py_min : A -> result V.
Variable sum_absolute sum_square : A -> V.
Variable np_absolute np_log10 : V -> V.

Lemma py_in_In (s : string) (names : list string) :
  py_in s names = true <-> In s names.
Proof.
  unfold py_in. rewrite existsb_exists. split.
  - intros (x & Hx & E). apply String.eqb_eq in E. now subst.
  - intros H. exists s. split; [assumption | apply String.eqb_refl].
Qed.

Lemma existsb_same_members (p : string -> bool) (l1 l2 : list string) :
  (forall s, In s l1 <-> In s l2) -> existsb p l1 = existsb p l2.
Proof.
  intros H. apply eq_true_iff_eq. rewrite !existsb_exists.
  split; intros (x & Hx & Px); exists x; split; try assumption; now apply H.
Qed.

(** X2.  The vector only depends on which names are asked for, not on
    their order nor on repetitions. *)
Lemma get_summary_statistics_same_members (names1 names2 : list string) (array : A) :
  (forall s, In s names1 <-> In s names2) ->
  get_summary_statistics np_var np_mean skew kurtosis py_min sum_absolute
    sum_square np_absolute np_log10 names1 array
  = get_summary_statistics np_var np_mean skew kurtosis py_min sum_absolute
      sum_square np_absolute np_log10 names2 array.
Proof.
  intros H. unfold get_summary_statistics.
  rewrite (existsb_same_members _ names1 names2 H).
  assert (E : forall s, py_in s names1 = py_in s names2).
  { intros s. apply eq_true_iff_eq. rewrite !py_in_In. apply H. }
  now rewrite !E.
Qed.

End SummaryStatisticsFacts.

(** C2.  Asked for [['mean', 'var']], [get_summary_statistics] returns the
    variance first and the mean second; asked for [['mean', 'mean']] it
    returns one value, not two.  Asked for the seven statistics with [min]
    before [var], it still returns the variance first, while
    [create_features] labels the first column [min_charging_capacity]. *)
Theorem get_summary_statistics_canonical_order :
  CycleSummaryStats.summary_expr ["mean"; "var"] [1; 2; 3; 4; 5]%Z
  = Ok [CycleSummaryStats.Log10
          (CycleSummaryStats.Absolute (CycleSummaryStats.Var [1; 2; 3; 4; 5]%Z));
        CycleSummaryStats.Log10
          (CycleSummaryStats.Absolute (CycleSummaryStats.Mean [1; 2; 3; 4; 5]%Z))]
  /\ CycleSummaryStats.summary_expr ["mean"; "mean"] [1; 2; 3; 4; 5]%Z
     = Ok [CycleSummaryStats.Log10
             (CycleSummaryStats.Absolute (CycleSummaryStats.Mean [1; 2; 3; 4; 5]%Z))]
  /\ (exists rest,
        CycleSummaryStats.summary_expr
          ["min"; "var"; "mean"; "skew"; "kurtosis"; "abs"; "square"] [1; 2; 3; 4; 5]%Z
        = Ok (CycleSummaryStats.Log10
                (CycleSummaryStats.Absolute (CycleSummaryStats.Var [1; 2; 3; 4; 5]%Z))
              :: rest))
  /\ (exists rest,
        CycleSummaryStats.feature_columns ["charging_capacity"]
          ["min"; "var"; "mean"; "skew"; "kurtosis"; "abs"; "square"]
        = "min_charging_capacity" :: rest).
Proof.
  split; [reflexivity |]. split; [reflexivity |].
  split; eexists; reflexivity.
Qed.

(** ** The threshold solver *)

Section ThresholdFacts.

Import DiagnosticProperties.

(** X7.  Once the metric has not crossed the threshold and extrapolation
    is off, every run ends in the use of a local variable that no branch
    has bound: of [bounds_error], or of [x_linspaces] when there is no
    interpolation axis. *)
Lemma not_crossed_without_extrapolation (hp : hyperparameters)
  (df df' : DataFrame) (x_axes : list Series) (y : Series) :
  extrapolate_threshold hp = false ->
  kink_filter hp df = Ok df' ->
  mapM (getitem df') (interpolation_axes hp) = Ok x_axes ->
  getitem df' "fractional_metric" = Ok y ->
  min_above y (threshold hp) = true ->
  get_threshold_targets hp df
  = Raise (UnboundLocalError
             match x_axes with [] => "x_linspaces" | _ :: _ => "bounds_error" end).
Proof.
  intros He Hk Hx Hy Hm.
  unfold get_threshold_targets, crossing_values.
  rewrite Hk. cbn [bind]. rewrite Hx. cbn [bind]. rewrite Hy. cbn [bind].
  unfold threshold_branch. rewrite Hm, He. cbn.
  destruct x_axes; reflexivity.
Qed.

(** With exactly two axes, a frame is only returned when both crossing
    values are positive. *)
Lemma check_positive_two (x0 x1 : Q) :
  check_positive [x0; x1] = Ok tt <-> 0 < x0 /\ 0 < x1.
Proof.
  unfold check_positive, list_item, Qltb. cbn.
  destruct (Qle_bool x0 0) eqn:E0; cbn.
  - apply Qle_bool_iff in E0. split; [discriminate | intros [H _]; lra].
  - destruct (Qle_bool x1 0) eqn:E1; cbn.
    + apply Qle_bool_iff in E1. split; [discriminate | intros [_ H]; lra].
    + split; [intros _ | reflexivity].
      split; apply Qnot_le_lt; intros H; apply Qle_bool_iff in H; congruence.
Qed.

(** Crossing values after the second are not looked at. *)
Lemma check_positive_first_two (x0 x1 : Q) (rest : list Q) :
  check_positive (x0 :: x1 :: rest) = check_positive [x0; x1].
Proof. reflexivity. Qed.

End ThresholdFacts.

(** C1.  On a series whose minimum (0.80005) is above the threshold (0.8),
    with extrapolation off, [get_threshold_targets] does not return, but
    the exception is the unbound local [bounds_error], not the
    [BEEPFeaturizationError] whose message line 841 builds. *)
Theorem not_crossed_no_extrapolation_error :
  DiagnosticProperties.min_above [1; 95 # 100; 80005 # 100000] (8 # 10) = true
  /\ DiagnosticProperties.get_threshold_targets
       (Runs.with_axes Runs.default_axes None false) Runs.above_threshold
     = Raise (UnboundLocalError "bounds_error").
Proof.
  split; vm_compute; reflexivity.
Qed.

(** C9.  With three interpolation axes the third crossing value is not
    looked at: the frame is returned although the value for axis [x] is
    negative (-10). *)
Theorem third_axis_not_checked :
  exists row,
    DiagnosticProperties.get_threshold_targets
      (Runs.with_axes ["normalized_regular_throughput"; "cycle_index"; "x"] None true)
      Runs.three_axes = Ok row
    /\ exists v, dict_get "rpt_1Cdischarge_energy0.8_x" row = Some v /\ v == -10.
Proof.
  eexists. split; [vm_compute; reflexivity |].
  eexists. split; [vm_compute; reflexivity | reflexivity].
Qed.

(** C4.  With [filter_kinks = 0.04] the first second difference below
    -0.04 is in the fourth row, so the first three rows come before the
    anomaly; the solver keeps the first two only, because it flags every
    second difference below +0.04.  A series without any anomaly is cut to
    its first two rows as well. *)
Theorem kink_filter_compares_with_positive_cutoff :
  lt_scalar (DiagnosticProperties.second_difference [1; 95 # 100; 90 # 100; 75 # 100])
    (- (4 # 100)) = [false; false; false; true]
  /\ lt_scalar (DiagnosticProperties.second_difference [1; 95 # 100; 90 # 100; 75 # 100])
       (4 # 100) = [false; false; true; true]
  /\ DiagnosticProperties.kink_filter
       (Runs.with_axes Runs.default_axes (Some (4 # 100)) true) Runs.late_kink
     = Ok Runs.late_kink_first_two
  /\ lt_scalar (DiagnosticProperties.second_difference [1; 95 # 100; 90 # 100; 85 # 100])
       (- (4 # 100)) = [false; false; false; false]
  /\ DiagnosticProperties.kink_filter
       (Runs.with_axes Runs.default_axes (Some (4 # 100)) true) Runs.steady
     = Ok Runs.steady_first_two.
Proof.
  repeat split; vm_compute; reflexivity.
Qed.

(** ** The grid search of the threshold solver *)

Section NumericFacts.

Import Crossing.

Lemma Qmin_lt (x y : Q) : x < y -> Qmin x y = x.
Proof.
  intros H. unfold Qmin, GenericMinMax.gmin.
  destruct (x ?= y) eqn:E; try reflexivity.
  apply (proj2 (Qgt_alt x y)) in E. lra.
Qed.

Lemma Qmin_gt (x y : Q) : y < x -> Qmin x y = y.
Proof.
  intros H. unfold Qmin, GenericMinMax.gmin.
  rewrite (proj1 (Qgt_alt x y) H). reflexivity.
Qed.

Lemma Qmax_lt (x y : Q) : x < y -> Qmax x y = y.
Proof.
  intros H. unfold Qmax, GenericMinMax.gmax.
  rewrite (proj1 (Qlt_alt x y) H). reflexivity.
Qed.

Lemma increasing_tail (x : Q) (l : list Q) : increasing (x :: l) -> increasing l.
Proof. destruct l; cbn; tauto. Qed.

Lemma decreasing_tail (x : Q) (l : list Q) : decreasing (x :: l) -> decreasing l.
Proof. destruct l; cbn; tauto. Qed.

Lemma increasing_above_head (x : Q) (l : list Q) :
  increasing (x :: l) -> Forall (Qlt x) l.
Proof.
  revert x. induction l as [|y l IH]; intros x H; constructor.
  - apply H.
  - destruct H as [Hxy Hl]. specialize (IH y Hl).
    destruct l as [|z l]; [constructor |].
    eapply Forall_impl; [|exact IH]. intros a Ha. cbn in Ha. lra.
Qed.

Lemma series_min_increasing (x : Q) (l : list Q) :
  increasing (x :: l) -> series_min (x :: l) = Some x.
Proof.
  intros H. apply increasing_above_head in H. cbn. f_equal.
  induction H as [|y l Hy _ IH]; cbn; [reflexivity |].
  now rewrite Qmin_lt.
Qed.

Lemma last_cons (X : Type) (y : X) (l : list X) (d : X) : last (y :: l) d = last l y.
Proof.
  revert y d. induction l as [|z l IH]; intros y d; [reflexivity |].
  change (last (y :: z :: l) d) with (last (z :: l) d).
  rewrite IH. symmetry. apply IH.
Qed.

Lemma series_max_increasing (x : Q) (l : list Q) :
  increasing (x :: l) -> series_max (x :: l) = Some (last l x).
Proof.
  intros H. cbn [series_max]. f_equal.
  revert x H. induction l as [|y l IH]; intros x H; [reflexivity |].
  cbn [fold_left]. destruct H as [Hxy Hl]. rewrite Qmax_lt by assumption.
  rewrite (IH y Hl). symmetry. apply last_cons.
Qed.

Lemma series_min_decreasing (x : Q) (l : list Q) :
  decreasing (x :: l) -> series_min (x :: l) = Some (last l x).
Proof.
  intros H. cbn [series_min]. f_equal.
  revert x H. induction l as [|y l IH]; intros x H; [reflexivity |].
  cbn [fold_left]. destruct H as [Hxy Hl]. rewrite Qmin_gt by assumption.
  rewrite (IH y Hl). symmetry. apply last_cons.
Qed.

Lemma map_fst_combine (X Y : Type) (xs : list X) (ys : list Y) :
  List.length xs = List.length ys -> map fst (combine xs ys) = xs.
Proof.
  revert ys. induction xs as [|x xs IH]; intros [|y ys] H; cbn in *;
    try discriminate; [reflexivity |]. f_equal. apply IH. congruence.
Qed.

Lemma map_snd_combine (X Y : Type) (xs : list X) (ys : list Y) :
  List.length xs = List.length ys -> map snd (combine xs ys) = ys.
Proof.
  revert ys. induction xs as [|x xs IH]; intros [|y ys] H; cbn in *;
    try discriminate; [reflexivity |]. f_equal. apply IH. congruence.
Qed.

Lemma sort_by_x_increasing (pts : list (Q * Q)) :
  increasing (map fst pts) -> sort_by_x pts = pts.
Proof.
  induction pts as [|p pts IH]; [reflexivity |].
  intros H. cbn [sort_by_x fold_right].
  change (fold_right insert_by_x [] pts) with (sort_by_x pts).
  rewrite IH by (apply increasing_tail with (x := fst p); exact H).
  destruct pts as [|q pts]; [reflexivity |].
  cbn in H. destruct H as [H _]. cbn.
  assert (E : Qle_bool (fst p) (fst q) = true) by (apply Qle_bool_iff; lra).
  now rewrite E.
Qed.

End NumericFacts.

Section LinearFacts.

Import Crossing.

Lemma segment_ok (p0 p1 : Q * Q) (x : Q) :
  fst p0 < fst p1 ->
  segment p0 p1 x
  = Ok ((snd p1 - snd p0) / (fst p1 - fst p0) * (x - fst p0) + snd p0).
Proof.
  destruct p0 as [x0 y0], p1 as [x1 y1]. cbn. intros H.
  destruct (Qeq_bool x1 x0) eqn:E; [|reflexivity].
  apply Qeq_bool_iff in E. lra.
Qed.

Lemma linear_cons (p0 p1 p2 : Q * Q) (rest : list (Q * Q)) (x : Q) :
  linear (p0 :: p1 :: p2 :: rest) x
  = if Qle_bool x (fst p1) then segment p0 p1 x else linear (p1 :: p2 :: rest) x.
Proof. reflexivity. Qed.

Lemma linear_two (p0 p1 : Q * Q) (x : Q) : linear [p0; p1] x = segment p0 p1 x.
Proof. reflexivity. Qed.

Lemma linear_total (pts : list (Q * Q)) (x : Q) :
  increasing (map fst pts) -> (2 <= List.length pts)%nat ->
  linear pts x = Ok (linear_value pts x).
Proof.
  intros Hinc Hlen.
  enough (exists v, linear pts x = Ok v) as [v Hv]
      by (unfold linear_value; now rewrite Hv).
  induction pts as [|p0 pts IH]; [cbn in Hlen; lia |].
  destruct pts as [|p1 rest]; [cbn in Hlen; lia |].
  destruct rest as [|p2 rest].
  - rewrite linear_two, segment_ok by apply Hinc. eauto.
  - rewrite linear_cons. destruct (Qle_bool x (fst p1)).
    + rewrite segment_ok by apply Hinc. eauto.
    + apply IH; [apply Hinc | cbn; lia].
Qed.

Lemma linear_interpolates (pts : list (Q * Q)) (d : Q * Q) (x : Q) :
  increasing (map fst pts) -> (2 <= List.length pts)%nat ->
  fst (hd d pts) <= x -> x <= fst (last pts d) ->
  interpolates pts x (linear_value pts x).
Proof.
  intros Hinc Hlen Hlo Hhi.
  enough (exists v, linear pts x = Ok v /\ interpolates pts x v) as (v & Hv & Hi)
      by (unfold linear_value; now rewrite Hv).
  revert Hlo.
  induction pts as [|p0 pts IH]; intros Hlo; [cbn in Hlen; lia |].
  destruct pts as [|p1 rest]; [cbn in Hlen; lia |].
  cbn [hd] in Hlo.
  destruct rest as [|p2 rest].
  - rewrite linear_two, segment_ok by apply Hinc.
    eexists. split; [reflexivity |].
    destruct p0 as [x0 y0], p1 as [x1 y1]. cbn in *.
    apply interpolates_here; try tauto. field. lra.
  - rewrite linear_cons. destruct (Qle_bool x (fst p1)) eqn:E.
    + rewrite segment_ok by apply Hinc.
      eexists. split; [reflexivity |].
      apply Qle_bool_iff in E.
      destruct p0 as [x0 y0], p1 as [x1 y1]. cbn in *.
      apply interpolates_here; try tauto. field. lra.
    + destruct IH as (v & Hv & Hi).
      * apply Hinc.
      * cbn; lia.
      * rewrite !last_cons in Hhi. rewrite !last_cons. exact Hhi.
      * cbn [hd]. apply Qlt_le_weak, Qnot_le_lt. intros Hle.
        apply Qle_bool_iff in Hle. congruence.
      * exists v. split; [exact Hv | now apply interpolates_later].
Qed.

End LinearFacts.

Section ArgminFacts.

Import Crossing.

Lemma Qltb_comp (a a' b b' : Q) : a == a' -> b == b' -> Qltb a b = Qltb a' b'.
Proof. intros Ha Hb. unfold Qltb. now rewrite Ha, Hb. Qed.

Lemma argmin_from_ext (l l' : list Q) (best best' : Q) (bi i : nat) :
  best == best' -> Forall2 Qeq l l' ->
  argmin_from best bi i l = argmin_from best' bi i l'.
Proof.
  intros Hb H. revert best best' bi i Hb.
  induction H as [|x x' l l' Hx _ IH]; intros best best' bi i Hb; [reflexivity |].
  cbn. rewrite (Qltb_comp Hx Hb). destruct (Qltb x' best'); now apply IH.
Qed.

Lemma argmin_ext (l l' : list Q) : Forall2 Qeq l l' -> argmin l = argmin l'.
Proof.
  intros [|x x' l0 l0' Hx H]; [reflexivity |]. cbn. f_equal.
  now apply argmin_from_ext.
Qed.

Lemma argmin_from_spec (l pre : list Q) (best : Q) (bi : nat) :
  (bi < List.length pre)%nat ->
  nth bi pre 0 = best ->
  (forall j, (j < List.length pre)%nat -> best <= nth j pre 0) ->
  let k := argmin_from best bi (List.length pre) l in
  (k < List.length (pre ++ l))%nat
  /\ forall j, (j < List.length (pre ++ l))%nat ->
       nth k (pre ++ l) 0 <= nth j (pre ++ l) 0.
Proof.
  revert pre best bi. induction l as [|x l IH]; intros pre best bi Hbi Hb Hmin.
  - cbn. rewrite app_nil_r. split; [assumption |].
    intros j Hj. rewrite Hb. now apply Hmin.
  - cbn [argmin_from].
    replace (pre ++ x :: l) with ((pre ++ [x]) ++ l)
      by (rewrite <- app_assoc; reflexivity).
    replace (S (List.length pre)) with (List.length (pre ++ [x]))
      by (rewrite length_app; cbn; lia).
    destruct (Qltb x best) eqn:E.
    + apply Qltb_lt in E. apply IH.
      * rewrite length_app. cbn. lia.
      * rewrite app_nth2, Nat.sub_diag by lia. reflexivity.
      * intros j Hj. rewrite length_app in Hj. cbn in Hj.
        destruct (Nat.eq_dec j (List.length pre)) as [-> | Hne].
        -- rewrite app_nth2, Nat.sub_diag by lia. cbn. lra.
        -- rewrite app_nth1 by lia. specialize (Hmin j ltac:(lia)). lra.
    + apply Qltb_ge in E. apply IH.
      * rewrite length_app. cbn. lia.
      * rewrite app_nth1 by lia. assumption.
      * intros j Hj. rewrite length_app in Hj. cbn in Hj.
        destruct (Nat.eq_dec j (List.length pre)) as [-> | Hne].
        -- rewrite app_nth2, Nat.sub_diag by lia. cbn. lra.
        -- rewrite app_nth1 by lia. apply Hmin. lia.
Qed.

Lemma argmin_spec (l : list Q) :
  l <> [] ->
  exists k, argmin l = Ok k
    /\ (k < List.length l)%nat
    /\ forall j, (j < List.length l)%nat -> nth k l 0 <= nth j l 0.
Proof.
  destruct l as [|x l]; [congruence |]. intros _.
  eexists. split; [reflexivity |].
  apply (argmin_from_spec l [x] (best := x) (bi := 0)).
  - cbn. lia.
  - reflexivity.
  - intros j Hj. cbn in Hj. assert (j = 0%nat) as -> by lia. cbn. lra.
Qed.

Lemma linspace_samples (lo hi : Q) :
  linspace lo hi 1000 = map (sample lo hi) (seq 0 1000).
Proof. reflexivity. Qed.

Lemma mapM_map (X Y : Type) (f : X -> result Y) (g : X -> Y) (l : list X) :
  (forall x, In x l -> f x = Ok (g x)) -> mapM f l = Ok (map g l).
Proof.
  induction l as [|x l IH]; intros H; [reflexivity |].
  cbn. rewrite (H x (or_introl eq_refl)). cbn.
  rewrite IH by (intros y Hy; apply H; now right). reflexivity.
Qed.

Lemma nth_map_seq (X : Type) (h : nat -> X) (n j : nat) (d : X) :
  (j < n)%nat -> nth j (map h (seq 0 n)) d = h j.
Proof.
  intros Hj. rewrite (nth_indep _ d (h 0%nat)) by now rewrite length_map, length_seq.
  rewrite map_nth, seq_nth by assumption. reflexivity.
Qed.

(** Lines 885-886 return the sample of the grid at which the interpolant
    is nearest to the threshold. *)
Lemma nearest_sample_correct (f : interp1d) (thr lo hi : Q) :
  (forall i, (i < 1000)%nat ->
     linear (points f) (sample lo hi i)
     = Ok (linear_value (points f) (sample lo hi i))) ->
  (bounds_error f = false /\ fill_value f = fill_extrapolate
   \/ forall i, (i < 1000)%nat -> out_of_bounds (points f) (sample lo hi i) = false) ->
  exists v,
    DiagnosticProperties.nearest_sample f thr (linspace lo hi 1000) = Ok v
    /\ Crossing.nearest_on_grid (linear_value (points f)) thr lo hi v.
Proof.
  intros Hlin Hb. unfold DiagnosticProperties.nearest_sample.
  rewrite linspace_samples.
  assert (Hin : forall x, In x (map (sample lo hi) (seq 0 1000)) ->
            exists i, (i < 1000)%nat /\ x = sample lo hi i).
  { intros x Hx. apply in_map_iff in Hx. destruct Hx as (i & <- & Hi).
    apply in_seq in Hi. exists i. split; [lia | reflexivity]. }
  assert (Hcall : interp1d_call f (map (sample lo hi) (seq 0 1000))
            = Ok (map (linear_value (points f)) (map (sample lo hi) (seq 0 1000)))).
  { unfold interp1d_call.
    assert (Hm : mapM (linear (points f)) (map (sample lo hi) (seq 0 1000))
              = Ok (map (linear_value (points f)) (map (sample lo hi) (seq 0 1000)))).
    { apply mapM_map. intros x Hx. destruct (Hin x Hx) as (i & Hi & ->). now apply Hlin. }
    destruct Hb as [[Hbe Hfill] | Hin_bounds].
    - rewrite Hbe, Hfill, andb_false_r. exact Hm.
    - assert (Hout : existsb (out_of_bounds (points f))
                       (map (sample lo hi) (seq 0 1000)) = false).
      { apply not_true_is_false. intros Hex. apply existsb_exists in Hex.
        destruct Hex as (x & Hx & Hox). destruct (Hin x Hx) as (i & Hi & ->).
        rewrite Hin_bounds in Hox by assumption. discriminate. }
      rewrite Hout. cbn [andb]. destruct (fill_value f); exact Hm. }
  rewrite Hcall. cbn [bind].
  rewrite !map_map.
  set (h := fun i => Qabs (linear_value (points f) (sample lo hi i) - thr)).
  change (map (fun x : nat => Qabs (linear_value (points f) (sample lo hi x) - thr))
            (seq 0 1000)) with (map h (seq 0 1000)).
  destruct (argmin_spec (l := map h (seq 0 1000))) as (k & Hk & Hlt & Hmin).
  { discriminate. }
  rewrite Hk. cbn [bind].
  rewrite length_map, length_seq in Hlt, Hmin.
  rewrite (nth_error_nth' _ (sample lo hi 0)) by now rewrite length_map, length_seq.
  rewrite nth_map_seq by assumption.
  eexists. split; [reflexivity |].
  exists k. split; [assumption |]. split; [reflexivity |].
  intros i Hi. specialize (Hmin i Hi).
  rewrite !nth_map_seq in Hmin by assumption. exact Hmin.
Qed.

End ArgminFacts.

Section GridFacts.

Import Crossing.

Lemma inject_nat_bounds (i : nat) :
  (i < 1000)%nat -> 0 <= inject_Z (Z.of_nat i) /\ inject_Z (Z.of_nat i) <= 999.
Proof.
  intros Hi. split.
  - change 0 with (inject_Z 0). rewrite <- Zle_Qle. lia.
  - change 999 with (inject_Z 999). rewrite <- Zle_Qle. lia.
Qed.

Lemma sample_first (lo hi : Q) : sample lo hi 0 == lo.
Proof. unfold sample. cbn [Z.of_nat]. change (inject_Z 0) with 0. ring. Qed.

Lemma sample_last (lo hi : Q) : sample lo hi 999 == hi.
Proof. unfold sample. change (inject_Z (Z.of_nat 999)) with 999. field. Qed.

Lemma sample_bounds (lo hi : Q) (i : nat) :
  lo <= hi -> (i < 1000)%nat -> lo <= sample lo hi i /\ sample lo hi i <= hi.
Proof.
  intros Hle Hi. unfold sample.
  destruct (inject_nat_bounds Hi) as [H0 H999].
  set (t := inject_Z (Z.of_nat i)) in *.
  set (s := (hi - lo) / 999).
  assert (Hs : 999 * s == hi - lo) by (unfold s; field).
  assert (Hs0 : 0 <= s) by lra.
  assert (H1 : 0 <= t * s) by (apply Qmult_le_0_compat; assumption).
  assert (H2 : t * s <= 999 * s) by (apply Qmult_le_compat_r; assumption).
  split; lra.
Qed.

Lemma sample_step (lo hi : Q) (i : nat) :
  sample lo hi (S i) == sample lo hi i + (hi - lo) / 999.
Proof.
  unfold sample. rewrite Nat2Z.inj_succ. unfold Z.succ. rewrite inject_Z_plus.
  change (inject_Z 1) with 1. ring.
Qed.

Lemma last_map (X Y : Type) (h : X -> Y) (l : list X) (d : X) :
  last (map h l) (h d) = h (last l d).
Proof.
  induction l as [|x l IH]; [reflexivity |].
  destruct l; [reflexivity |]. exact IH.
Qed.

Lemma increasing_hd_last (x y : Q) (l : list Q) :
  increasing (x :: y :: l) -> x < last (y :: l) x.
Proof.
  intros H. apply increasing_above_head in H.
  rewrite Forall_forall in H. apply H.
  rewrite last_cons. clear. revert y. induction l as [|z l IH]; intros y.
  - now left.
  - right. rewrite last_cons. apply IH.
Qed.

End GridFacts.

Section InterpolationBranch.

Import Crossing DiagnosticProperties.

Lemma out_of_bounds_false (pts : list (Q * Q)) (d : Q * Q) (x : Q) :
  fst (hd d pts) <= x -> x <= fst (last pts d) -> pts <> [] ->
  out_of_bounds pts x = false.
Proof.
  destruct pts as [|p pts]; [congruence |]. intros Hlo Hhi _.
  unfold out_of_bounds. cbn [hd] in Hlo.
  rewrite (last_cons p pts d) in Hhi. rewrite (last_cons p pts p).
  apply orb_false_iff. split; apply Qltb_ge; assumption.
Qed.

(** One axis in the branch of lines 860-866: the metric has reached the
    threshold. *)
Lemma interpolation_axis (xs ys : Series) (thr : Q) :
  increasing xs -> List.length xs = List.length ys -> (2 <= List.length xs)%nat ->
  exists f v,
    interp1d_new xs ys true fill_nan = Ok f
    /\ points f = combine xs ys
    /\ interpolation_linspace xs = Ok (linspace (hd 0 xs) (last xs 0) 1000)
    /\ DiagnosticProperties.nearest_sample f thr (linspace (hd 0 xs) (last xs 0) 1000)
       = Ok v
    /\ Crossing.nearest_on_grid (linear_value (combine xs ys)) thr
         (hd 0 xs) (last xs 0) v
    /\ forall x, hd 0 xs <= x -> x <= last xs 0 ->
         interpolates (combine xs ys) x (linear_value (combine xs ys) x).
Proof.
  intros Hinc Hlen H2.
  destruct xs as [|x0 [|x1 xs]]; try (cbn in H2; lia).
  destruct ys as [|y0 [|y1 ys]]; try (cbn in Hlen; lia).
  set (X := x0 :: x1 :: xs) in *. set (Y := y0 :: y1 :: ys) in *.
  assert (Hpts : increasing (map fst (combine X Y))) by now rewrite map_fst_combine.
  assert (Hplen : (2 <= List.length (combine X Y))%nat).
  { rewrite length_combine. unfold X, Y. cbn. lia. }
  assert (Hlast : fst (last (combine X Y) (0, 0)) = last X 0).
  { transitivity (last (map fst (combine X Y)) (fst (0, 0))).
    - symmetry. apply last_map.
    - now rewrite map_fst_combine. }
  assert (Hlohi : hd 0 X < last X 0).
  { unfold X. cbn [hd]. rewrite last_cons. now apply increasing_hd_last. }
  assert (Hinterp : forall x, hd 0 X <= x -> x <= last X 0 ->
            interpolates (combine X Y) x (linear_value (combine X Y) x)).
  { intros x Hlo Hhi.
    apply linear_interpolates with (d := (0, 0)); try assumption.
    rewrite Hlast. exact Hhi. }
  unfold interp1d_new. rewrite Hlen, Nat.eqb_refl. cbn [negb].
  rewrite sort_by_x_increasing by assumption.
  eexists.
  destruct (@nearest_sample_correct
              {| points := combine X Y; bounds_error := true; fill_value := fill_nan |}
              thr (hd 0 X) (last X 0)) as (v & Hv & Hnear).
  { intros i Hi. cbn [points]. now apply linear_total. }
  { right. intros i Hi. cbn [points].
    destruct (sample_bounds (lo := hd 0 X) (hi := last X 0) (i := i)) as [Hlo Hhi];
      [lra | assumption |].
    apply out_of_bounds_false with (d := (0, 0)).
    - unfold X, Y. cbn. exact Hlo.
    - rewrite Hlast. exact Hhi.
    - unfold X, Y. discriminate. }
  exists v. repeat split; try assumption.
  unfold interpolation_linspace.
  unfold X at 1 2. rewrite series_min_increasing, series_max_increasing by assumption.
  cbn [hd]. unfold X. now rewrite (last_cons x0 (x1 :: xs) 0).
Qed.

End InterpolationBranch.

Section Pipeline.

Import Crossing DiagnosticProperties.

Lemma string_app_inv_head (p a b : string) : (p ++ a = p ++ b)%string -> a = b.
Proof.
  induction p as [|c p IH]; cbn; intros H; [assumption |].
  injection H as H. now apply IH.
Qed.

Lemma column_key_inj (hp : hyperparameters) (a b : string) :
  column_key hp a = column_key hp b -> a = b.
Proof.
  unfold column_key. intros H.
  do 3 apply string_app_inv_head in H. now injection H.
Qed.

(** The loops of lines 833-886 with two axes. *)
Lemma crossing_values_two_axes (hp : hyperparameters) (df df' : DataFrame)
  (a1 a2 : string) (xs1 xs2 ys : Series) (fv : fill) (be : bool)
  (g1 g2 : list Q) (f1 f2 : interp1d) (v1 v2 : Q) :
  interpolation_axes hp = [a1; a2] ->
  kink_filter hp df = Ok df' ->
  getitem df' a1 = Ok xs1 ->
  getitem df' a2 = Ok xs2 ->
  getitem df' "fractional_metric" = Ok ys ->
  threshold_branch hp [xs1; xs2] ys
  = Ok {| l_fill_value := Some fv;
          l_bounds_error := Some be;
          l_x_linspaces := Some [g1; g2] |} ->
  interp1d_new xs1 ys be fv = Ok f1 ->
  interp1d_new xs2 ys be fv = Ok f2 ->
  DiagnosticProperties.nearest_sample f1 (threshold hp) g1 = Ok v1 ->
  DiagnosticProperties.nearest_sample f2 (threshold hp) g2 = Ok v2 ->
  crossing_values hp df = Ok (df', [v1; v2]).
Proof.
  intros Hax Hk H1 H2 Hy Hb Hf1 Hf2 Hv1 Hv2.
  unfold crossing_values. rewrite Hk, Hax. cbn [bind mapM].
  rewrite H1, H2. cbn [bind]. rewrite Hy. cbn [bind]. rewrite Hb. cbn [bind].
  unfold build_f_axis. cbn [mapM l_bounds_error l_fill_value read bind].
  rewrite Hf1, Hf2. cbn [bind l_x_linspaces read x_to_threshold_loop nth_error].
  rewrite Hv1, Hv2. reflexivity.
Qed.

(** Lines 888-914 with the default axes and two positive values. *)
Lemma threshold_frame_default (hp : hyperparameters) (df : DataFrame)
  (v1 v2 irt0 : Q) (irt : Series) :
  interpolation_axes hp = ["normalized_regular_throughput"; "cycle_index"] ->
  getitem df "initial_regular_throughput" = Ok (irt0 :: irt) ->
  0 < v1 -> 0 < v2 ->
  exists row,
    threshold_frame hp df [v1; v2] = Ok row
    /\ dict_get (column_key hp "normalized_regular_throughput") row = Some v1
    /\ dict_get (column_key hp "cycle_index") row = Some v2
    /\ dict_get (column_key hp "real_regular_throughput") row = Some (v1 * irt0).
Proof.
  intros Hax Hirt Hp1 Hp2. unfold threshold_frame.
  rewrite (proj2 (check_positive_two v1 v2) (conj Hp1 Hp2)). cbn [bind].
  rewrite Hax. cbn [CycleSummaryStats.py_in existsb String.eqb Ascii.eqb Bool.eqb orb
                      py_index list_item nth_error bind].
  rewrite Hirt. cbn [values0 bind fst snd app fill_dict list_item nth_error].
  eexists. split; [reflexivity |].
  assert (Hne : forall a b, a <> b -> column_key hp a <> column_key hp b).
  { intros a b Hab H. apply Hab. now apply column_key_inj in H. }
  repeat split.
  - do 2 (rewrite dict_get_set_other by (apply Hne; discriminate)).
    apply dict_get_set_same.
  - rewrite dict_get_set_other by (apply Hne; discriminate).
    apply dict_get_set_same.
  - apply dict_get_set_same.
Qed.

Lemma fold_left_Qmin_le (l : list Q) (a : Q) :
  fold_left Qmin l a <= a /\ forall y, In y l -> fold_left Qmin l a <= y.
Proof.
  revert a. induction l as [|x l IH]; intros a; cbn.
  - split; [lra | contradiction].
  - destruct (IH (Qmin a x)) as [H1 H2].
    pose proof (Q.le_min_l a x). pose proof (Q.le_min_r a x).
    split; [lra |]. intros y [<- | Hy]; [lra | now apply H2].
Qed.

Lemma min_above_false (ys : Series) (thr y : Q) :
  In y ys -> y <= thr -> min_above ys thr = false.
Proof.
  intros Hin Hle. unfold min_above. destruct ys as [|y0 ys]; [reflexivity |].
  cbn [series_min]. apply Qltb_ge.
  destruct (fold_left_Qmin_le ys y0) as [H1 H2].
  destruct Hin as [<- | Hin]; [lra | specialize (H2 y Hin); lra].
Qed.

End Pipeline.

Section LinearSeries.

Import Crossing DiagnosticProperties.

Lemma linear_value_collinear (pts : list (Q * Q)) (m c x : Q) :
  increasing (map fst pts) -> (2 <= List.length pts)%nat ->
  Forall (fun p => snd p == m * fst p + c) pts ->
  linear_value pts x == m * x + c.
Proof.
  intros Hinc Hlen Hline.
  enough (exists v, linear pts x = Ok v /\ v == m * x + c) as (v & Hv & Hi)
      by (unfold linear_value; now rewrite Hv).
  induction pts as [|p0 pts IH]; [cbn in Hlen; lia |].
  destruct pts as [|p1 rest]; [cbn in Hlen; lia |].
  assert (Hseg : exists v, segment p0 p1 x = Ok v /\ v == m * x + c).
  { rewrite segment_ok by apply Hinc. eexists. split; [reflexivity |].
    inversion Hline as [|? ? H0 Hrest]; subst.
    inversion Hrest as [|? ? H1 _]; subst.
    destruct Hinc as [Hlt _]. cbn in Hlt. rewrite H0, H1. field. lra. }
  destruct rest as [|p2 rest].
  - now rewrite linear_two.
  - rewrite linear_cons. destruct (Qle_bool x (fst p1)); [exact Hseg |].
    apply IH; [apply Hinc | cbn; lia | now inversion Hline].
Qed.

Lemma Forall2_combine (X Y : Type) (R : X -> Y -> Prop) (xs : list X) (ys : list Y) :
  Forall2 R xs ys -> Forall (fun p => R (fst p) (snd p)) (combine xs ys).
Proof. induction 1; cbn; constructor; assumption. Qed.

End LinearSeries.

Section InterpolatedCrossing.

Import Crossing DiagnosticProperties.

Lemma interpolated_crossing (hp : hyperparameters) (df df' : DataFrame)
  (xs1 xs2 ys irt : Series) (irt0 : Q) :
  interpolation_axes hp = ["normalized_regular_throughput"; "cycle_index"] ->
  kink_filter hp df = Ok df' ->
  getitem df' "normalized_regular_throughput" = Ok xs1 ->
  getitem df' "cycle_index" = Ok xs2 ->
  getitem df' "fractional_metric" = Ok ys ->
  getitem df' "initial_regular_throughput" = Ok (irt0 :: irt) ->
  increasing xs1 -> increasing xs2 ->
  List.length xs1 = List.length ys -> List.length xs2 = List.length ys ->
  (2 <= List.length ys)%nat ->
  (exists y, In y ys /\ y <= threshold hp) ->
  exists v1 v2,
    crossing_values hp df = Ok (df', [v1; v2])
    /\ Crossing.nearest_on_grid (linear_value (combine xs1 ys)) (threshold hp)
         (hd 0 xs1) (last xs1 0) v1
    /\ Crossing.nearest_on_grid (linear_value (combine xs2 ys)) (threshold hp)
         (hd 0 xs2) (last xs2 0) v2
    /\ (forall x, hd 0 xs1 <= x -> x <= last xs1 0 ->
          interpolates (combine xs1 ys) x (linear_value (combine xs1 ys) x))
    /\ (forall x, hd 0 xs2 <= x -> x <= last xs2 0 ->
          interpolates (combine xs2 ys) x (linear_value (combine xs2 ys) x))
    /\ (0 < v1 -> 0 < v2 ->
        exists row,
          get_threshold_targets hp df = Ok row
          /\ dict_get (column_key hp "normalized_regular_throughput") row = Some v1
          /\ dict_get (column_key hp "cycle_index") row = Some v2).
Proof.
  intros Hax Hk H1 H2 Hy Hirt Hi1 Hi2 Hl1 Hl2 Hlen (y & Hin & Hle).
  destruct (@interpolation_axis xs1 ys (threshold hp) Hi1 Hl1 ltac:(lia))
    as (f1 & v1 & Hf1 & Hp1 & Hg1 & Hv1 & Hn1 & Hint1).
  destruct (@interpolation_axis xs2 ys (threshold hp) Hi2 Hl2 ltac:(lia))
    as (f2 & v2 & Hf2 & Hp2 & Hg2 & Hv2 & Hn2 & Hint2).
  assert (Hcross : crossing_values hp df = Ok (df', [v1; v2])).
  { eapply crossing_values_two_axes; try eassumption.
    unfold threshold_branch. rewrite (@min_above_false ys (threshold hp) y Hin Hle).
    cbn [andb mapM bind]. rewrite Hg1, Hg2. reflexivity. }
  exists v1, v2. repeat split; try assumption.
  intros Hpos1 Hpos2.
  destruct (@threshold_frame_default hp df' v1 v2 irt0 irt Hax Hirt Hpos1 Hpos2)
    as (row & Hrow & Hr1 & Hr2 & _).
  exists row. unfold get_threshold_targets. rewrite Hcross. cbn [bind fst snd].
  auto.
Qed.

Lemma nearest_to_forty (F : Q -> Q) (v : Q) :
  (forall x, F x == - (1 # 200) * x + 1) ->
  Crossing.nearest_on_grid F (8 # 10) 0 100 v ->
  Qabs (v - 40) <= 100 / 1000.
Proof.
  intros HF (k & Hk & -> & Hmin).
  specialize (Hmin 400%nat ltac:(lia)). rewrite !HF in Hmin.
  set (s := sample 0 100 k) in *.
  assert (H400 : Qabs (- (1 # 200) * sample 0 100 400 + 1 - (8 # 10)) <= 1 # 4995).
  { apply Qle_bool_iff. vm_compute. reflexivity. }
  assert (Hs : Qabs (- (1 # 200) * s + 1 - (8 # 10)) <= 1 # 4995) by lra.
  apply Qabs_Qle_condition in Hs. apply Qabs_Qle_condition.
  destruct Hs as [Ha Hb].
  assert (E : 100 / 1000 == 1 # 10) by reflexivity.
  rewrite E. split; lra.
Qed.

End InterpolatedCrossing.

Section LinearSeriesCrossing.

Import Crossing DiagnosticProperties.

Lemma Forall2_last (X Y : Type) (R : X -> Y -> Prop) (xs : list X) (ys : list Y)
  (dx : X) (dy : Y) :
  Forall2 R xs ys -> xs <> [] -> R (last xs dx) (last ys dy).
Proof.
  induction 1 as [|x y xs ys Hxy H IH]; [congruence |]. intros _.
  destruct H as [|x' y' xs' ys' Hxy' H'].
  - exact Hxy.
  - apply IH. discriminate.
Qed.

Lemma linear_series_axis (xs ys : Series) (v : Q) :
  increasing xs -> hd 0 xs = 0 -> last xs 0 = 100 ->
  Forall2 (fun x y => y == 1 - x / 200) xs ys ->
  Crossing.nearest_on_grid (linear_value (combine xs ys)) (8 # 10) 0 100 v ->
  Qabs (v - 40) <= 100 / 1000.
Proof.
  intros Hinc Hhd Hlast Hline Hnear.
  assert (Hlen : List.length xs = List.length ys) by (eapply Forall2_length; eassumption).
  assert (H2 : (2 <= List.length xs)%nat).
  { destruct xs as [|x0 [|x1 xs]]; cbn in *; try lia; congruence. }
  apply nearest_to_forty with (F := linear_value (combine xs ys)); [|assumption].
  intros x. apply linear_value_collinear.
  - now rewrite map_fst_combine.
  - rewrite length_combine. lia.
  - apply Forall2_combine in Hline. eapply Forall_impl; [|exact Hline].
    intros [a b] H. cbn in *. rewrite H. field.
Qed.

(** With the default axes and no kink filter, every sampling of the
    straight line from 1.0 to 0.5 over 0..100 gives a frame whose values
    are within 100/1000 of 40. *)
Lemma linear_series_crossing (hp : hyperparameters) (df : DataFrame)
  (xs1 xs2 ys irt : Series) (irt0 : Q) :
  interpolation_axes hp = ["normalized_regular_throughput"; "cycle_index"] ->
  threshold hp = 8 # 10 ->
  filter_kinks hp = None ->
  getitem df "normalized_regular_throughput" = Ok xs1 ->
  getitem df "cycle_index" = Ok xs2 ->
  getitem df "fractional_metric" = Ok ys ->
  getitem df "initial_regular_throughput" = Ok (irt0 :: irt) ->
  increasing xs1 -> hd 0 xs1 = 0 -> last xs1 0 = 100 ->
  increasing xs2 -> hd 0 xs2 = 0 -> last xs2 0 = 100 ->
  Forall2 (fun x y => y == 1 - x / 200) xs1 ys ->
  Forall2 (fun x y => y == 1 - x / 200) xs2 ys ->
  exists row v1 v2,
    get_threshold_targets hp df = Ok row
    /\ dict_get (column_key hp "normalized_regular_throughput") row = Some v1
    /\ dict_get (column_key hp "cycle_index") row = Some v2
    /\ Qabs (v1 - 40) <= 100 / 1000
    /\ Qabs (v2 - 40) <= 100 / 1000.
Proof.
  intros Hax Hthr Hk H1 H2 Hy Hirt Hi1 Hh1 Hl1 Hi2 Hh2 Hl2 Hline1 Hline2.
  assert (Hlen1 : List.length xs1 = List.length ys) by (eapply Forall2_length; eassumption).
  assert (Hlen2 : List.length xs2 = List.length ys) by (eapply Forall2_length; eassumption).
  assert (Hn : (2 <= List.length xs1)%nat).
  { destruct xs1 as [|x0 [|x1 xs]]; cbn in *; try lia; congruence. }
  assert (Hkf : kink_filter hp df = Ok df) by (unfold kink_filter; now rewrite Hk).
  destruct (@interpolated_crossing hp df df xs1 xs2 ys irt irt0)
    as (v1 & v2 & _ & Hn1 & Hn2 & _ & _ & Hret); try assumption.
  { lia. }
  { exists (last ys 0). split.
    - destruct ys as [|y0 ys]; [cbn in Hlen1; lia |].
      rewrite last_cons. clear. revert y0. induction ys as [|z l IH]; intros y0.
      + now left.
      + right. rewrite last_cons. apply IH.
    - assert (Hlast : last ys 0 == 1 - last xs1 0 / 200).
      { apply (Forall2_last 0 0 Hline1). destruct xs1; [cbn in Hn; lia | discriminate]. }
      rewrite Hlast, Hl1, Hthr. apply Qle_bool_iff. reflexivity. }
  rewrite Hthr, Hh1, Hl1 in Hn1. rewrite Hthr, Hh2, Hl2 in Hn2.
  pose proof (linear_series_axis Hi1 Hh1 Hl1 Hline1 Hn1) as Hv1.
  pose proof (linear_series_axis Hi2 Hh2 Hl2 Hline2 Hn2) as Hv2.
  assert (E : 100 / 1000 == 1 # 10) by reflexivity.
  destruct Hret as (row & Hrow & Hr1 & Hr2).
  { apply Qabs_Qle_condition in Hv1. rewrite E in Hv1. lra. }
  { apply Qabs_Qle_condition in Hv2. rewrite E in Hv2. lra. }
  exists row, v1, v2. auto.
Qed.

End LinearSeriesCrossing.

Section Monotone.

Import Crossing.

Lemma slope_negative (x0 y0 x1 y1 : Q) :
  x0 < x1 -> y1 < y0 -> (y1 - y0) / (x1 - x0) < 0.
Proof.
  intros Hx Hy. set (s := (y1 - y0) / (x1 - x0)).
  assert (Hs : s * (x1 - x0) == y1 - y0) by (unfold s; field; lra).
  apply Qnot_le_lt. intros Hge.
  assert (0 <= s * (x1 - x0)) by (apply Qmult_le_0_compat; lra). lra.
Qed.

Lemma scale_by_negative (s a b : Q) : s < 0 -> a < b -> s * b < s * a.
Proof.
  intros Hs Hab.
  assert (H : 0 < (- s) * (b - a)) by (apply Qmult_lt_0_compat; lra).
  assert (E : (- s) * (b - a) == s * a - s * b) by ring. lra.
Qed.

Lemma line_decreasing (p0 p1 : Q * Q) (a b : Q) :
  fst p0 < fst p1 -> snd p1 < snd p0 -> a < b -> line p0 p1 b < line p0 p1 a.
Proof.
  intros Hx Hy Hab. unfold line.
  pose proof (slope_negative Hx Hy) as Hs.
  set (s := (snd p1 - snd p0) / (fst p1 - fst p0)) in *.
  assert (H := @scale_by_negative s (a - fst p0) (b - fst p0) Hs ltac:(lra)). lra.
Qed.

Lemma line_at_left (p0 p1 : Q * Q) : line p0 p1 (fst p0) == snd p0.
Proof. unfold line. setoid_replace (fst p0 - fst p0) with 0 by ring. ring. Qed.

Lemma line_at_right (p0 p1 : Q * Q) : fst p0 < fst p1 -> line p0 p1 (fst p1) == snd p1.
Proof. intros H. unfold line. field. lra. Qed.

Lemma line_wd (p0 p1 : Q * Q) (a b : Q) : a == b -> line p0 p1 a == line p0 p1 b.
Proof. intros H. unfold line. now rewrite H. Qed.

Lemma segment_line (p0 p1 : Q * Q) (x : Q) :
  fst p0 < fst p1 -> segment p0 p1 x = Ok (line p0 p1 x).
Proof. apply segment_ok. Qed.

Lemma linear_at_first (p0 p1 : Q * Q) (rest : list (Q * Q)) :
  fst p0 < fst p1 ->
  exists v, linear (p0 :: p1 :: rest) (fst p0) = Ok v /\ v == snd p0.
Proof.
  intros H. exists (line p0 p1 (fst p0)). split; [|apply line_at_left].
  destruct rest as [|p2 rest].
  - rewrite linear_two. now apply segment_line.
  - rewrite linear_cons.
    assert (E : Qle_bool (fst p0) (fst p1) = true) by (apply Qle_bool_iff; lra).
    rewrite E. now apply segment_line.
Qed.

Lemma linear_decreasing (pts : list (Q * Q)) (a b va vb : Q) :
  increasing (map fst pts) -> decreasing (map snd pts) ->
  a < b -> linear pts a = Ok va -> linear pts b = Ok vb -> vb < va.
Proof.
  revert a b va vb.
  induction pts as [|p0 pts IH]; intros a b va vb Hinc Hdec Hab Ha Hb;
    [discriminate |].
  destruct pts as [|p1 rest]; [discriminate |].
  assert (Hx : fst p0 < fst p1) by apply Hinc.
  assert (Hy : snd p1 < snd p0) by apply Hdec.
  destruct rest as [|p2 rest].
  - rewrite linear_two, segment_line in Ha, Hb by assumption.
    injection Ha as <-. injection Hb as <-. now apply line_decreasing.
  - rewrite linear_cons in Ha, Hb.
    assert (Hinc' : increasing (map fst (p1 :: p2 :: rest))) by apply Hinc.
    assert (Hdec' : decreasing (map snd (p1 :: p2 :: rest))) by apply Hdec.
    destruct (Qle_bool a (fst p1)) eqn:Ea; destruct (Qle_bool b (fst p1)) eqn:Eb.
    + rewrite segment_line in Ha, Hb by assumption.
      injection Ha as <-. injection Hb as <-. now apply line_decreasing.
    + rewrite segment_line in Ha by assumption. injection Ha as <-.
      apply Qle_bool_iff in Ea.
      assert (Hb1 : fst p1 < b).
      { apply Qnot_le_lt. intros Hle. apply Qle_bool_iff in Hle. congruence. }
      destruct (@linear_at_first p1 p2 rest) as (v1 & Hv1 & Ev1); [apply Hinc' |].
      pose proof (IH _ _ _ _ Hinc' Hdec' Hb1 Hv1 Hb) as Hlt.
      assert (Hge : snd p1 <= line p0 p1 a).
      { destruct (Qlt_le_dec a (fst p1)) as [Hlt1 | Hge1].
        - pose proof (@line_decreasing p0 p1 a (fst p1) Hx Hy Hlt1) as H.
          rewrite line_at_right in H by assumption. lra.
        - assert (Eq : a == fst p1) by lra.
          rewrite (line_wd p0 p1 Eq), line_at_right by assumption. lra. }
      lra.
    + apply Qle_bool_iff in Eb.
      assert (fst p1 < a).
      { apply Qnot_le_lt. intros Hle. apply Qle_bool_iff in Hle. congruence. }
      lra.
    + now apply (IH a b).
Qed.

Lemma Qle_bool_wd (a b c : Q) : a == b -> Qle_bool a c = Qle_bool b c.
Proof. intros H. now rewrite H. Qed.

Lemma linear_wd (pts : list (Q * Q)) (a b va vb : Q) :
  increasing (map fst pts) ->
  a == b -> linear pts a = Ok va -> linear pts b = Ok vb -> va == vb.
Proof.
  revert va vb.
  induction pts as [|p0 pts IH]; intros va vb Hinc Hab Ha Hb; [discriminate |].
  destruct pts as [|p1 rest]; [discriminate |].
  assert (Hx : fst p0 < fst p1) by apply Hinc.
  destruct rest as [|p2 rest].
  - rewrite linear_two, segment_line in Ha, Hb by assumption.
    injection Ha as <-. injection Hb as <-. now apply line_wd.
  - rewrite linear_cons in Ha, Hb. rewrite (Qle_bool_wd (fst p1) Hab) in Ha.
    destruct (Qle_bool b (fst p1)).
    + rewrite segment_line in Ha, Hb by assumption.
      injection Ha as <-. injection Hb as <-. now apply line_wd.
    + apply IH; [apply Hinc | assumption..].
Qed.

End Monotone.

Section Extrapolation.

Import Crossing DiagnosticProperties.

Lemma linear_beyond (init : list (Q * Q)) (q1 q2 : Q * Q) (x : Q) :
  increasing (map fst (init ++ [q1; q2])) -> fst q1 < x ->
  linear (init ++ [q1; q2]) x = Ok (line q1 q2 x).
Proof.
  intros Hinc Hx. induction init as [|p init IH].
  - cbn [app]. rewrite linear_two. apply segment_line. apply Hinc.
  - assert (Hp : fst p < fst q1).
    { cbn [app map] in Hinc. apply increasing_above_head in Hinc.
      rewrite Forall_forall in Hinc. apply Hinc.
      rewrite map_app. apply in_or_app. right. now left. }
    assert (Hinc' : increasing (map fst (init ++ [q1; q2]))).
    { cbn [app map] in Hinc. now apply increasing_tail in Hinc. }
    specialize (IH Hinc').
    assert (Hfalse : forall z, z < x -> Qle_bool x z = false).
    { intros z Hz. apply not_true_is_false. intros H. apply Qle_bool_iff in H. lra. }
    destruct init as [|p' init].
    + cbn [app] in *. rewrite linear_cons, Hfalse by assumption. exact IH.
    + assert (Hp' : fst p' < fst q1).
      { cbn [app map] in Hinc'. apply increasing_above_head in Hinc'.
        rewrite Forall_forall in Hinc'. apply Hinc'.
        rewrite map_app. apply in_or_app. right. now left. }
      destruct init as [|p'' init]; cbn [app] in *;
        rewrite linear_cons, Hfalse by lra; exact IH.
Qed.

Lemma Qabs_nonneg_eq (x : Q) : 0 <= x -> Qabs x == x.
Proof. apply Qabs_pos. Qed.

Lemma Qabs_nonpos_eq (x : Q) : x <= 0 -> Qabs x == - x.
Proof. apply Qabs_neg. Qed.

(** The nearest sample of a strictly decreasing function lies within one
    grid step of the point where the function takes the value [thr]. *)
Lemma nearest_sample_brackets (F : Q -> Q) (thr lo hi v xstar : Q) :
  lo < hi ->
  (forall a b, a < b -> F b < F a) ->
  (forall a b, a == b -> F a == F b) ->
  F xstar == thr -> lo <= xstar -> xstar <= hi ->
  Crossing.nearest_on_grid F thr lo hi v ->
  xstar - (hi - lo) / 999 < v /\ v <= xstar + (hi - lo) / 999.
Proof.
  intros Hlohi Hmono Hwd Hstar Hlo Hhi (k & Hk & -> & Hmin).
  set (step := (hi - lo) / 999).
  assert (Hstep : 0 < step).
  { unfold step. assert (E : 999 * ((hi - lo) / 999) == hi - lo) by field. lra. }
  assert (Hweak : forall a b, a <= b -> F b <= F a).
  { intros a b Hab. destruct (Qlt_le_dec a b) as [Hlt | Hge].
    - specialize (Hmono a b Hlt). lra.
    - assert (E : a == b) by lra. rewrite (Hwd a b E). lra. }
  destruct (Qlt_le_dec (F (sample lo hi k)) thr) as [Hbelow | Habove].
  - (* the sample is past the crossing *)
    assert (Hpast : xstar < sample lo hi k).
    { apply Qnot_le_lt. intros Hle. specialize (Hweak _ _ Hle). lra. }
    split; [lra |].
    destruct k as [|k].
    + pose proof (sample_first lo hi). lra.
    + apply Qnot_lt_le. intros Hfar.
      pose proof (sample_step lo hi k) as Hs. fold step in Hs.
      assert (Hprev : xstar < sample lo hi k) by lra.
      pose proof (Hmono _ _ Hprev) as H1.
      assert (Hlt : sample lo hi k < sample lo hi (S k)) by lra.
      pose proof (Hmono _ _ Hlt) as H2.
      specialize (Hmin k ltac:(lia)).
      rewrite (Qabs_nonpos_eq (x := F (sample lo hi (S k)) - thr)) in Hmin by lra.
      rewrite (Qabs_nonpos_eq (x := F (sample lo hi k) - thr)) in Hmin by lra.
      lra.
  - (* the sample is before the crossing, or on it *)
    assert (Hbefore : sample lo hi k <= xstar).
    { apply Qnot_lt_le. intros Hlt. specialize (Hmono _ _ Hlt). lra. }
    split; [|lra].
    destruct (Nat.eq_dec k 999) as [-> | Hne].
    + pose proof (sample_last lo hi). lra.
    + apply Qnot_le_lt. intros Hfar.
      pose proof (sample_step lo hi k) as Hs. fold step in Hs.
      assert (Hnext : sample lo hi (S k) <= xstar) by lra.
      pose proof (Hweak _ _ Hnext) as H1.
      assert (Hlt : sample lo hi k < sample lo hi (S k)) by lra.
      pose proof (Hmono _ _ Hlt) as H2.
      specialize (Hmin (S k) ltac:(lia)).
      rewrite (Qabs_nonneg_eq (x := F (sample lo hi (S k)) - thr)) in Hmin by lra.
      rewrite (Qabs_nonneg_eq (x := F (sample lo hi k) - thr)) in Hmin by lra.
      lra.
Qed.

End Extrapolation.

Section ExtrapolationAxis.

Import Crossing DiagnosticProperties.

Lemma combine_app (X Y : Type) (a a' : list X) (b b' : list Y) :
  List.length a = List.length b ->
  combine (a ++ a') (b ++ b') = combine a b ++ combine a' b'.
Proof.
  revert b. induction a as [|x a IH]; intros [|y b] H; cbn in *; try discriminate;
    [reflexivity |]. f_equal. apply IH. congruence.
Qed.

Lemma iloc_last_two (init : Series) (a b : Q) :
  iloc_from_end (init ++ [a; b]) 2 = Ok a /\ iloc_from_end (init ++ [a; b]) 1 = Ok b.
Proof.
  unfold iloc_from_end. rewrite rev_app_distr. cbn. split; reflexivity.
Qed.

Lemma ratio_negative (a b : Q) : 0 < a -> b < 0 -> a / b < 0.
Proof.
  intros Ha Hb. set (t := a / b).
  assert (Ht : t * b == a) by (unfold t; field; lra).
  apply Qnot_le_lt. intros Hge.
  assert (H : 0 <= t * (- b)) by (apply Qmult_le_0_compat; lra).
  assert (E : t * (- b) == - (t * b)) by ring. lra.
Qed.

Lemma line_reaches_eq (x1 y1 x2 y2 y : Q) :
  y2 < y1 ->
  line_reaches x1 y1 x2 y2 y == x1 + ((x2 - x1) / (y2 - y1)) * (y - y1).
Proof. intros H. unfold line_reaches. field. lra. Qed.

Lemma line_reaches_decreasing (x1 y1 x2 y2 y y' : Q) :
  x1 < x2 -> y2 < y1 -> y < y' ->
  line_reaches x1 y1 x2 y2 y' < line_reaches x1 y1 x2 y2 y.
Proof.
  intros Hx Hy Hlt. rewrite !line_reaches_eq by assumption.
  assert (Ht : (x2 - x1) / (y2 - y1) < 0) by (apply ratio_negative; lra).
  assert (H := @scale_by_negative _ (y - y1) (y' - y1) Ht ltac:(lra)). lra.
Qed.

Lemma line_reaches_right (x1 y1 x2 y2 : Q) :
  y2 < y1 -> line_reaches x1 y1 x2 y2 y2 == x2.
Proof. intros H. unfold line_reaches. field. lra. Qed.

Lemma line_at_reach (x1 y1 x2 y2 y : Q) :
  x1 < x2 -> y2 < y1 ->
  line (x1, y1) (x2, y2) (line_reaches x1 y1 x2 y2 y) == y.
Proof. intros Hx Hy. unfold line, line_reaches. cbn [fst snd]. field. lra. Qed.

Lemma hd_app (X : Type) (l l' : list X) (d : X) : l' <> [] -> hd d (l ++ l') = hd (hd d l') l.
Proof. destruct l; [destruct l'; [congruence | reflexivity] | reflexivity]. Qed.

Lemma last_app_two (X : Type) (l : list X) (a b d : X) : last (l ++ [a; b]) d = b.
Proof.
  induction l as [|x l IH]; [reflexivity |].
  cbn [app]. rewrite last_cons. destruct l; [reflexivity |].
  cbn [app] in *. rewrite last_cons in IH. rewrite last_cons. exact IH.
Qed.

Lemma series_min_hd (xs : Series) :
  increasing xs -> xs <> [] -> series_min xs = Some (hd 0 xs).
Proof.
  destruct xs as [|x xs]; [congruence |]. intros H _. now apply series_min_increasing.
Qed.

Lemma series_max_last (xs : Series) :
  increasing xs -> xs <> [] -> series_max xs = Some (last xs 0).
Proof.
  destruct xs as [|x xs]; [congruence |]. intros H _.
  rewrite series_max_increasing by assumption. now rewrite last_cons.
Qed.

Lemma hd_le_second_last (xi : Series) (x1 x2 : Q) :
  increasing (xi ++ [x1; x2]) -> hd 0 (xi ++ [x1; x2]) <= x1.
Proof.
  destruct xi as [|x xi]; cbn [app hd]; intros H; [lra |].
  apply increasing_above_head in H. rewrite Forall_forall in H.
  apply Qlt_le_weak, H. apply in_or_app. right. now left.
Qed.

(** One axis in the branch of lines 845-859: the metric is still above
    the threshold and extrapolation is on. *)
Lemma extrapolation_axis (xi yi : Series) (x1 x2 y1 y2 thr : Q) :
  let xs := xi ++ [x1; x2] in
  let ys := yi ++ [y1; y2] in
  let lo := hd 0 xs in
  let F := linear_value (combine xs ys) in
  let xstar := line_reaches x1 y1 x2 y2 thr in
  List.length xi = List.length yi ->
  increasing xs -> decreasing ys -> thr < y2 ->
  exists f e v,
    interp1d_new xs ys false fill_extrapolate = Ok f
    /\ extrapolation_linspace thr ys xs = Ok (linspace lo e 1000)
    /\ DiagnosticProperties.nearest_sample f thr (linspace lo e 1000) = Ok v
    /\ e == line_reaches x1 y1 x2 y2 (thr - (1 # 10))
    /\ Crossing.nearest_on_grid F thr lo e v
    /\ (forall x, x1 < x -> F x == line (x1, y1) (x2, y2) x)
    /\ x2 < xstar /\ xstar < e
    /\ xstar - (e - lo) / 999 < v /\ v <= xstar + (e - lo) / 999
    /\ lo <= v
    /\ (forall x, lo <= x -> x <= x2 -> interpolates (combine xs ys) x (F x)).
Proof.
  intros xs ys lo F xstar Hlen Hinc Hdec Hthr.
  assert (Hlen' : List.length xs = List.length ys).
  { unfold xs, ys. rewrite !length_app. cbn. lia. }
  assert (Hpts : combine xs ys = combine xi yi ++ [(x1, y1); (x2, y2)]).
  { unfold xs, ys. now rewrite combine_app. }
  assert (Hpinc : increasing (map fst (combine xs ys))) by now rewrite map_fst_combine.
  assert (Hpdec : decreasing (map snd (combine xs ys))) by now rewrite map_snd_combine.
  assert (Hplen : (2 <= List.length (combine xs ys))%nat).
  { rewrite length_combine. unfold xs, ys. rewrite !length_app. cbn. lia. }
  assert (Hx12 : x1 < x2).
  { clear - Hinc. unfold xs in Hinc. induction xi as [|x xi IH]; [apply Hinc |].
    apply IH. cbn [app] in Hinc. now apply increasing_tail in Hinc. }
  assert (Hy12 : y2 < y1).
  { clear - Hdec. unfold ys in Hdec. induction yi as [|y yi IH]; [apply Hdec |].
    apply IH. cbn [app] in Hdec. now apply decreasing_tail in Hdec. }
  assert (Hlo1 : lo <= x1) by (apply hd_le_second_last; exact Hinc).
  set (e := (thr - (1 # 10) - y1) * (x2 - x1) / (y2 - y1) + x1).
  assert (He : e == line_reaches x1 y1 x2 y2 (thr - (1 # 10))).
  { unfold e, line_reaches. field. lra. }
  assert (Hstar2 : x2 < xstar).
  { unfold xstar. rewrite <- (line_reaches_right x1 x2 Hy12) at 1.
    apply line_reaches_decreasing; lra. }
  assert (Hstare : xstar < e).
  { rewrite He. unfold xstar. apply line_reaches_decreasing; lra. }
  assert (Htotal : forall x, linear (combine xs ys) x = Ok (F x)).
  { intros x. now apply linear_total. }
  assert (Hmono : forall a b, a < b -> F b < F a).
  { intros a b Hab. eapply linear_decreasing; eauto. }
  assert (Hwd : forall a b, a == b -> F a == F b).
  { intros a b Hab. eapply linear_wd; eauto. }
  assert (Hline : forall x, x1 < x -> F x == line (x1, y1) (x2, y2) x).
  { intros x Hx. unfold F, linear_value. rewrite Hpts, linear_beyond.
    - reflexivity.
    - rewrite <- Hpts. exact Hpinc.
    - exact Hx. }
  assert (HFstar : F xstar == thr).
  { rewrite Hline by lra. unfold xstar. now apply line_at_reach. }
  destruct (@nearest_sample_correct
              {| points := combine xs ys; bounds_error := false;
                 fill_value := fill_extrapolate |} thr lo e)
    as (v & Hv & Hnear).
  { intros i _. apply Htotal. }
  { left. split; reflexivity. }
  cbn [points] in Hnear. fold F in Hnear.
  destruct (@nearest_sample_brackets F thr lo e v xstar) as [Hb1 Hb2];
    try assumption; try lra.
  exists {| points := combine xs ys; bounds_error := false;
            fill_value := fill_extrapolate |}, e, v.
  repeat split; try assumption.
  - unfold interp1d_new. rewrite Hlen', Nat.eqb_refl. cbn [negb].
    now rewrite sort_by_x_increasing.
  - unfold extrapolation_linspace, lo, xs, ys.
    destruct (iloc_last_two yi y1 y2) as [-> ->].
    destruct (iloc_last_two xi x1 x2) as [-> ->]. cbn [bind].
    unfold x_thresh_extrap.
    assert (E : Qeq_bool (y2 - y1) 0 = false).
    { apply not_true_is_false. intros H. apply Qeq_bool_iff in H. lra. }
    rewrite E. cbn [bind]. rewrite series_min_hd; [reflexivity | assumption |].
    destruct xi; discriminate.
  - destruct Hnear as (k & Hk & -> & _).
    apply sample_bounds; [lra | assumption].
  - intros x Hlo Hhi. apply linear_interpolates with (d := (0, 0)); try assumption.
    + unfold lo, xs, ys in *. destruct xi, yi; try discriminate; exact Hlo.
    + rewrite Hpts, last_app_two. exact Hhi.
Qed.

End ExtrapolationAxis.

Section ExtrapolatedCrossing.

Import Crossing DiagnosticProperties.

Lemma series_min_last (ys : Series) :
  decreasing ys -> ys <> [] -> series_min ys = Some (last ys 0).
Proof.
  destruct ys as [|y ys]; [congruence |]. intros H _.
  rewrite series_min_decreasing by assumption. now rewrite last_cons.
Qed.

(** C5, amended.  The metric decreases strictly and stays above the
    threshold, extrapolation is on, and the two default axes increase.
    Then, for each axis, the solver takes the end point [e] where the
    line through the last two points reaches [threshold - 0.1], searches
    the 1000 samples from the observed minimum to [e] with the
    interpolant continued along that line, and its crossing value is the
    sample nearest to the threshold, which lies within one grid step of
    the point where the line reaches the threshold.  That point is
    beyond the last observed [x]; the sample need not be.  The solver
    returns the two crossing values exactly when both are positive and
    raises otherwise; a crossing value is positive as soon as its axis
    starts above zero, or the grid step is at most the point where the
    line reaches the threshold. *)
Theorem extrapolation_returns_sample_near_crossing (hp : hyperparameters)
  (df df' : DataFrame)
  (xi1 xi2 yi irt : Series) (a1 a2 b1 b2 y1 y2 irt0 : Q) :
  let xs1 := xi1 ++ [a1; a2] in
  let xs2 := xi2 ++ [b1; b2] in
  let ys := yi ++ [y1; y2] in
  let thr := threshold hp in
  interpolation_axes hp = ["normalized_regular_throughput"; "cycle_index"] ->
  extrapolate_threshold hp = true ->
  kink_filter hp df = Ok df' ->
  getitem df' "normalized_regular_throughput" = Ok xs1 ->
  getitem df' "cycle_index" = Ok xs2 ->
  getitem df' "fractional_metric" = Ok ys ->
  getitem df' "initial_regular_throughput" = Ok (irt0 :: irt) ->
  List.length xi1 = List.length yi -> List.length xi2 = List.length yi ->
  increasing xs1 -> increasing xs2 -> decreasing ys ->
  thr < y2 ->
  exists v1 v2 e1 e2,
    crossing_values hp df = Ok (df', [v1; v2])
    /\ e1 == line_reaches a1 y1 a2 y2 (thr - (1 # 10))
    /\ e2 == line_reaches b1 y1 b2 y2 (thr - (1 # 10))
    /\ Crossing.nearest_on_grid (linear_value (combine xs1 ys)) thr (hd 0 xs1) e1 v1
    /\ Crossing.nearest_on_grid (linear_value (combine xs2 ys)) thr (hd 0 xs2) e2 v2
    /\ (forall x, a1 < x ->
          linear_value (combine xs1 ys) x == line (a1, y1) (a2, y2) x)
    /\ (forall x, b1 < x ->
          linear_value (combine xs2 ys) x == line (b1, y1) (b2, y2) x)
    /\ a2 < line_reaches a1 y1 a2 y2 thr
    /\ b2 < line_reaches b1 y1 b2 y2 thr
    /\ line_reaches a1 y1 a2 y2 thr - (e1 - hd 0 xs1) / 999 < v1
    /\ v1 <= line_reaches a1 y1 a2 y2 thr + (e1 - hd 0 xs1) / 999
    /\ line_reaches b1 y1 b2 y2 thr - (e2 - hd 0 xs2) / 999 < v2
    /\ v2 <= line_reaches b1 y1 b2 y2 thr + (e2 - hd 0 xs2) / 999
    /\ hd 0 xs1 <= v1 /\ hd 0 xs2 <= v2
    /\ series_min xs1 = Some (hd 0 xs1) /\ series_min xs2 = Some (hd 0 xs2)
    /\ (forall x, hd 0 xs1 <= x -> x <= a2 ->
          interpolates (combine xs1 ys) x (linear_value (combine xs1 ys) x))
    /\ (forall x, hd 0 xs2 <= x -> x <= b2 ->
          interpolates (combine xs2 ys) x (linear_value (combine xs2 ys) x))
    /\ (0 < v1 -> 0 < v2 ->
        exists row,
          get_threshold_targets hp df = Ok row
          /\ dict_get (column_key hp "normalized_regular_throughput") row = Some v1
          /\ dict_get (column_key hp "cycle_index") row = Some v2)
    /\ (~ (0 < v1 /\ 0 < v2) ->
        get_threshold_targets hp df
        = Raise (BEEPFeaturizationError
                   "DiagnosticProperties data does not have a positive value to threshold"))
    /\ (0 < hd 0 xs1
        \/ (line_reaches a1 y1 a2 y2 (thr - (1 # 10)) - hd 0 xs1) / 999
           <= line_reaches a1 y1 a2 y2 thr ->
        0 < v1)
    /\ (0 < hd 0 xs2
        \/ (line_reaches b1 y1 b2 y2 (thr - (1 # 10)) - hd 0 xs2) / 999
           <= line_reaches b1 y1 b2 y2 thr ->
        0 < v2).
Proof.
  intros xs1 xs2 ys thr Hax Hex Hk H1 H2 Hy Hirt Hl1 Hl2 Hi1 Hi2 Hd Hthr.
  destruct (@extrapolation_axis xi1 yi a1 a2 y1 y2 thr Hl1 Hi1 Hd Hthr)
    as (f1 & e1 & v1 & Hf1 & Hg1 & Hv1 & He1 & Hn1 & Hline1 & Hs1 & _ & Hlo1 & Hhi1
        & Hge1 & Hint1).
  destruct (@extrapolation_axis xi2 yi b1 b2 y1 y2 thr Hl2 Hi2 Hd Hthr)
    as (f2 & e2 & v2 & Hf2 & Hg2 & Hv2 & He2 & Hn2 & Hline2 & Hs2 & _ & Hlo2 & Hhi2
        & Hge2 & Hint2).
  fold xs1 ys in Hf1, Hg1, Hn1, Hline1, Hlo1, Hhi1, Hge1, Hint1.
  fold xs2 ys in Hf2, Hg2, Hn2, Hline2, Hlo2, Hhi2, Hge2, Hint2.
  assert (Hmin : min_above ys thr = true).
  { unfold min_above. rewrite series_min_last.
    - unfold ys. rewrite last_app_two. now apply Qltb_lt.
    - exact Hd.
    - unfold ys. destruct yi; discriminate. }
  assert (Hcross : crossing_values hp df = Ok (df', [v1; v2])).
  { eapply crossing_values_two_axes; try eassumption.
    unfold threshold_branch. fold thr. rewrite Hmin, Hex.
    cbn [andb negb mapM bind]. rewrite Hg1, Hg2. reflexivity. }
  exists v1, v2, e1, e2.
  repeat match goal with |- _ /\ _ => split end; try assumption.
  - apply series_min_hd; [assumption | unfold xs1; destruct xi1; discriminate].
  - apply series_min_hd; [assumption | unfold xs2; destruct xi2; discriminate].
  - intros Hv1pos Hv2pos.
    destruct (@threshold_frame_default hp df' v1 v2 irt0 irt Hax Hirt Hv1pos Hv2pos)
      as (row & Hrow & Hr1 & Hr2 & _).
    exists row. unfold get_threshold_targets. rewrite Hcross. cbn [bind fst snd].
    repeat split; assumption.
  - intros Hneg. unfold get_threshold_targets. rewrite Hcross. cbn [bind fst snd].
    unfold threshold_frame, check_positive, list_item. cbn [nth_error bind].
    destruct (Qltb 0 v1) eqn:E1; cbn [negb bind]; [|reflexivity].
    destruct (Qltb 0 v2) eqn:E2; cbn [negb bind]; [|reflexivity].
    exfalso. apply Hneg. split; now apply Qltb_lt.
  - intros [Hp | Hp]; [lra |].
    assert (Hstep : (e1 - hd 0 xs1) / 999
                    == (line_reaches a1 y1 a2 y2 (thr - (1 # 10)) - hd 0 xs1) / 999)
      by (rewrite He1; reflexivity).
    lra.
  - intros [Hp | Hp]; [lra |].
    assert (Hstep : (e2 - hd 0 xs2) / 999
                    == (line_reaches b1 y1 b2 y2 (thr - (1 # 10)) - hd 0 xs2) / 999)
      by (rewrite He2; reflexivity).
    lra.
Qed.

End ExtrapolatedCrossing.


Section InterpolationClaim.

Import Crossing DiagnosticProperties.

(** C3.  The metric has reached the threshold (some value is at or below
    it) and the two default axes increase.  Then for each axis the solver
    searches the 1000 evenly spaced samples from the first to the last
    observed [x], on the piecewise-linear interpolant of the series, and
    its crossing value is the sample at which the interpolant is nearest
    to the threshold; the frame with these values is returned when both
    are positive.  On a series that falls in a straight line from 1.0 to
    0.5 while [x] goes from 0 to 100, with threshold 0.8, the value is
    within 100/1000 of the exact crossing 40. *)
Theorem interpolation_returns_nearest_sample (hp : hyperparameters)
  (df df' : DataFrame) (xs1 xs2 ys irt : Series) (irt0 : Q) :
  interpolation_axes hp = ["normalized_regular_throughput"; "cycle_index"] ->
  kink_filter hp df = Ok df' ->
  getitem df' "normalized_regular_throughput" = Ok xs1 ->
  getitem df' "cycle_index" = Ok xs2 ->
  getitem df' "fractional_metric" = Ok ys ->
  getitem df' "initial_regular_throughput" = Ok (irt0 :: irt) ->
  increasing xs1 -> increasing xs2 ->
  List.length xs1 = List.length ys -> List.length xs2 = List.length ys ->
  (2 <= List.length ys)%nat ->
  (exists y, In y ys /\ y <= threshold hp) ->
  exists v1 v2,
    crossing_values hp df = Ok (df', [v1; v2])
    /\ Crossing.nearest_on_grid (linear_value (combine xs1 ys)) (threshold hp)
         (hd 0 xs1) (last xs1 0) v1
    /\ Crossing.nearest_on_grid (linear_value (combine xs2 ys)) (threshold hp)
         (hd 0 xs2) (last xs2 0) v2
    /\ (forall x, hd 0 xs1 <= x -> x <= last xs1 0 ->
          interpolates (combine xs1 ys) x (linear_value (combine xs1 ys) x))
    /\ (forall x, hd 0 xs2 <= x -> x <= last xs2 0 ->
          interpolates (combine xs2 ys) x (linear_value (combine xs2 ys) x))
    /\ (0 < v1 -> 0 < v2 ->
        exists row,
          get_threshold_targets hp df = Ok row
          /\ dict_get (column_key hp "normalized_regular_throughput") row = Some v1
          /\ dict_get (column_key hp "cycle_index") row = Some v2)
    /\ (threshold hp = 8 # 10 -> hd 0 xs1 = 0 -> last xs1 0 = 100 ->
        Forall2 (fun x y => y == 1 - x / 200) xs1 ys ->
        Qabs (v1 - 40) <= 100 / 1000)
    /\ (threshold hp = 8 # 10 -> hd 0 xs2 = 0 -> last xs2 0 = 100 ->
        Forall2 (fun x y => y == 1 - x / 200) xs2 ys ->
        Qabs (v2 - 40) <= 100 / 1000)
    /\ series_min xs1 = Some (hd 0 xs1) /\ series_max xs1 = Some (last xs1 0)
    /\ series_min xs2 = Some (hd 0 xs2) /\ series_max xs2 = Some (last xs2 0).
Proof.
  intros Hax Hk H1 H2 Hy Hirt Hi1 Hi2 Hl1 Hl2 Hlen Hreached.
  destruct (@interpolated_crossing hp df df' xs1 xs2 ys irt irt0)
    as (v1 & v2 & Hc & Hn1 & Hn2 & Hint1 & Hint2 & Hret); try assumption.
  assert (Hne1 : xs1 <> []) by (destruct xs1; [cbn in Hl1; lia | discriminate]).
  assert (Hne2 : xs2 <> []) by (destruct xs2; [cbn in Hl2; lia | discriminate]).
  exists v1, v2. repeat split; try assumption.
  - intros Hthr Hhd Hlast Hline. rewrite Hthr, Hhd, Hlast in Hn1.
    now apply linear_series_axis with (xs := xs1) (ys := ys).
  - intros Hthr Hhd Hlast Hline. rewrite Hthr, Hhd, Hlast in Hn2.
    now apply linear_series_axis with (xs := xs2) (ys := ys).
  - now apply series_min_hd.
  - now apply series_max_last.
  - now apply series_min_hd.
  - now apply series_max_last.
Qed.

End InterpolationClaim.

(** The linear series of the claim, sampled every 10 units. *)
Lemma interpolation_returns_nearest_sample_witness :
  exists row v,
    DiagnosticProperties.get_threshold_targets
      DiagnosticProperties.DEFAULT_HYPERPARAMETERS Runs.linear_decline = Ok row
    /\ dict_get "rpt_1Cdischarge_energy0.8_cycle_index" row = Some v
    /\ Qabs (v - 40) <= 100 / 1000.
Proof.
  destruct (@interpolation_returns_nearest_sample
              DiagnosticProperties.DEFAULT_HYPERPARAMETERS
              Runs.linear_decline Runs.linear_decline
              [0; 10; 20; 30; 40; 50; 60; 70; 80; 90; 100]
              [0; 10; 20; 30; 40; 50; 60; 70; 80; 90; 100]
              [1; 95 # 100; 90 # 100; 85 # 100; 80 # 100; 75 # 100; 70 # 100;
               65 # 100; 60 # 100; 55 # 100; 50 # 100]
              [2; 2; 2; 2; 2; 2; 2; 2; 2; 2] 2)
    as (v1 & v2 & _ & _ & _ & _ & _ & Hret & Hnear1 & Hnear2 & _).
  - reflexivity.
  - reflexivity.
  - reflexivity.
  - reflexivity.
  - reflexivity.
  - reflexivity.
  - cbn. repeat split.
  - cbn. repeat split.
  - reflexivity.
  - reflexivity.
  - cbn. lia.
  - exists (50 # 100). split; [cbn; tauto | apply Qle_bool_iff; reflexivity].
  - assert (Hline : Forall2 (fun x y => y == 1 - x / 200)
                      [0; 10; 20; 30; 40; 50; 60; 70; 80; 90; 100]
                      [1; 95 # 100; 90 # 100; 85 # 100; 80 # 100; 75 # 100; 70 # 100;
                       65 # 100; 60 # 100; 55 # 100; 50 # 100]).
    { repeat constructor; vm_compute; reflexivity. }
    specialize (Hnear1 eq_refl eq_refl eq_refl Hline).
    specialize (Hnear2 eq_refl eq_refl eq_refl Hline).
    assert (E : 100 / 1000 == 1 # 10) by reflexivity.
    destruct Hret as (row & Hrow & _ & Hr2).
    + apply Qabs_Qle_condition in Hnear1. rewrite E in Hnear1. lra.
    + apply Qabs_Qle_condition in Hnear2. rewrite E in Hnear2. lra.
    + exists row, v2. repeat split; assumption.
Defined.

(** Three diagnostics above the threshold, on axes that start at 1, and
    on axes that start at 0: there the crossing value is a sample near
    200, beyond the last observed 100. *)
Lemma extrapolation_returns_sample_near_crossing_witness :
  (exists row v,
     DiagnosticProperties.get_threshold_targets
       DiagnosticProperties.DEFAULT_HYPERPARAMETERS Runs.above_threshold = Ok row
     /\ dict_get "rpt_1Cdischarge_energy0.8_cycle_index" row = Some v
     /\ 0 < v)
  /\ (exists row v,
        DiagnosticProperties.get_threshold_targets
          DiagnosticProperties.DEFAULT_HYPERPARAMETERS Runs.zero_start = Ok row
        /\ dict_get "rpt_1Cdischarge_energy0.8_cycle_index" row = Some v
        /\ 100 < v).
Proof.
  split.
  - destruct (@extrapolation_returns_sample_near_crossing
                DiagnosticProperties.DEFAULT_HYPERPARAMETERS
                Runs.above_threshold Runs.above_threshold
                [1] [1] [1] [2; 2] 50 100 50 100 (95 # 100) (80005 # 100000) 2)
      as (v1 & v2 & e1 & e2 & _ & _ & _ & _ & _ & _ & _ & _ & _ & _ & _ & _ & _
          & _ & _ & _ & _ & _ & _ & Hret & _ & Hp1 & Hp2).
    + reflexivity.
    + reflexivity.
    + reflexivity.
    + reflexivity.
    + reflexivity.
    + reflexivity.
    + reflexivity.
    + reflexivity.
    + reflexivity.
    + cbn. repeat split.
    + cbn. repeat split.
    + cbn. repeat split.
    + reflexivity.
    + assert (P1 : 0 < v1) by (apply Hp1; left; reflexivity).
      assert (P2 : 0 < v2) by (apply Hp2; left; reflexivity).
      destruct (Hret P1 P2) as (row & Hrow & _ & Hr2).
      exists row, v2. repeat split; assumption.
  - destruct (@extrapolation_returns_sample_near_crossing
                DiagnosticProperties.DEFAULT_HYPERPARAMETERS
                Runs.zero_start Runs.zero_start
                [0] [0] [1] [2; 2] 50 100 50 100 (95 # 100) (90 # 100) 2)
      as (v1 & v2 & e1 & e2 & _ & _ & He2 & _ & _ & _ & _ & _ & _ & _ & _ & Hlo2 & _
          & _ & _ & _ & _ & _ & _ & Hret & _ & Hp1 & Hp2).
    + reflexivity.
    + reflexivity.
    + reflexivity.
    + reflexivity.
    + reflexivity.
    + reflexivity.
    + reflexivity.
    + reflexivity.
    + reflexivity.
    + cbn. repeat split.
    + cbn. repeat split.
    + cbn. repeat split.
    + reflexivity.
    + assert (P1 : 0 < v1) by (apply Hp1; right; apply Qle_bool_iff; reflexivity).
      assert (P2 : 0 < v2) by (apply Hp2; right; apply Qle_bool_iff; reflexivity).
      destruct (Hret P1 P2) as (row & Hrow & _ & Hr2).
      exists row, v2. split; [exact Hrow |]. split; [exact Hr2 |].
      cbv zeta in He2, Hlo2.
      assert (E1 : Crossing.line_reaches 50 (95 # 100) 100 (90 # 100)
                     (DiagnosticProperties.threshold
                        DiagnosticProperties.DEFAULT_HYPERPARAMETERS - (1 # 10)) == 300)
        by reflexivity.
      assert (E2 : Crossing.line_reaches 50 (95 # 100) 100 (90 # 100)
                     (DiagnosticProperties.threshold
                        DiagnosticProperties.DEFAULT_HYPERPARAMETERS) == 200)
        by reflexivity.
      rewrite E1 in He2. rewrite E2 in Hlo2.
      change (hd 0 ([0] ++ [50; 100])) with 0 in Hlo2.
      assert (Hs : (e2 - 0) / 999 == 300 / 999) by (rewrite He2; reflexivity).
      rewrite Hs in Hlo2.
      assert (Hc : 100 < 200 - 300 / 999) by reflexivity.
      exact (Qlt_trans _ _ _ Hc Hlo2).
Defined.

(** C5, as stated, fails.  The series 1.0, 0.95, 0.80005 decreases strictly
    and stays above the threshold 0.8; with extrapolation on, the value
    returned for [cycle_index] is below 100, the last observed cycle index.
    On axes that start at 0, with a series that starts within 0.00004 of the
    threshold, the nearest sample is the first one, 0, and the solver
    raises instead of returning. *)
Lemma extrapolated_crossing_inside_observed_range :
  Crossing.decreasing [1; 95 # 100; 80005 # 100000]
  /\ DiagnosticProperties.min_above [1; 95 # 100; 80005 # 100000] (8 # 10) = true
  /\ series_max [1; 50; 100] = Some 100
  /\ (exists row v,
        DiagnosticProperties.get_threshold_targets
          DiagnosticProperties.DEFAULT_HYPERPARAMETERS Runs.above_threshold = Ok row
        /\ dict_get "rpt_1Cdischarge_energy0.8_cycle_index" row = Some v
        /\ v < 100)
  /\ Crossing.decreasing [80004 # 100000; 80002 # 100000]
  /\ DiagnosticProperties.min_above [80004 # 100000; 80002 # 100000] (8 # 10) = true
  /\ DiagnosticProperties.get_threshold_targets
       DiagnosticProperties.DEFAULT_HYPERPARAMETERS Runs.from_zero
     = Raise (BEEPFeaturizationError
                "DiagnosticProperties data does not have a positive value to threshold").
Proof.
  split; [cbn; repeat split |].
  split; [reflexivity |].
  split; [reflexivity |].
  split.
  { eexists. eexists. split; [vm_compute; reflexivity |].
    split; [vm_compute; reflexivity | reflexivity]. }
  split; [cbn; repeat split |].
  split; [reflexivity |].
  vm_compute. reflexivity.
Qed.

(** ** Exclusion criteria *)

Section FrameFacts.

Import ExclusionCriteria.

Lemma reindex_length (s : list cell) : reindex (List.length s) s = s.
Proof.
  induction s as [|c s IH]; cbn; [reflexivity | now rewrite IH].
Qed.

Lemma length_reindex (n : nat) (s : list cell) : List.length (reindex n s) = n.
Proof.
  revert s. induction n as [|n IH]; intros s; cbn; [reflexivity |].
  destruct s; cbn; now rewrite IH.
Qed.

Lemma n_rows_setitem_series (name : string) (s : list cell) (f : Frame) :
  n_rows (setitem_series name s f)
  = if (n_rows f =? 0)%nat then List.length s else n_rows f.
Proof.
  unfold setitem_series.
  destruct (n_rows f =? 0)%nat eqn:E; cbn [andb].
  - destruct (List.length s =? 0)%nat eqn:E'; cbn.
    + apply Nat.eqb_eq in E, E'. congruence.
    + reflexivity.
  - reflexivity.
Qed.

(** An assignment leaves the other columns in place, possibly filled up
    with NaN. *)
Lemma cols_setitem_series (name : string) (s : list cell) (f : Frame) :
  exists g : list cell -> list cell,
    cols (setitem_series name s f)
    = dict_set name (reindex (n_rows (setitem_series name s f)) s)
        (map (fun c => (fst c, g (snd c))) (cols f)).
Proof.
  unfold setitem_series.
  destruct ((n_rows f =? 0)%nat && negb (List.length s =? 0)%nat).
  - eexists. cbn. reflexivity.
  - exists (fun c => c). cbn. f_equal.
    rewrite <- (map_id (cols f)) at 1. apply map_ext. now intros [n c].
Qed.

Lemma set_to_include_eq (f : Frame) :
  set_to_include f
  = {| n_rows := n_rows f;
       cols := dict_set "to_include"
                 (map (to_include_row f) (seq 0 (n_rows f))) (cols f) |}.
Proof.
  unfold set_to_include, setitem_series.
  set (s := map (to_include_row f) (seq 0 (n_rows f))).
  assert (Hs : List.length s = n_rows f).
  { unfold s. now rewrite length_map, length_seq. }
  rewrite Hs.
  assert (Hr : reindex (n_rows f) s = s).
  { rewrite <- Hs. apply reindex_length. }
  destruct (n_rows f =? 0)%nat; cbn; now rewrite Hr.
Qed.

End FrameFacts.

Section ExclusionFacts.

Import ExclusionCriteria.

Variable get_fractional_quantity_remaining_nx :
  DataPath -> string -> string -> string -> result (list diag_row).
Variable get_protocol_parameters : string -> string -> result protocol_parameters.
Variable get_CV_segment_from_charge : list data_row -> result (list data_row).

Ltac bind_ok H x E :=
  match type of H with
  | bind ?m _ = Ok _ =>
      destruct m as [x|] eqn:E; [cbn [bind] in H | discriminate H]
  end.

Ltac unfold_create_features H :=
  unfold create_features in H;
  let diag := fresh "diag" in
  let f1 := fresh "f_eol" in
  let c := fresh "cutoff_cycle" in
  let nominal := fresh "nominal" in
  let f2 := fresh "f_efc" in
  let fp := fresh "fp" in
  let parameters := fresh "parameters" in
  let b := fresh "not_early" in
  let s := fresh "efc" in
  let t := fresh "at_EOT" in
  let Ediag := fresh "Ediag" in
  let Eeol := fresh "Eeol" in
  let Ecut := fresh "Ecut" in
  let Enom := fresh "Enom" in
  let Eefc := fresh "Eefc" in
  let Efp := fresh "Efp" in
  let Epar := fresh "Epar" in
  let Ecv := fresh "Ecv" in
  let Es := fresh "Es" in
  let Et := fresh "Et" in
  bind_ok H diag Ediag; bind_ok H f1 Eeol; bind_ok H c Ecut;
  bind_ok H nominal Enom; bind_ok H f2 Eefc; bind_ok H fp Efp;
  bind_ok H parameters Epar; bind_ok H b Ecv; injection H as <-;
  unfold EFC_rule in Eefc; bind_ok Eefc s Es; injection Eefc as <-;
  unfold EOL_rule in Eeol; bind_ok Eeol t Et; injection Eeol as <-.

Ltac step_cols :=
  match goal with
  | |- context [cols (setitem_series ?n ?s ?f)] =>
      let g := fresh "g" in
      let Hg := fresh "Hg" in
      destruct (cols_setitem_series n s f) as [g Hg]; rewrite Hg; clear Hg
  end.

(** The table [create_features] returns is [to_include] added to a table
    of seven columns. *)
Lemma create_features_columns (hp : hyperparameters) (dp : DataPath) (features : Frame) :
  create_features get_fractional_quantity_remaining_nx get_protocol_parameters
    get_CV_segment_from_charge hp dp = Ok features ->
  exists f a1 a2 a3 a4 a5 a6 a7,
    features = set_to_include f
    /\ cols f = [("first_n_cycles_throughput", a1);
                 ("is_above_first_n_cycles_throughput", a2);
                 ("fractional_capacity_at_EOT", a3);
                 ("is_below_fractional_capacity_at_EOT", a4);
                 ("equivalent_full_cycles_at_EOL", a5);
                 ("is_above_equivalent_full_cycles_at_EOL", a6);
                 ("is_not_early_CV", a7)].
Proof.
  intros H. unfold_create_features H.
  set (F := setitem_scalar _ _ _).
  assert (Hc : exists a1 a2 a3 a4 a5 a6 a7,
             cols F = [("first_n_cycles_throughput", a1);
                       ("is_above_first_n_cycles_throughput", a2);
                       ("fractional_capacity_at_EOT", a3);
                       ("is_below_fractional_capacity_at_EOT", a4);
                       ("equivalent_full_cycles_at_EOL", a5);
                       ("is_above_equivalent_full_cycles_at_EOL", a6);
                       ("is_not_early_CV", a7)]).
  { unfold F, setitem_scalar, throughput_rule. cbn [cols].
    repeat step_cols. cbn. do 7 eexists. reflexivity. }
  destruct Hc as (a1 & a2 & a3 & a4 & a5 & a6 & a7 & Hc).
  exists F, a1, a2, a3, a4, a5, a6, a7. split; [reflexivity | exact Hc].
Qed.

Lemma n_rows_set_to_include (f : Frame) : n_rows (set_to_include f) = n_rows f.
Proof. now rewrite set_to_include_eq. Qed.

(** X15.  In a run whose summary has exactly one row labelled [n], the
    table has one row. *)
Lemma one_row_when_cycle_n_present (hp : hyperparameters) (dp : DataPath)
  (features : Frame) :
  create_features get_fractional_quantity_remaining_nx get_protocol_parameters
    get_CV_segment_from_charge hp dp = Ok features ->
  List.length (filter (fun r => Z.eqb (index r) (throughput_n hp)) (structured_summary dp))
  = 1%nat ->
  n_rows features = 1%nat.
Proof.
  intros H Hn. unfold_create_features H.
  rewrite n_rows_set_to_include. unfold setitem_scalar. cbn [n_rows].
  assert (H1 : n_rows (throughput_rule hp dp empty_frame) = 1%nat).
  { unfold throughput_rule. rewrite !n_rows_setitem_series. cbn.
    rewrite !length_map, Hn. reflexivity. }
  rewrite !n_rows_setitem_series, H1. reflexivity.
Qed.

Lemma tail_slice_app (X : Type) (a b : list X) :
  tail_slice (List.length b) (a ++ b) = b.
Proof.
  unfold tail_slice. rewrite length_app.
  replace (List.length a + List.length b - List.length b)%nat with (List.length a + 0)%nat by lia.
  rewrite skipn_app, Nat.add_0_r, skipn_all.
  replace (List.length a - List.length a)%nat with 0%nat by lia. reflexivity.
Qed.

(** X16.  On a table of one row, with at least two diagnostics, the
    End-of-life rule stores one value, the last forward-filled one or the
    one before it when the last exceeds 1, and the flag of that value. *)
Lemma EOL_rule_on_one_row (hp : hyperparameters) (diag : list diag_row)
  (features : Frame) (init : list (option Q)) (prev last : option Q) :
  n_rows features = 1%nat ->
  ffill (map fractional_metric diag) = init ++ [prev; last] ->
  let v := if gt_float last 1 then prev else last in
  exists features',
    EOL_rule hp diag features = Ok features'
    /\ n_rows features' = 1%nat
    /\ column "fractional_capacity_at_EOT" features' = Ok [to_cell v]
    /\ column "is_below_fractional_capacity_at_EOT" features'
       = Ok [Flag (lt_float v (EOL_threshold hp))].
Proof.
  intros Hn Hf v. unfold EOL_rule, fractional_capacity_at_EOT.
  rewrite Hf.
  assert (H1 : tail_slice 1 (init ++ [prev; last]) = [last]).
  { change (init ++ [prev; last]) with (init ++ ([prev] ++ [last])).
    rewrite app_assoc. apply (tail_slice_app (init ++ [prev]) [last]). }
  assert (H2 : tail_slice 2 (init ++ [prev; last]) = [prev; last]).
  { apply (tail_slice_app init [prev; last]). }
  rewrite H1, H2.
  cbn [first_item bind].
  assert (Hs : forall name s f, n_rows f = 1%nat ->
            setitem_series name s f
            = {| n_rows := 1; cols := dict_set name (reindex 1 s) (cols f) |}).
  { intros name s f Hf1. unfold setitem_series. rewrite Hf1.
    cbn [Nat.eqb andb]. rewrite Hf1. reflexivity. }
  unfold v. destruct (gt_float last 1); cbn [bind];
    (eexists; split; [reflexivity |]);
    rewrite (Hs _ _ features Hn), Hs by reflexivity;
    (split; [reflexivity |]); unfold column; cbn [cols];
    rewrite dict_get_set_same, dict_get_set_other, dict_get_set_same by discriminate;
    split; reflexivity.
Qed.

End ExclusionFacts.

Section EarlyCV.

Import ExclusionCriteria.

Variable get_CV_segment_from_charge : list data_row -> result (list data_row).

Lemma early_CV_loop_stops (hp : hyperparameters) (dp : DataPath)
  (pre post : list Z) (cycle : Z) (frac : Q) :
  Forall (onset_not_early get_CV_segment_from_charge hp dp) pre ->
  CV_onset_frac get_CV_segment_from_charge dp cycle = Ok frac ->
  frac < early_CV_cutoff hp ->
  early_CV_loop get_CV_segment_from_charge hp dp (pre ++ cycle :: post) = Ok false.
Proof.
  intros Hpre Hc Hlt. induction Hpre as [|c pre (f & Hf & Hge) _ IH]; cbn.
  - rewrite Hc. cbn. apply Qltb_lt in Hlt. now rewrite Hlt.
  - rewrite Hf. cbn. apply Qltb_ge in Hge. now rewrite Hge.
Qed.

Lemma early_CV_loop_passes (hp : hyperparameters) (dp : DataPath) (cycles : list Z) :
  Forall (onset_not_early get_CV_segment_from_charge hp dp) cycles ->
  early_CV_loop get_CV_segment_from_charge hp dp cycles = Ok true.
Proof.
  intros H. induction H as [|c cycles (f & Hf & Hge) _ IH]; cbn.
  - reflexivity.
  - rewrite Hf. cbn. apply Qltb_ge in Hge. now rewrite Hge.
Qed.

(** C6, amended.  The rule is evaluated when the first constant-current
    phase is at a HIGHER current than the second ([CC1 > CC2]) and is
    true without evaluation when [CC1 <= CC2].  When evaluated, it goes
    through the regular cycles up to the cutoff cycle in order; it is
    [False] as soon as one onset fraction is below the cutoff, whatever
    the later cycles hold, and [True] when no fraction is. *)
Theorem early_CV_rule (hp : hyperparameters) (dp : DataPath)
  (parameters : protocol_parameters) (cutoff_cycle : Z) :
  let cycles :=
    map cycle_index
      (filter (fun r => Z.leb (cycle_index r) cutoff_cycle) (structured_summary dp)) in
  let rule :=
    is_not_early_CV get_CV_segment_from_charge hp dp parameters cutoff_cycle in
  (charge_constant_current_1 parameters <= charge_constant_current_2 parameters ->
   rule = Ok true)
  /\ (charge_constant_current_2 parameters < charge_constant_current_1 parameters ->
      forall pre cycle post frac,
        cycles = pre ++ cycle :: post ->
        Forall (onset_not_early get_CV_segment_from_charge hp dp) pre ->
        CV_onset_frac get_CV_segment_from_charge dp cycle = Ok frac ->
        frac < early_CV_cutoff hp ->
        rule = Ok false)
  /\ (charge_constant_current_2 parameters < charge_constant_current_1 parameters ->
      Forall (onset_not_early get_CV_segment_from_charge hp dp) cycles ->
      rule = Ok true).
Proof.
  intros cycles rule. unfold rule, is_not_early_CV. fold cycles.
  repeat split.
  - intros H. apply Qle_bool_iff in H. now rewrite H.
  - intros H pre cycle post frac Hc Hpre Hfrac Hlt.
    destruct (Qle_bool _ _) eqn:E; [apply Qle_bool_iff in E; lra |].
    rewrite Hc. now apply early_CV_loop_stops with (frac := frac).
  - intros H Hall.
    destruct (Qle_bool _ _) eqn:E; [apply Qle_bool_iff in E; lra |].
    now apply early_CV_loop_passes.
Qed.

End EarlyCV.

Section ToInclude.

Import ExclusionCriteria.

Variable get_fractional_quantity_remaining_nx :
  DataPath -> string -> string -> string -> result (list diag_row).
Variable get_protocol_parameters : string -> string -> result protocol_parameters.
Variable get_CV_segment_from_charge : list data_row -> result (list data_row).

(** C7.  In the table of every run, the columns whose names start with
    [is_] are the four rule flags, and [to_include] is, row by row, the
    conjunction of the four: with boolean flags it is true exactly when
    all four are, and false as soon as one is false. *)
Theorem to_include_is_conjunction_of_flags (hp : hyperparameters) (dp : DataPath)
  (features : Frame) :
  create_features get_fractional_quantity_remaining_nx get_protocol_parameters
    get_CV_segment_from_charge hp dp = Ok features ->
  exists c1 c2 c3 c4 inc,
    map fst (exclusion_criteria_columns features)
    = ["is_above_first_n_cycles_throughput";
       "is_below_fractional_capacity_at_EOT";
       "is_above_equivalent_full_cycles_at_EOL";
       "is_not_early_CV"]
    /\ column "is_above_first_n_cycles_throughput" features = Ok c1
    /\ column "is_below_fractional_capacity_at_EOT" features = Ok c2
    /\ column "is_above_equivalent_full_cycles_at_EOL" features = Ok c3
    /\ column "is_not_early_CV" features = Ok c4
    /\ column "to_include" features = Ok inc
    /\ List.length inc = n_rows features
    /\ (forall i, (i < n_rows features)%nat ->
          nth i inc NaN
          = Flag (truth (nth i c1 NaN) && truth (nth i c2 NaN)
                  && truth (nth i c3 NaN) && truth (nth i c4 NaN)))
    /\ (forall i b1 b2 b3 b4, (i < n_rows features)%nat ->
          nth i c1 NaN = Flag b1 -> nth i c2 NaN = Flag b2 ->
          nth i c3 NaN = Flag b3 -> nth i c4 NaN = Flag b4 ->
          nth i inc NaN = Flag (b1 && b2 && b3 && b4)).
Proof.
  intros H.
  destruct (create_features_columns _ _ _ _ _ H)
    as (f & a1 & a2 & a3 & a4 & a5 & a6 & a7 & -> & Hc).
  assert (Hrow : forall i, to_include_row f i
            = Flag (truth (nth i a2 NaN) && truth (nth i a4 NaN)
                    && truth (nth i a6 NaN) && truth (nth i a7 NaN))).
  { intros i. unfold to_include_row, exclusion_criteria_columns.
    rewrite Hc. cbn. now rewrite andb_true_r, !andb_assoc. }
  assert (Hnth : forall i, (i < n_rows f)%nat ->
            nth i (map (to_include_row f) (seq 0 (n_rows f))) NaN
            = to_include_row f i).
  { intros i Hi.
    rewrite (nth_indep _ NaN (to_include_row f 0%nat))
      by now rewrite length_map, length_seq.
    rewrite map_nth, seq_nth by assumption. reflexivity. }
  exists a2, a4, a6, a7, (map (to_include_row f) (seq 0 (n_rows f))).
  rewrite set_to_include_eq. unfold column, exclusion_criteria_columns.
  cbn [cols n_rows]. rewrite Hc. cbn.
  repeat split.
  - now rewrite length_map, length_seq.
  - intros i Hi. now rewrite Hnth, Hrow.
  - intros i b1 b2 b3 b4 Hi H1 H2 H3 H4.
    rewrite Hnth, Hrow, H1, H2, H3, H4 by assumption. reflexivity.
Qed.

End ToInclude.

(** The truth table of [to_include] over four stub flags. *)
Lemma to_include_truth_table (b1 b2 b3 b4 : bool) :
  ExclusionCriteria.to_include_row
    {| ExclusionCriteria.n_rows := 1;
       ExclusionCriteria.cols :=
         [("is_above_first_n_cycles_throughput", [ExclusionCriteria.Flag b1]);
          ("is_below_fractional_capacity_at_EOT", [ExclusionCriteria.Flag b2]);
          ("is_above_equivalent_full_cycles_at_EOL", [ExclusionCriteria.Flag b3]);
          ("is_not_early_CV", [ExclusionCriteria.Flag b4])] |} 0
  = ExclusionCriteria.Flag (b1 && b2 && b3 && b4).
Proof.
  destruct b1, b2, b3, b4; reflexivity.
Qed.

(** A run of three cycles in which cycle 1 has an early onset (a tenth of
    its duration) and cycle 2 has no samples: the loop stops at cycle 1. *)
Lemma early_CV_rule_witness :
  ExclusionCriteria.is_not_early_CV Runs.after_first_sample (Runs.early_cycle 2)
    Runs.three_cycles
    {| ExclusionCriteria.capacity_nominal := 1;
       ExclusionCriteria.charge_constant_current_1 := 2;
       ExclusionCriteria.charge_constant_current_2 := 1 |} 2
  = Ok false.
Proof.
  refine (proj1 (proj2 (early_CV_rule Runs.after_first_sample (Runs.early_cycle 2)
                          Runs.three_cycles _ 2)) _ [0%Z] 1%Z [2%Z] (10 # 100) _ _ _ _).
  - reflexivity.
  - reflexivity.
  - constructor; [|constructor]. eexists.
    split; [vm_compute; reflexivity | apply Qle_bool_iff; reflexivity].
  - reflexivity.
  - reflexivity.
Defined.

(** C6, as stated, fails.  With the first phase at the lower current
    ([CC1 = 1 < CC2 = 2]) the rule is not evaluated: it is true although
    cycle 1 has its onset at a tenth of its duration, below the cutoff 0.3.
    With the first phase at the higher current ([CC1 = 2 > CC2 = 1]) the
    rule is evaluated and false. *)
Lemma early_CV_rule_direction :
  ExclusionCriteria.is_not_early_CV Runs.after_first_sample (Runs.early_cycle 2)
    Runs.three_cycles
    {| ExclusionCriteria.capacity_nominal := 1;
       ExclusionCriteria.charge_constant_current_1 := 1;
       ExclusionCriteria.charge_constant_current_2 := 2 |} 2
  = Ok true
  /\ ExclusionCriteria.CV_onset_frac Runs.after_first_sample Runs.three_cycles 1
     = Ok (10 # 100)
  /\ (10 # 100) < ExclusionCriteria.early_CV_cutoff (Runs.early_cycle 2)
  /\ ExclusionCriteria.is_not_early_CV Runs.after_first_sample (Runs.early_cycle 2)
       Runs.three_cycles
       {| ExclusionCriteria.capacity_nominal := 1;
          ExclusionCriteria.charge_constant_current_1 := 2;
          ExclusionCriteria.charge_constant_current_2 := 1 |} 2
     = Ok false.
Proof.
  repeat split.
Qed.

(** A run that has the row labelled [n = 2]: its flags are False, True,
    False and True, and [to_include] is False. *)
Lemma to_include_witness :
  exists features inc,
    ExclusionCriteria.create_features (Runs.fractions_of Runs.rebound)
      (Runs.protocol 1 2) Runs.after_first_sample (Runs.early_cycle 2)
      Runs.three_cycles = Ok features
    /\ ExclusionCriteria.column "to_include" features = Ok inc
    /\ nth 0 inc ExclusionCriteria.NaN = ExclusionCriteria.Flag false.
Proof.
  eexists.
  destruct (@to_include_is_conjunction_of_flags
              (Runs.fractions_of Runs.rebound) (Runs.protocol 1 2)
              Runs.after_first_sample (Runs.early_cycle 2) Runs.three_cycles
              _ eq_refl)
    as (c1 & c2 & c3 & c4 & inc & _ & H1 & H2 & H3 & H4 & Hinc & _ & _ & Hflags).
  exists inc. split; [reflexivity |]. split; [exact Hinc |].
  vm_compute in H1, H2, H3, H4.
  injection H1 as <-. injection H2 as <-. injection H3 as <-. injection H4 as <-.
  apply (Hflags 0%nat false true false true); [cbn; lia | reflexivity..].
Defined.

(** C8.  In a run without the row labelled [n] and with a last diagnostic
    above 1, the End-of-life rule compares two values with the threshold,
    the second-to-last (0.75) and the last (1.05), and stores two flags. *)
Theorem EOL_rule_two_values_on_short_run :
  exists features,
    ExclusionCriteria.EOL_rule (ExclusionCriteria.DEFAULT_HYPERPARAMETERS "parameters")
      Runs.rebound
      (ExclusionCriteria.throughput_rule
         (ExclusionCriteria.DEFAULT_HYPERPARAMETERS "parameters")
         Runs.three_cycles ExclusionCriteria.empty_frame) = Ok features
    /\ ExclusionCriteria.column "fractional_capacity_at_EOT" features
       = Ok [ExclusionCriteria.Num (75 # 100); ExclusionCriteria.Num (105 # 100)]
    /\ ExclusionCriteria.column "is_below_fractional_capacity_at_EOT" features
       = Ok [ExclusionCriteria.Flag true; ExclusionCriteria.Flag false].
Proof.
  eexists. repeat split.
Qed.

(** C10.  The same run passes [validate] (given that the diagnostic check
    of the helpers accepts it) and [create_features] returns a table of
    two rows. *)
Theorem two_rows_on_short_run :
  ExclusionCriteria.validate (fun _ => (true, None)) Runs.three_cycles = (true, None)
  /\ exists features,
       ExclusionCriteria.create_features (Runs.fractions_of Runs.rebound)
         (Runs.protocol 1 2) Runs.after_first_sample
         (ExclusionCriteria.DEFAULT_HYPERPARAMETERS "parameters")
         Runs.three_cycles = Ok features
       /\ ExclusionCriteria.n_rows features = 2%nat
       /\ ExclusionCriteria.column "to_include" features
          = Ok [ExclusionCriteria.Flag false; ExclusionCriteria.Flag false].
Proof.
  split; [reflexivity |]. eexists. repeat split.
Qed.

(** * Further properties of the extractors *)

(** ** Summary statistics: errors and size *)

Section SummaryStatisticsErrors.

Import CycleSummaryStats.

Variables A V : Type.
Variable np_var np_mean skew kurtosis : A -> V.
Variable py_min : A -> result V.
Variable sum_absolute sum_square : A -> V.
Variable np_absolute np_log10 : V -> V.

Lemma supported_names (names : list string) :
  Forall (fun s => In s DEFAULT_statistics) names ->
  existsb (fun s => negb (py_in s DEFAULT_statistics)) names = false.
Proof.
  intros H. induction H as [|s names Hs _ IH]; cbn [existsb]; [reflexivity |].
  apply py_in_In in Hs. now rewrite Hs, IH.
Qed.

(** X1.  A name outside of the seven supported ones makes
    [get_summary_statistics] raise [ValueError], whatever the array and
    the other names are: nothing is computed before the check. *)
Theorem unsupported_statistic_raises (names : list string) (array : A) (s : string) :
  In s names -> ~ In s DEFAULT_statistics ->
  get_summary_statistics np_var np_mean skew kurtosis py_min sum_absolute
    sum_square np_absolute np_log10 names array
  = Raise (ValueError "Unsupported statistics").
Proof.
  intros Hin Hns. unfold get_summary_statistics.
  assert (E : existsb (fun s => negb (py_in s DEFAULT_statistics)) names = true).
  { apply existsb_exists. exists s. split; [assumption |].
    destruct (py_in s DEFAULT_statistics) eqn:E; [|reflexivity].
    apply py_in_In in E. contradiction. }
  now rewrite E.
Qed.

(** X3.  With supported names and an array that has a minimum, the
    vector holds one value for each of the seven statistics that is asked
    for, however often its name is repeated. *)
Theorem one_value_per_requested_statistic (names : list string) (array : A) (m : V) :
  Forall (fun s => In s DEFAULT_statistics) names ->
  py_min array = Ok m ->
  exists stats,
    get_summary_statistics np_var np_mean skew kurtosis py_min sum_absolute
      sum_square np_absolute np_log10 names array = Ok stats
    /\ List.length stats
       = List.length (filter (fun s => py_in s names) DEFAULT_statistics).
Proof.
  intros Hs Hm. unfold get_summary_statistics.
  rewrite (supported_names Hs). unfold append_if, DEFAULT_statistics.
  cbn [filter]. rewrite Hm.
  destruct (py_in "var" names), (py_in "min" names), (py_in "mean" names),
    (py_in "skew" names), (py_in "kurtosis" names), (py_in "abs" names),
    (py_in "square" names); cbn; eexists; split; reflexivity.
Qed.

(** X4.  With supported names the only failure is the one of Python's
    [min]: the call raises exactly when [min] is asked for and
    [min(array)] raises, and then with that exception.  In particular an
    empty array is accepted as long as [min] is not asked for. *)
Theorem only_min_can_fail (names : list string) (array : A) (e : exn) :
  Forall (fun s => In s DEFAULT_statistics) names ->
  get_summary_statistics np_var np_mean skew kurtosis py_min sum_absolute
    sum_square np_absolute np_log10 names array = Raise e
  <-> In "min" names /\ py_min array = Raise e.
Proof.
  intros Hs. unfold get_summary_statistics.
  rewrite (supported_names Hs). unfold append_if.
  rewrite <- py_in_In.
  destruct (py_in "min" names); destruct (py_min array) as [m|e'];
  destruct (py_in "var" names), (py_in "mean" names),
    (py_in "skew" names), (py_in "kurtosis" names), (py_in "abs" names),
    (py_in "square" names); cbn; split;
    try discriminate; try (intros [H1 H2]; discriminate);
    try (intros H; injection H as <-; split; reflexivity);
    try (intros [_ H]; injection H as <-; reflexivity).
Qed.

End SummaryStatisticsErrors.

Lemma unsupported_statistic_raises_witness :
  CycleSummaryStats.summary_expr ["mean"; "median"] [1; 2; 3]%Z
  = Raise (ValueError "Unsupported statistics").
Proof.
  apply (@unsupported_statistic_raises (list Z) CycleSummaryStats.expr
           CycleSummaryStats.Var CycleSummaryStats.Mean CycleSummaryStats.Skew
           CycleSummaryStats.Kurtosis CycleSummaryStats.min_expr
           CycleSummaryStats.SumAbs CycleSummaryStats.SumSquare
           CycleSummaryStats.Absolute CycleSummaryStats.Log10
           ["mean"; "median"] [1; 2; 3]%Z "median").
  - cbn. tauto.
  - cbn. intuition discriminate.
Defined.

Lemma get_summary_statistics_same_members_witness :
  CycleSummaryStats.summary_expr ["mean"; "var"; "mean"] [1; 2; 3]%Z
  = CycleSummaryStats.summary_expr ["var"; "mean"] [1; 2; 3]%Z.
Proof.
  apply (@get_summary_statistics_same_members (list Z) CycleSummaryStats.expr
           CycleSummaryStats.Var CycleSummaryStats.Mean CycleSummaryStats.Skew
           CycleSummaryStats.Kurtosis CycleSummaryStats.min_expr
           CycleSummaryStats.SumAbs CycleSummaryStats.SumSquare
           CycleSummaryStats.Absolute CycleSummaryStats.Log10
           ["mean"; "var"; "mean"] ["var"; "mean"] [1; 2; 3]%Z).
  intros s. cbn. tauto.
Defined.

Lemma one_value_per_requested_statistic_witness :
  exists stats,
    CycleSummaryStats.summary_expr ["mean"; "min"; "mean"] [1; 2; 3]%Z = Ok stats
    /\ List.length stats = 2%nat.
Proof.
  apply (@one_value_per_requested_statistic (list Z) CycleSummaryStats.expr
           CycleSummaryStats.Var CycleSummaryStats.Mean CycleSummaryStats.Skew
           CycleSummaryStats.Kurtosis CycleSummaryStats.min_expr
           CycleSummaryStats.SumAbs CycleSummaryStats.SumSquare
           CycleSummaryStats.Absolute CycleSummaryStats.Log10
           ["mean"; "min"; "mean"] [1; 2; 3]%Z (CycleSummaryStats.Min [1; 2; 3]%Z)).
  - repeat (constructor; [cbn; tauto |]). constructor.
  - reflexivity.
Defined.

Lemma only_min_can_fail_witness :
  CycleSummaryStats.summary_expr ["var"; "min"] []
  = Raise (ValueError "min() arg is an empty sequence").
Proof.
  apply (proj2 (@only_min_can_fail (list Z) CycleSummaryStats.expr
                  CycleSummaryStats.Var CycleSummaryStats.Mean CycleSummaryStats.Skew
                  CycleSummaryStats.Kurtosis CycleSummaryStats.min_expr
                  CycleSummaryStats.SumAbs CycleSummaryStats.SumSquare
                  CycleSummaryStats.Absolute CycleSummaryStats.Log10
                  ["var"; "min"] [] (ValueError "min() arg is an empty sequence")
                  ltac:(repeat (constructor; [cbn; tauto |]); constructor))).
  split; [cbn; tauto | reflexivity].
Defined.

(** ** The kink filter *)

Section KinkFilterFacts.

Import DiagnosticProperties Crossing Frames.

Lemma getitem_map_columns (h : Series -> Series) (df : DataFrame) (name : string)
  (s : Series) :
  getitem df name = Ok s ->
  getitem (map (fun nc => (fst nc, h (snd nc))) df) name = Ok (h s).
Proof.
  induction df as [|[n c] df IH]; cbn; [discriminate |].
  destruct (String.eqb n name); [intros [= ->]; reflexivity | exact IH].
Qed.

Lemma getitem_filter_rows (mask : list bool) (df : DataFrame) (name : string)
  (s : Series) :
  getitem df name = Ok s ->
  getitem (filter_rows mask df) name = Ok (select mask s).
Proof. apply (getitem_map_columns (select mask)). Qed.

Lemma getitem_first_rows (n : nat) (d : DataFrame) (name : string) (s : Series) :
  getitem d name = Ok s -> getitem (first_rows n d) name = Ok (firstn n s).
Proof. apply (getitem_map_columns (firstn n)). Qed.

Lemma select_none (X : Type) (m : nat) (s : list X) : select (repeat false m) s = [].
Proof.
  revert s. induction m as [|m IH]; intros [|x s]; cbn; auto.
Qed.

(** A mask that holds on the first [p] rows only keeps the first [p]
    rows. *)
Lemma select_prefix (X : Type) (p m : nat) (s : list X) :
  select (repeat true p ++ repeat false m) s = firstn p s.
Proof.
  revert s. induction p as [|p IH]; intros s; cbn.
  - rewrite select_none. now destruct s.
  - destruct s as [|x s]; [reflexivity |]. now rewrite IH.
Qed.

Lemma select_skip (X : Type) (p : nat) (mask : list bool) (a b : list X) :
  List.length a = p -> select (repeat false p ++ mask) (a ++ b) = select mask b.
Proof.
  revert a. induction p as [|p IH]; intros [|x a] H; cbn in *; try discriminate; auto.
Qed.

Lemma select_In (X : Type) (mask : list bool) (s : list X) (x : X) :
  In x (select mask s) -> In x s.
Proof.
  revert s. induction mask as [|b mask IH]; intros [|y s]; cbn; try tauto.
  destruct b; cbn; intros H; [destruct H as [H | H]; [now left |] |]; right; now apply IH.
Qed.

Lemma fold_left_Qmin_head (x : Q) (l : list Q) :
  Forall (Qlt x) l -> fold_left Qmin l x = x.
Proof.
  induction 1 as [|y l Hy _ IH]; cbn; [reflexivity |].
  now rewrite (Qmin_lt Hy).
Qed.

Lemma increasing_split (a : list Q) (x : Q) (b : list Q) :
  increasing (a ++ x :: b) -> Forall (fun c => c < x) a /\ Forall (Qlt x) b.
Proof.
  induction a as [|c a IH]; intros H.
  - split; [constructor | now apply increasing_above_head].
  - change ((c :: a) ++ x :: b) with (c :: (a ++ x :: b)) in H.
    pose proof (increasing_above_head _ _ H) as Ha.
    apply increasing_tail in H. destruct (IH H) as [H1 H2].
    split; [|assumption]. constructor; [|assumption].
    rewrite Forall_forall in Ha. apply Ha. apply in_or_app. right. now left.
Qed.

Lemma diff_from_length (prev : option Q) (l : list (option Q)) :
  List.length (diff_from prev l) = List.length l.
Proof.
  revert prev. induction l as [|x l IH]; intros prev; cbn; auto.
Qed.

Lemma diff_from_firstn (p : nat) (prev : option Q) (l : list (option Q)) :
  diff_from prev (firstn p l) = firstn p (diff_from prev l).
Proof.
  revert prev l. induction p as [|p IH]; intros prev [|x l]; cbn; try reflexivity.
  now rewrite IH.
Qed.

(** The second difference of a row only depends on the rows up to it. *)
Lemma second_difference_firstn (p : nat) (y : Series) :
  second_difference (firstn p y) = firstn p (second_difference y).
Proof.
  unfold second_difference, diff. now rewrite <- !diff_from_firstn, firstn_map.
Qed.

Lemma existsb_repeat_false (p : nat) :
  existsb (fun b : bool => b) (repeat false p) = false.
Proof. induction p; cbn; auto. Qed.

Variables (hp : hyperparameters) (df : DataFrame) (k : Q) (y c : Series).
Variables (p : nat) (rest : list bool).

Hypothesis Hk : filter_kinks hp = Some k.
Hypothesis Hk0 : ~ k == 0.
Hypothesis Hy : getitem df "fractional_metric" = Ok y.
Hypothesis Hc : getitem df "cycle_index" = Ok c.
Hypothesis Hlen : List.length c = List.length y.
Hypothesis Hinc : increasing c.
Hypothesis Hflag : lt_scalar (second_difference y) k = repeat false p ++ true :: rest.

Lemma kink_filter_prefix : kink_filter hp df = Ok (first_rows p df).
Proof.
  unfold kink_filter. rewrite Hk.
  destruct (Qeq_bool k 0) eqn:E0; [apply Qeq_bool_iff in E0; contradiction |].
  rewrite Hy. cbn [bind]. rewrite Hflag.
  assert (Hex : existsb (fun b : bool => b) (repeat false p ++ true :: rest) = true).
  { rewrite existsb_app. cbn. apply orb_true_r. }
  rewrite Hex.
  rewrite (getitem_filter_rows (repeat false p ++ true :: rest) _ _ Hc).
  cbn [bind]. rewrite Hc. cbn [bind].
  assert (Hl : List.length c = (p + S (List.length rest))%nat).
  { rewrite Hlen.
    assert (H : List.length (lt_scalar (second_difference y) k) = List.length y).
    { unfold lt_scalar, second_difference, diff.
      now rewrite length_map, !diff_from_length, length_map. }
    rewrite <- H, Hflag, length_app, repeat_length. reflexivity. }
  assert (Hsplit : exists c1 cp c2, c = c1 ++ cp :: c2 /\ List.length c1 = p).
  { exists (firstn p c). destruct (skipn p c) as [|cp c2] eqn:Ec2.
    - exfalso. apply (f_equal (@List.length Q)) in Ec2. rewrite length_skipn in Ec2.
      cbn in Ec2. lia.
    - exists cp, c2. split; [now rewrite <- Ec2, firstn_skipn |].
      rewrite length_firstn. lia. }
  destruct Hsplit as (c1 & cp & c2' & Hsplit & Hc1).
  rewrite Hsplit.
  rewrite (select_skip (true :: rest) c1 (cp :: c2') Hc1). cbn [select series_min].
  rewrite Hsplit in Hinc. destruct (increasing_split _ _ _ Hinc) as [Hlo Hhi].
  rewrite fold_left_Qmin_head.
  2:{ apply Forall_forall. intros x Hx. apply select_In in Hx.
      rewrite Forall_forall in Hhi. now apply Hhi. }
  f_equal. unfold filter_rows, first_rows. apply map_ext. intros [n s]. cbn [fst snd].
  f_equal.
  rewrite <- (select_prefix p (S (List.length c2')) s). f_equal.
  rewrite map_app. f_equal.
  - rewrite <- Hc1. clear -Hlo. induction Hlo as [|x l Hx _ IH]; cbn; [reflexivity |].
    apply Qltb_lt in Hx. now rewrite Hx, IH.
  - cbn [map repeat]. f_equal.
    + apply Qltb_ge. apply Qle_refl.
    + clear -Hhi. induction Hhi as [|x l Hx _ IH]; cbn; [reflexivity |].
      assert (E : Qltb x cp = false) by (apply Qltb_ge; now apply Qlt_le_weak).
      now rewrite E, IH.
Qed.

Lemma kink_filter_fixed_point : kink_filter hp (first_rows p df) = Ok (first_rows p df).
Proof.
  unfold kink_filter. rewrite Hk.
  destruct (Qeq_bool k 0) eqn:E0; [apply Qeq_bool_iff in E0; contradiction |].
  rewrite (getitem_first_rows p _ _ Hy). cbn [bind].
  rewrite second_difference_firstn. unfold lt_scalar at 1. rewrite <- firstn_map.
  fold (lt_scalar (second_difference y) k). rewrite Hflag.
  rewrite firstn_app, repeat_length, Nat.sub_diag, firstn_O, app_nil_r.
  rewrite firstn_all2 by (rewrite repeat_length; lia).
  now rewrite existsb_repeat_false.
Qed.

(** X5.  With the kink filter set and the cycle index strictly
    increasing, a frame whose first flagged row is row [p] (its second
    difference is below the cutoff and that of no earlier row is) is cut
    to exactly its first [p] rows, in every column. *)
Theorem kink_filter_keeps_rows_before_first_flag :
  kink_filter hp df = Ok (first_rows p df)
  /\ forall name s,
       getitem df name = Ok s -> getitem (first_rows p df) name = Ok (firstn p s).
Proof.
  split; [exact kink_filter_prefix |].
  intros name s. apply getitem_first_rows.
Qed.

(** X6.  Under the same conditions the solver gives the same result, a
    frame or an exception, on the whole frame and on the frame cut by
    hand to the rows before the first flagged one. *)
Theorem threshold_targets_of_first_rows :
  get_threshold_targets hp df = get_threshold_targets hp (first_rows p df).
Proof.
  unfold get_threshold_targets, crossing_values.
  now rewrite kink_filter_prefix, kink_filter_fixed_point.
Qed.

End KinkFilterFacts.

Lemma kink_filter_keeps_rows_before_first_flag_witness :
  DiagnosticProperties.kink_filter
    (Runs.with_axes Runs.default_axes (Some (4 # 100)) true) Runs.late_kink
  = Ok (Frames.first_rows 2 Runs.late_kink).
Proof.
  apply (@kink_filter_keeps_rows_before_first_flag
           (Runs.with_axes Runs.default_axes (Some (4 # 100)) true) Runs.late_kink
           (4 # 100) [1; 95 # 100; 90 # 100; 75 # 100] [1; 50; 100; 150] 2 [true]).
  - reflexivity.
  - intros H. discriminate H.
  - reflexivity.
  - reflexivity.
  - reflexivity.
  - cbn. repeat split; reflexivity.
  - reflexivity.
Defined.

Lemma threshold_targets_of_first_rows_witness :
  DiagnosticProperties.get_threshold_targets
    (Runs.with_axes Runs.default_axes (Some (4 # 100)) true) Runs.late_kink
  = DiagnosticProperties.get_threshold_targets
      (Runs.with_axes Runs.default_axes (Some (4 # 100)) true)
      (Frames.first_rows 2 Runs.late_kink).
Proof.
  apply (@threshold_targets_of_first_rows
           (Runs.with_axes Runs.default_axes (Some (4 # 100)) true) Runs.late_kink
           (4 # 100) [1; 95 # 100; 90 # 100; 75 # 100] [1; 50; 100; 150] 2 [true]).
  - reflexivity.
  - intros H. discriminate H.
  - reflexivity.
  - reflexivity.
  - reflexivity.
  - cbn. repeat split; reflexivity.
  - reflexivity.
Defined.

(** ** The threshold solver: errors and the returned frame *)

Section SolverFacts.

Import DiagnosticProperties Crossing PyList.

Lemma mapM_length (X Y : Type) (f : X -> result Y) (l : list X) (l' : list Y) :
  mapM f l = Ok l' -> List.length l' = List.length l.
Proof.
  revert l'. induction l as [|x l IH]; intros l'; cbn.
  - now intros [= <-].
  - destruct (f x); cbn; [|discriminate].
    destruct (mapM f l); cbn; [|discriminate].
    intros [= <-]. cbn. now rewrite (IH _ eq_refl).
Qed.

Lemma x_to_threshold_loop_length (f_axis : list interp1d) (thr : Q)
  (x_linspaces : list (list Q)) (indx : nat) (xs : list Q) :
  x_to_threshold_loop f_axis thr indx x_linspaces = Ok xs ->
  List.length xs = List.length x_linspaces.
Proof.
  revert indx xs. induction x_linspaces as [|g gs IH]; intros indx xs; cbn.
  - now intros [= <-].
  - destruct (nth_error f_axis indx); cbn; [|discriminate].
    destruct (nearest_sample _ _ _); cbn; [|discriminate].
    destruct (x_to_threshold_loop _ _ _ _) eqn:E; cbn; [|discriminate].
    intros [= <-]. cbn. now rewrite (IH _ _ E).
Qed.

Lemma threshold_branch_length (hp : hyperparameters) (x_axes : list Series) (y : Series)
  (loc : locals) (gs : list (list Q)) :
  threshold_branch hp x_axes y = Ok loc -> l_x_linspaces loc = Some gs ->
  List.length gs = List.length x_axes.
Proof.
  unfold threshold_branch.
  destruct (min_above y (threshold hp) && negb (extrapolate_threshold hp)).
  - intros [= <-]. discriminate.
  - destruct (min_above y (threshold hp) && extrapolate_threshold hp).
    + destruct (mapM _ x_axes) eqn:E; cbn; [|discriminate].
      intros [= <-]. cbn. intros [= <-]. now apply mapM_length in E.
    + destruct (mapM _ x_axes) eqn:E; cbn; [|discriminate].
      intros [= <-]. cbn. intros [= <-]. now apply mapM_length in E.
Qed.

(** The solver computes one crossing value per interpolation axis. *)
Lemma crossing_values_length (hp : hyperparameters) (df df' : DataFrame) (vs : list Q) :
  crossing_values hp df = Ok (df', vs) ->
  List.length vs = List.length (interpolation_axes hp).
Proof.
  unfold crossing_values.
  destruct (kink_filter hp df) as [d|]; cbn [bind]; [|discriminate].
  destruct (mapM (getitem d) (interpolation_axes hp)) as [x_axes|] eqn:Ex;
    cbn [bind]; [|discriminate].
  destruct (getitem d "fractional_metric") as [y|]; cbn [bind]; [|discriminate].
  destruct (threshold_branch hp x_axes y) as [loc|] eqn:Eb; cbn [bind]; [|discriminate].
  destruct (build_f_axis loc x_axes y); cbn [bind]; [|discriminate].
  destruct (l_x_linspaces loc) as [gs|] eqn:Eg; cbn [read bind]; [|discriminate].
  destruct (x_to_threshold_loop _ _ _ _) eqn:El; cbn [bind]; [|discriminate].
  intros [= <- <-].
  rewrite (x_to_threshold_loop_length _ _ _ _ El).
  rewrite (threshold_branch_length _ _ _ Eb Eg).
  now apply mapM_length in Ex.
Qed.

(** X8.  With fewer than two interpolation axes the solver never returns
    a frame: line 888 reads the first two crossing values. *)
Theorem fewer_than_two_axes_never_return (hp : hyperparameters) (df : DataFrame) :
  (List.length (interpolation_axes hp) < 2)%nat ->
  exists e, get_threshold_targets hp df = Raise e.
Proof.
  intros Hl. unfold get_threshold_targets.
  destruct (crossing_values hp df) as [[df' vs]|e] eqn:E; cbn [bind fst snd];
    [|now exists e].
  apply crossing_values_length in E.
  unfold threshold_frame, check_positive, list_item.
  destruct vs as [|v0 [|v1 vs]]; cbn in E; [| |lia].
  - cbn. eexists. reflexivity.
  - cbn. destruct (Qltb 0 v0); cbn; eexists; reflexivity.
Qed.

Lemma getitem_error (df : DataFrame) (name : string) (e : exn) :
  getitem df name = Raise e -> e = KeyError name.
Proof.
  induction df as [|[n c] df IH]; cbn; [now intros [= <-] |].
  destruct (String.eqb n name); [discriminate | exact IH].
Qed.

Lemma getitem_present (df : DataFrame) (name : string) :
  In name (map fst df) <-> exists s, getitem df name = Ok s.
Proof.
  induction df as [|[n c] df IH]; cbn.
  - split; [tauto | intros [s H]; discriminate].
  - destruct (String.eqb n name) eqn:E.
    + apply String.eqb_eq in E. split; [exists c; reflexivity | now left].
    + rewrite <- IH. split; [intros [H | H]; [|assumption] | now right].
      apply String.eqb_neq in E. contradiction.
Qed.


Lemma append_suffix (p s t : string) : (p ++ s)%string = t -> In s (suffixes t).
Proof.
  revert t. induction p as [|ch p IH]; intros t H; cbn in H.
  - subst. destruct t; now left.
  - destruct t as [|ch' t]; [discriminate |]. injection H as _ H.
    right. now apply IH.
Qed.

Lemma suffixes_trans (s t u : string) :
  In s (suffixes t) -> In t (suffixes u) -> In s (suffixes u).
Proof.
  revert t. induction u as [|ch u IH]; intros t Hs Ht.
  - destruct Ht as [<- | []]. exact Hs.
  - destruct Ht as [<- | Ht]; [exact Hs |]. right. now apply (IH t).
Qed.

(** The key of an axis ends with [_] and the name of the axis. *)
Lemma column_key_suffix (hp : hyperparameters) (a : string) :
  In ("_" ++ a)%string (suffixes (column_key hp a)).
Proof.
  unfold column_key.
  apply suffixes_trans with (t := (threshold_str hp ++ "_" ++ a)%string);
    [now apply append_suffix with (p := threshold_str hp) |].
  apply suffixes_trans with (t := (metric hp ++ threshold_str hp ++ "_" ++ a)%string);
    [now apply append_suffix with (p := metric hp) |].
  now apply append_suffix with (p := cycle_type hp).
Qed.

Lemma column_key_not_initial (hp : hyperparameters) (a : string) :
  In a ["normalized_regular_throughput"; "cycle_index"; "real_regular_throughput"] ->
  column_key hp a <> "initial_regular_throughput".
Proof.
  intros Ha E. pose proof (column_key_suffix hp a) as H. rewrite E in H.
  cbn in Ha. destruct Ha as [<- | [<- | [<- | []]]];
    cbn in H; repeat (destruct H as [H | H]; [discriminate H |]); exact H.
Qed.

Lemma dict_set_new (X : Type) (k k' : string) (v v' : X) (d : list (string * X)) :
  k <> k' -> dict_set k v ((k', v') :: d) = (k', v') :: dict_set k v d.
Proof.
  intros H. cbn. apply String.eqb_neq in H. now rewrite H.
Qed.

(** Lines 888-914 with the default axes and two positive values: the
    frame that is returned. *)
Lemma threshold_frame_default_row (hp : hyperparameters) (df : DataFrame)
  (v1 v2 irt0 : Q) (irt : Series) :
  interpolation_axes hp = ["normalized_regular_throughput"; "cycle_index"] ->
  getitem df "initial_regular_throughput" = Ok (irt0 :: irt) ->
  0 < v1 -> 0 < v2 ->
  threshold_frame hp df [v1; v2]
  = Ok [("initial_regular_throughput", irt0);
        (column_key hp "normalized_regular_throughput", v1);
        (column_key hp "cycle_index", v2);
        (column_key hp "real_regular_throughput", v1 * irt0)].
Proof.
  intros Hax Hirt Hp1 Hp2. unfold threshold_frame.
  rewrite (proj2 (check_positive_two v1 v2) (conj Hp1 Hp2)). cbn [bind].
  rewrite Hax. cbn [CycleSummaryStats.py_in existsb String.eqb Ascii.eqb Bool.eqb orb
                      py_index list_item nth_error bind].
  rewrite Hirt. cbn [values0 bind fst snd app fill_dict list_item nth_error].
  assert (Hne : forall a b, a <> b -> column_key hp a <> column_key hp b).
  { intros a b Hab H. apply Hab. now apply column_key_inj in H. }
  assert (Hi : forall a,
             In a ["normalized_regular_throughput"; "cycle_index"; "real_regular_throughput"] ->
             column_key hp a <> "initial_regular_throughput").
  { intros a. apply column_key_not_initial. }
  repeat first
    [ rewrite dict_set_new by (first [apply Hi; cbn; tauto | apply Hne; discriminate])
    | progress change (dict_set ?k ?v (@nil (string * Q))) with [(k, v)] ].
  reflexivity.
Qed.

(** X9.  Whenever the solver returns a frame for the default axes, both
    crossing values are positive, and the frame holds them together with
    the real throughput, the first value times the first
    [initial_regular_throughput] of the frame the solver worked on. *)
Theorem returned_frame_is_positive (hp : hyperparameters) (df : DataFrame)
  (row : list (string * Q)) :
  interpolation_axes hp = ["normalized_regular_throughput"; "cycle_index"] ->
  get_threshold_targets hp df = Ok row ->
  exists df' v1 v2 irt0 irt,
    crossing_values hp df = Ok (df', [v1; v2])
    /\ getitem df' "initial_regular_throughput" = Ok (irt0 :: irt)
    /\ 0 < v1 /\ 0 < v2
    /\ row = [("initial_regular_throughput", irt0);
              (column_key hp "normalized_regular_throughput", v1);
              (column_key hp "cycle_index", v2);
              (column_key hp "real_regular_throughput", v1 * irt0)].
Proof.
  intros Hax H. unfold get_threshold_targets in H.
  destruct (crossing_values hp df) as [[df' vs]|] eqn:E; cbn [bind fst snd] in H;
    [|discriminate].
  pose proof (crossing_values_length _ _ E) as Hl. rewrite Hax in Hl.
  destruct vs as [|v1 [|v2 [|v3 vs]]]; cbn in Hl; try lia.
  exists df', v1, v2.
  assert (Hpos : check_positive [v1; v2] = Ok tt).
  { unfold threshold_frame in H. destruct (check_positive [v1; v2]) as [[]|]; [reflexivity | discriminate]. }
  apply check_positive_two in Hpos. destruct Hpos as [Hp1 Hp2].
  destruct (getitem df' "initial_regular_throughput") as [[|irt0 irt]|] eqn:Ei.
  - exfalso. unfold threshold_frame in H.
    rewrite (proj2 (check_positive_two v1 v2) (conj Hp1 Hp2)), Hax, Ei in H.
    cbn in H. discriminate.
  - exists irt0, irt. rewrite (@threshold_frame_default_row hp df' v1 v2 irt0 irt Hax Ei Hp1 Hp2) in H.
    injection H as <-. repeat split; assumption.
  - exfalso. unfold threshold_frame in H.
    rewrite (proj2 (check_positive_two v1 v2) (conj Hp1 Hp2)), Hax, Ei in H.
    cbn in H. discriminate.
Qed.


(** X11.  Once a value of the metric is at or below the threshold, with
    the default axes strictly increasing and starting above zero, the
    solver returns a frame, and each crossing value lies within the
    observed range of its axis. *)
Theorem reached_threshold_returns_within_range (hp : hyperparameters)
  (df df' : DataFrame) (xs1 xs2 ys irt : Series) (irt0 : Q) :
  interpolation_axes hp = ["normalized_regular_throughput"; "cycle_index"] ->
  kink_filter hp df = Ok df' ->
  getitem df' "normalized_regular_throughput" = Ok xs1 ->
  getitem df' "cycle_index" = Ok xs2 ->
  getitem df' "fractional_metric" = Ok ys ->
  getitem df' "initial_regular_throughput" = Ok (irt0 :: irt) ->
  increasing xs1 -> increasing xs2 ->
  List.length xs1 = List.length ys -> List.length xs2 = List.length ys ->
  (2 <= List.length ys)%nat ->
  (exists y, In y ys /\ y <= threshold hp) ->
  0 < hd 0 xs1 -> 0 < hd 0 xs2 ->
  exists v1 v2,
    get_threshold_targets hp df
    = Ok [("initial_regular_throughput", irt0);
          (column_key hp "normalized_regular_throughput", v1);
          (column_key hp "cycle_index", v2);
          (column_key hp "real_regular_throughput", v1 * irt0)]
    /\ hd 0 xs1 <= v1 /\ v1 <= last xs1 0
    /\ hd 0 xs2 <= v2 /\ v2 <= last xs2 0.
Proof.
  intros Hax Hk H1 H2 Hy Hirt Hi1 Hi2 Hl1 Hl2 Hlen Hex Hp1 Hp2.
  destruct (@interpolated_crossing hp df df' xs1 xs2 ys irt irt0
              Hax Hk H1 H2 Hy Hirt Hi1 Hi2 Hl1 Hl2 Hlen Hex)
    as (v1 & v2 & Hcv & (k1 & Hk1 & Hv1 & _) & (k2 & Hk2 & Hv2 & _) & _).
  assert (Hrange : forall xs, increasing xs -> (2 <= List.length xs)%nat ->
            hd 0 xs <= last xs 0).
  { intros [|x [|x' l]] Hinc Hl; cbn in Hl; try lia.
    apply Qlt_le_weak. change (hd 0 (x :: x' :: l)) with x.
    rewrite (last_cons x (x' :: l) 0).
    now apply increasing_hd_last. }
  pose proof (sample_bounds (Hrange xs1 Hi1 ltac:(lia)) Hk1) as [B1 B1'].
  pose proof (sample_bounds (Hrange xs2 Hi2 ltac:(lia)) Hk2) as [B2 B2'].
  rewrite <- Hv1 in B1, B1'. rewrite <- Hv2 in B2, B2'.
  exists v1, v2. split; [|repeat split; assumption].
  unfold get_threshold_targets. rewrite Hcv. cbn [bind fst snd].
  apply (@threshold_frame_default_row hp df' v1 v2 irt0 irt Hax Hirt); lra.
Qed.

Lemma mapM_getitem_missing (df : DataFrame) (pre post : list string) (a : string) :
  Forall (fun b => In b (map fst df)) pre -> ~ In a (map fst df) ->
  mapM (getitem df) (pre ++ a :: post) = Raise (KeyError a).
Proof.
  intros Hpre Ha. induction Hpre as [|b pre Hb _ IH]; cbn.
  - destruct (getitem df a) as [s|e] eqn:E.
    + exfalso. apply Ha. apply getitem_present. now exists s.
    + cbn. now rewrite (getitem_error _ _ E).
  - apply getitem_present in Hb. destruct Hb as [s Hs]. rewrite Hs. cbn [bind].
    now rewrite IH.
Qed.

(** X12.  An interpolation axis that is not a column of the frame makes
    the solver raise [KeyError] with the name of the first such axis. *)
Theorem missing_axis_raises_KeyError (hp : hyperparameters) (df df' : DataFrame)
  (pre post : list string) (a : string) :
  kink_filter hp df = Ok df' ->
  interpolation_axes hp = pre ++ a :: post ->
  Forall (fun b => In b (map fst df')) pre ->
  ~ In a (map fst df') ->
  get_threshold_targets hp df = Raise (KeyError a).
Proof.
  intros Hk Hax Hpre Ha. unfold get_threshold_targets, crossing_values.
  rewrite Hk, Hax. cbn [bind]. now rewrite (@mapM_getitem_missing df' pre post a Hpre Ha).
Qed.

(** X13.  A frame with a single diagnostic whose metric is above the
    threshold cannot be extrapolated: [iloc[-2]] of line 851 raises
    [IndexError]. *)
Theorem single_diagnostic_cannot_be_extrapolated (hp : hyperparameters)
  (df df' : DataFrame) (x_axes : list Series) (y0 : Q) :
  kink_filter hp df = Ok df' ->
  mapM (getitem df') (interpolation_axes hp) = Ok x_axes ->
  x_axes <> [] ->
  getitem df' "fractional_metric" = Ok [y0] ->
  threshold hp < y0 ->
  extrapolate_threshold hp = true ->
  get_threshold_targets hp df
  = Raise (IndexError "single positional indexer is out-of-bounds").
Proof.
  intros Hk Hx Hne Hy Hthr He. unfold get_threshold_targets, crossing_values.
  rewrite Hk. cbn [bind]. rewrite Hx. cbn [bind]. rewrite Hy. cbn [bind].
  unfold threshold_branch, min_above. cbn [series_min fold_left].
  apply Qltb_lt in Hthr. rewrite Hthr, He. cbn [negb andb].
  destruct x_axes as [|x x_axes]; [contradiction |]. reflexivity.
Qed.

(** X10.  The crossing values do not depend on the hyperparameters
    [cycle_type] and [metric]: the solver works on all rows of the frame
    it is given and uses the two settings in the column names only. *)
Theorem crossing_values_ignore_cycle_type_and_metric (hp hp' : hyperparameters)
  (df : DataFrame) :
  interpolation_axes hp = interpolation_axes hp' ->
  threshold hp = threshold hp' ->
  filter_kinks hp = filter_kinks hp' ->
  extrapolate_threshold hp = extrapolate_threshold hp' ->
  crossing_values hp df = crossing_values hp' df.
Proof.
  intros Ha Ht Hf He.
  unfold crossing_values, kink_filter, threshold_branch.
  now rewrite Ha, Ht, Hf, He.
Qed.

End SolverFacts.


Lemma not_crossed_without_extrapolation_witness :
  DiagnosticProperties.get_threshold_targets
    (Runs.with_axes Runs.default_axes None false) Runs.above_threshold
  = Raise (UnboundLocalError "bounds_error").
Proof.
  apply (@not_crossed_without_extrapolation
           (Runs.with_axes Runs.default_axes None false) Runs.above_threshold
           Runs.above_threshold [[1; 50; 100]; [1; 50; 100]]
           [1; 95 # 100; 80005 # 100000]); reflexivity.
Defined.

Lemma fewer_than_two_axes_never_return_witness :
  exists e,
    DiagnosticProperties.get_threshold_targets
      (Runs.with_axes ["cycle_index"] None true) Runs.linear_decline = Raise e.
Proof.
  apply (@fewer_than_two_axes_never_return
           (Runs.with_axes ["cycle_index"] None true) Runs.linear_decline).
  cbn. lia.
Defined.

Lemma returned_frame_is_positive_witness :
  exists row df' v1 v2 irt0 irt,
    DiagnosticProperties.get_threshold_targets
      DiagnosticProperties.DEFAULT_HYPERPARAMETERS Runs.late_kink = Ok row
    /\ DiagnosticProperties.crossing_values
         DiagnosticProperties.DEFAULT_HYPERPARAMETERS Runs.late_kink
       = Ok (df', [v1; v2])
    /\ getitem df' "initial_regular_throughput" = Ok (irt0 :: irt)
    /\ 0 < v1 /\ 0 < v2
    /\ row = [("initial_regular_throughput", irt0);
              ("rpt_1Cdischarge_energy0.8_normalized_regular_throughput", v1);
              ("rpt_1Cdischarge_energy0.8_cycle_index", v2);
              ("rpt_1Cdischarge_energy0.8_real_regular_throughput", v1 * irt0)].
Proof.
  assert (E : exists row,
             DiagnosticProperties.get_threshold_targets
               DiagnosticProperties.DEFAULT_HYPERPARAMETERS Runs.late_kink = Ok row)
    by (eexists; vm_compute; reflexivity).
  destruct E as [row E].
  destruct (@returned_frame_is_positive
              DiagnosticProperties.DEFAULT_HYPERPARAMETERS Runs.late_kink row
              eq_refl E)
    as (df' & v1 & v2 & irt0 & irt & H).
  exists row, df', v1, v2, irt0, irt. split; [exact E | exact H].
Defined.

Lemma reached_threshold_returns_within_range_witness :
  exists v1 v2,
    DiagnosticProperties.get_threshold_targets
      DiagnosticProperties.DEFAULT_HYPERPARAMETERS Runs.late_kink
    = Ok [("initial_regular_throughput", 2);
          ("rpt_1Cdischarge_energy0.8_normalized_regular_throughput", v1);
          ("rpt_1Cdischarge_energy0.8_cycle_index", v2);
          ("rpt_1Cdischarge_energy0.8_real_regular_throughput", v1 * 2)]
    /\ 1 <= v1 /\ v1 <= 150 /\ 1 <= v2 /\ v2 <= 150.
Proof.
  apply (@reached_threshold_returns_within_range
           DiagnosticProperties.DEFAULT_HYPERPARAMETERS Runs.late_kink Runs.late_kink
           [1; 50; 100; 150] [1; 50; 100; 150] [1; 95 # 100; 90 # 100; 75 # 100]
           [2; 2; 2] 2).
  - reflexivity.
  - reflexivity.
  - reflexivity.
  - reflexivity.
  - reflexivity.
  - reflexivity.
  - cbn. repeat split; reflexivity.
  - cbn. repeat split; reflexivity.
  - reflexivity.
  - reflexivity.
  - cbn. lia.
  - exists (75 # 100). split; [cbn; tauto | intros H; discriminate H].
  - reflexivity.
  - reflexivity.
Defined.

Lemma missing_axis_raises_KeyError_witness :
  DiagnosticProperties.get_threshold_targets
    (Runs.with_axes ["cycle_index"; "x"] None true) Runs.linear_decline
  = Raise (KeyError "x").
Proof.
  apply (@missing_axis_raises_KeyError
           (Runs.with_axes ["cycle_index"; "x"] None true) Runs.linear_decline
           Runs.linear_decline ["cycle_index"] [] "x").
  - reflexivity.
  - reflexivity.
  - constructor; [cbn; tauto | constructor].
  - cbn. intuition discriminate.
Defined.

Lemma single_diagnostic_cannot_be_extrapolated_witness :
  DiagnosticProperties.get_threshold_targets
    DiagnosticProperties.DEFAULT_HYPERPARAMETERS Cases.single_diagnostic
  = Raise (IndexError "single positional indexer is out-of-bounds").
Proof.
  apply (@single_diagnostic_cannot_be_extrapolated
           DiagnosticProperties.DEFAULT_HYPERPARAMETERS Cases.single_diagnostic
           Cases.single_diagnostic [[1]; [1]] (95 # 100)).
  - reflexivity.
  - reflexivity.
  - discriminate.
  - reflexivity.
  - reflexivity.
  - reflexivity.
Defined.

Lemma crossing_values_ignore_cycle_type_and_metric_witness :
  DiagnosticProperties.crossing_values
    DiagnosticProperties.DEFAULT_HYPERPARAMETERS Runs.late_kink
  = DiagnosticProperties.crossing_values
      {| DiagnosticProperties.cycle_type := "rpt_0.2C";
         DiagnosticProperties.metric := "discharge_capacity";
         DiagnosticProperties.interpolation_axes :=
           ["normalized_regular_throughput"; "cycle_index"];
         DiagnosticProperties.threshold := 8 # 10;
         DiagnosticProperties.threshold_str := "0.8";
         DiagnosticProperties.filter_kinks := None;
         DiagnosticProperties.extrapolate_threshold := true |}
      Runs.late_kink.
Proof.
  apply (@crossing_values_ignore_cycle_type_and_metric
           DiagnosticProperties.DEFAULT_HYPERPARAMETERS); reflexivity.
Defined.

(** ** Exclusion criteria: edges *)

Section ExclusionEdges.

Import ExclusionCriteria.

Variable get_fractional_quantity_remaining_nx :
  DataPath -> string -> string -> string -> result (list diag_row).
Variable get_protocol_parameters : string -> string -> result protocol_parameters.
Variable get_CV_segment_from_charge : list data_row -> result (list data_row).
Variable check_diagnostic_validation : DataPath -> bool * option string.

(** X14.  Whenever the lookup of the protocol file path in
    [create_features] would fail, [validate] rejects the run with the
    message about the paths, whatever the diagnostic check says. *)
Theorem validate_rejects_missing_paths (dp : DataPath) (e : exn) :
  file_path dp = Raise e ->
  validate check_diagnostic_validation dp
  = (false, Some "datapath paths not set, unable to fetch charging protocol").
Proof.
  unfold file_path, validate.
  destruct (dict_get "raw" (paths dp)); [discriminate |].
  destruct (dict_get "structured" (paths dp)); [discriminate | reflexivity].
Qed.

Lemma setitem_series_one_row (name : string) (s : list cell) (f : Frame) :
  n_rows f = 1%nat ->
  setitem_series name s f
  = {| n_rows := 1; cols := dict_set name (reindex 1 s) (cols f) |}.
Proof.
  intros Hf1. unfold setitem_series. rewrite Hf1.
  cbn [Nat.eqb andb]. rewrite Hf1. reflexivity.
Qed.

Lemma column_setitem_series (name : string) (s : list cell) (f : Frame) :
  column name (setitem_series name s f)
  = Ok (reindex (n_rows (setitem_series name s f)) s).
Proof.
  unfold column, setitem_series. cbn [cols n_rows]. now rewrite dict_get_set_same.
Qed.

Lemma ffill_from_In (prev : option Q) (l : list (option Q)) (q : Q) :
  In (Some q) (ffill_from prev l) -> prev = Some q \/ In (Some q) l.
Proof.
  revert prev. induction l as [|[v|] l IH]; intros prev; cbn; [tauto | |].
  - intros [H | H]; [right; now left |].
    destruct (IH _ H) as [H' | H']; right; [left; exact H' | right; exact H'].
  - intros [H | H]; [now left |].
    destruct (IH _ H) as [H' | H']; [now left | right; now right].
Qed.

Lemma ffill_In (l : list (option Q)) (q : Q) : In (Some q) (ffill l) -> In (Some q) l.
Proof.
  intros H. destruct (ffill_from_In _ _ _ H) as [H' | H']; [discriminate | exact H'].
Qed.

Lemma ffill_from_length (prev : option Q) (l : list (option Q)) :
  List.length (ffill_from prev l) = List.length l.
Proof.
  revert prev. induction l as [|[v|] l IH]; intros prev; cbn; auto.
Qed.

Lemma tail_slice_In (X : Type) (k : nat) (s : list X) (x : X) :
  In x (tail_slice k s) -> In x s.
Proof.
  unfold tail_slice. intros H. rewrite <- (firstn_skipn (List.length s - k) s).
  apply in_or_app. now right.
Qed.

Lemma tail_slice_nonempty (X : Type) (k : nat) (s : list X) :
  s <> [] -> (1 <= k)%nat -> tail_slice k s <> [].
Proof.
  intros Hs Hk H. unfold tail_slice in H.
  apply (f_equal (@List.length X)) in H. rewrite length_skipn in H.
  change (List.length (@nil X)) with 0%nat in H.
  assert (1 <= List.length s)%nat by (destruct s; [contradiction | cbn; lia]).
  lia.
Qed.

Lemma n_rows_throughput_rule (hp : hyperparameters) (dp : DataPath) :
  n_rows (throughput_rule hp dp empty_frame)
  = List.length (filter (fun r => Z.eqb (index r) (throughput_n hp)) (structured_summary dp)).
Proof.
  unfold throughput_rule. rewrite !n_rows_setitem_series. cbn [n_rows empty_frame Nat.eqb].
  rewrite !length_map.
  destruct (List.length _) eqn:E; cbn; [reflexivity | reflexivity].
Qed.

(** X17.  With at least one diagnostic, the End-of-life rule and the
    lookup of the cutoff cycle that follows it do not raise: when the
    table says that the end of life was reached there is a diagnostic
    below the threshold to take the cycle from.  The cutoff cycle is the
    cycle of one of the diagnostics. *)
Theorem cutoff_cycle_index_is_found (hp : hyperparameters) (table : Frame)
  (diag : list diag_row) :
  diag <> [] ->
  exists features c,
    EOL_rule hp diag table = Ok features
    /\ cutoff_cycle_index hp diag features = Ok c
    /\ In c (map diag_cycle_index diag).
Proof.
  intros Hd. unfold EOL_rule, fractional_capacity_at_EOT.
  set (filled := ffill (map fractional_metric diag)).
  assert (Hf : filled <> []).
  { intros H. apply (f_equal (@List.length _)) in H. unfold filled, ffill in H.
    rewrite ffill_from_length, length_map in H. destruct diag; [contradiction | discriminate]. }
  pose proof (@tail_slice_nonempty _ 1 filled Hf (le_n 1)) as H1.
  destruct (tail_slice 1 filled) as [|v rest1] eqn:E1; [contradiction |].
  cbn [first_item bind].
  set (at_EOT := if gt_float v 1 then tail_slice 2 filled else v :: rest1).
  assert (Hat : exists w rest, at_EOT = w :: rest /\ In w filled).
  { unfold at_EOT. destruct (gt_float v 1).
    - pose proof (@tail_slice_nonempty _ 2 filled Hf ltac:(lia)) as H2.
      destruct (tail_slice 2 filled) as [|w rest] eqn:E2; [contradiction |].
      exists w, rest. split; [reflexivity |].
      apply (@tail_slice_In _ 2). rewrite E2. now left.
    - exists v, rest1. split; [reflexivity |].
      apply (@tail_slice_In _ 1). rewrite E1. now left. }
  destruct Hat as (w & rest & Hat & Hw).
  assert (Hres : (if gt_float v 1 then Ok (tail_slice 2 filled) else Ok (v :: rest1))
                 = Ok at_EOT) by (unfold at_EOT; now destruct (gt_float v 1)).
  rewrite Hres. cbn [bind]. rewrite Hat.
  eexists. 
  assert (Hcut : forall F,
            (1 <= n_rows (setitem_series "is_below_fractional_capacity_at_EOT"
                            (map Flag (map (fun x => lt_float x (EOL_threshold hp)) (w :: rest))) F))%nat ->
            exists c,
              cutoff_cycle_index hp diag
                (setitem_series "is_below_fractional_capacity_at_EOT"
                   (map Flag (map (fun x => lt_float x (EOL_threshold hp)) (w :: rest))) F)
              = Ok c /\ In c (map diag_cycle_index diag)).
  { intros F Hn. unfold cutoff_cycle_index. rewrite column_setitem_series. cbn [bind].
    destruct (n_rows _) as [|n]; [lia |]. cbn [map reindex first_item bind truth].
    destruct (lt_float w (EOL_threshold hp)) eqn:Elt.
    - destruct w as [q|]; [|discriminate].
      apply ffill_In in Hw. apply in_map_iff in Hw. destruct Hw as (r & Hr & Hin).
      assert (Hfil : In r (filter (fun r => lt_float (fractional_metric r) (EOL_threshold hp)) diag)).
      { apply filter_In. split; [assumption | now rewrite Hr]. }
      destruct (filter _ diag) as [|r0 l] eqn:Ef; [contradiction |].
      cbn [first_item bind]. exists (diag_cycle_index r0). split; [reflexivity |].
      apply in_map. assert (In r0 (r0 :: l)) by now left.
      rewrite <- Ef in H. now apply filter_In in H.
    - unfold last_item. destruct (rev diag) as [|r0 l] eqn:Er.
      + apply (f_equal (@rev _)) in Er. rewrite rev_involutive in Er. contradiction.
      + cbn [first_item bind]. exists (diag_cycle_index r0). split; [reflexivity |].
        apply in_map. apply in_rev. rewrite Er. now left. }
  match goal with
  | |- exists c, Ok ?f = Ok _ /\ _ =>
      assert (Hn : (1 <= n_rows f)%nat)
  end.
  { rewrite !n_rows_setitem_series. cbn [List.length map].
    repeat match goal with |- context [(?a =? 0)%nat] => destruct (Nat.eqb_spec a 0) end; lia. }
  destruct (Hcut _ Hn) as (c & Hc & Hin).
  exists c. split; [reflexivity | split; assumption].
Qed.


(** X18.  Without any diagnostic of the End-of-life cycle type,
    [create_features] raises [IndexError] at line 990. *)
Theorem no_diagnostics_raise_IndexError (hp : hyperparameters) (dp : DataPath) :
  get_fractional_quantity_remaining_nx dp (EOL_quantity hp) (EOL_cycle_type hp)
    (parameters_dir hp) = Ok [] ->
  create_features get_fractional_quantity_remaining_nx get_protocol_parameters
    get_CV_segment_from_charge hp dp
  = Raise (IndexError "single positional indexer is out-of-bounds").
Proof.
  intros H. unfold create_features. rewrite H. reflexivity.
Qed.

Ltac bind_ok H x E :=
  match type of H with
  | bind ?m _ = Ok _ =>
      destruct m as [x|] eqn:E; [cbn [bind] in H | discriminate H]
  end.

Lemma dict_get_In (X : Type) (k : string) (v : X) (d : list (string * X)) :
  dict_get k d = Some v -> In (k, v) d.
Proof.
  induction d as [|[k' v'] d IH]; cbn; [discriminate |].
  destruct (String.eqb k k') eqn:E.
  - apply String.eqb_eq in E. intros [= ->]. left. now subst.
  - intros H. right. now apply IH.
Qed.

Lemma forallb_false (X : Type) (f : X -> bool) (l : list X) (x : X) :
  In x l -> f x = false -> forallb f l = false.
Proof.
  intros Hin Hx. destruct (forallb f l) eqn:E; [|reflexivity].
  rewrite forallb_forall in E. rewrite (E _ Hin) in Hx. discriminate.
Qed.

(** X19.  In a run whose summary has exactly one row labelled [n], a
    charge throughput at that row that does not exceed the cutoff excludes
    the run whatever the other three rules say; a missing (NaN)
    throughput counts as 0. *)
Theorem low_throughput_excludes (hp : hyperparameters) (dp : DataPath)
  (features : Frame) (r : summary_row) :
  create_features get_fractional_quantity_remaining_nx get_protocol_parameters
    get_CV_segment_from_charge hp dp = Ok features ->
  filter (fun r => Z.eqb (index r) (throughput_n hp)) (structured_summary dp) = [r] ->
  match charge_throughput r with Some q => q | None => 0 end <= throughput_cutoff hp ->
  column "is_above_first_n_cycles_throughput" features = Ok [Flag false]
  /\ column "to_include" features = Ok [Flag false].
Proof.
  intros H Hr Hx. unfold create_features in H.
  bind_ok H diag Ediag. bind_ok H f1 Eeol. bind_ok H c Ecut. bind_ok H nominal Enom.
  bind_ok H f2 Eefc. bind_ok H fp Efp. bind_ok H parameters Epar. bind_ok H b Ecv.
  injection H as <-.
  unfold EFC_rule in Eefc. bind_ok Eefc efc Es. injection Eefc as <-.
  unfold EOL_rule in Eeol. bind_ok Eeol at_EOT Et. injection Eeol as <-.
  set (x := match charge_throughput r with Some q => q | None => 0 end) in Hx.
  assert (H0 : throughput_rule hp dp empty_frame
               = {| n_rows := 1;
                    cols := [("first_n_cycles_throughput", [Num x]);
                             ("is_above_first_n_cycles_throughput", [Flag false])] |}).
  { unfold throughput_rule. rewrite Hr. cbn. fold x.
    apply Qltb_ge in Hx. now rewrite Hx. }
  rewrite H0.
  rewrite !setitem_series_one_row by reflexivity.
  rewrite set_to_include_eq. unfold setitem_scalar. cbn [n_rows cols].
  match goal with
  | |- column _ {| n_rows := _; cols := dict_set _ _ ?d |} = _ /\ _ =>
      set (table := d)
  end.
  assert (Hflag : dict_get "is_above_first_n_cycles_throughput" table = Some [Flag false]).
  { unfold table. rewrite !dict_get_set_other by discriminate. reflexivity. }
  unfold column. cbn [cols].
  rewrite dict_get_set_other by discriminate. rewrite Hflag.
  rewrite dict_get_set_same. split; [reflexivity |].
  cbn [seq map]. unfold to_include_row. cbn [cols].
  rewrite (@forallb_false _ _ _ ("is_above_first_n_cycles_throughput", [Flag false]));
    [reflexivity | | reflexivity].
  unfold exclusion_criteria_columns. cbn [cols]. apply filter_In.
  split; [now apply dict_get_In | reflexivity].
Qed.

Lemma fold_left_Qmin_const (t : Q) (l : list Q) (a : Q) :
  a == t -> Forall (fun x => x == t) l -> fold_left Qmin l a == t.
Proof.
  intros Ha H. revert a Ha. induction H as [|x l Hx _ IH]; intros a Ha; cbn; [assumption |].
  apply IH. destruct (Q.min_dec a x) as [E | E]; rewrite E; assumption.
Qed.

Lemma fold_left_Qmax_const (t : Q) (l : list Q) (a : Q) :
  a == t -> Forall (fun x => x == t) l -> fold_left Qmax l a == t.
Proof.
  intros Ha H. revert a Ha. induction H as [|x l Hx _ IH]; intros a Ha; cbn; [assumption |].
  apply IH. destruct (Q.max_dec a x) as [E | E]; rewrite E; assumption.
Qed.

(** X20.  A regular cycle whose samples all carry the same test time (a
    cycle with a single sample, for one) has no duration: once its
    constant-voltage segment is found, the onset fraction of line 1062
    divides by zero and raises [ZeroDivisionError]. *)
Theorem cycle_without_duration_divides_by_zero (dp : DataPath) (cycle : Z) (t : Q)
  (onset : data_row) (segment : list data_row) :
  let cycle_data :=
    filter (fun r => Z.eqb (data_cycle_index r) cycle) (structured_data dp) in
  cycle_data <> [] ->
  Forall (fun r => test_time r == t) cycle_data ->
  get_CV_segment_from_charge
    (filter (fun r => String.eqb (step_type r) "charge") cycle_data)
  = Ok (onset :: segment) ->
  CV_onset_frac get_CV_segment_from_charge dp cycle = Raise ZeroDivisionError.
Proof.
  intros cycle_data Hne Hall Hcv. unfold CV_onset_frac. fold cycle_data.
  rewrite Hcv. cbn [bind first_item].
  destruct cycle_data as [|r l]; [contradiction |].
  cbn [map series_min series_max].
  inversion Hall as [|r' l' Hr Hl]; subst.
  assert (Hl' : Forall (fun x => x == t) (map test_time l)).
  { apply Forall_forall. intros x Hx. apply in_map_iff in Hx.
    destruct Hx as (r0 & <- & Hin). rewrite Forall_forall in Hl. now apply Hl. }
  pose proof (fold_left_Qmin_const (a := test_time r) Hr Hl') as Hmin.
  pose proof (fold_left_Qmax_const (a := test_time r) Hr Hl') as Hmax.
  assert (E : Qeq_bool (fold_left Qmax (map test_time l) (test_time r)
                        - fold_left Qmin (map test_time l) (test_time r)) 0 = true).
  { apply Qeq_bool_iff. rewrite Hmin, Hmax. ring. }
  now rewrite E.
Qed.

End ExclusionEdges.


Lemma validate_rejects_missing_paths_witness :
  ExclusionCriteria.validate (fun _ => (true, None)) Cases.no_paths
  = (false, Some "datapath paths not set, unable to fetch charging protocol").
Proof.
  apply (@validate_rejects_missing_paths (fun _ => (true, None)) Cases.no_paths
           (KeyError "structured")).
  reflexivity.
Defined.

Lemma cutoff_cycle_index_is_found_witness :
  exists features c,
    ExclusionCriteria.EOL_rule (Runs.early_cycle 2) Runs.rebound
      ExclusionCriteria.empty_frame = Ok features
    /\ ExclusionCriteria.cutoff_cycle_index (Runs.early_cycle 2) Runs.rebound features
       = Ok c
    /\ In c [0; 1; 2]%Z.
Proof.
  apply (@cutoff_cycle_index_is_found (Runs.early_cycle 2)
           ExclusionCriteria.empty_frame Runs.rebound).
  discriminate.
Defined.

Lemma no_diagnostics_raise_IndexError_witness :
  ExclusionCriteria.create_features (Runs.fractions_of []) (Runs.protocol 1 2)
    Runs.after_first_sample (Runs.early_cycle 2) Runs.three_cycles
  = Raise (IndexError "single positional indexer is out-of-bounds").
Proof.
  apply (@no_diagnostics_raise_IndexError (Runs.fractions_of []) (Runs.protocol 1 2)
           Runs.after_first_sample (Runs.early_cycle 2) Runs.three_cycles).
  reflexivity.
Defined.

Lemma low_throughput_excludes_witness :
  exists features,
    ExclusionCriteria.create_features (Runs.fractions_of Runs.rebound)
      (Runs.protocol 1 2) Runs.after_first_sample (Runs.early_cycle 2)
      Runs.three_cycles = Ok features
    /\ ExclusionCriteria.column "is_above_first_n_cycles_throughput" features
       = Ok [ExclusionCriteria.Flag false]
    /\ ExclusionCriteria.column "to_include" features
       = Ok [ExclusionCriteria.Flag false].
Proof.
  assert (E : exists features,
             ExclusionCriteria.create_features (Runs.fractions_of Runs.rebound)
               (Runs.protocol 1 2) Runs.after_first_sample (Runs.early_cycle 2)
               Runs.three_cycles = Ok features)
    by (eexists; vm_compute; reflexivity).
  destruct E as [features E]. exists features. split; [exact E |].
  apply (@low_throughput_excludes (Runs.fractions_of Runs.rebound)
           (Runs.protocol 1 2) Runs.after_first_sample (Runs.early_cycle 2)
           Runs.three_cycles features (Runs.regular_cycle 2 3) E).
  - reflexivity.
  - intros H. discriminate H.
Defined.

Lemma cycle_without_duration_divides_by_zero_witness :
  ExclusionCriteria.CV_onset_frac Cases.whole_charge Cases.one_sample_cycle 0
  = Raise ZeroDivisionError.
Proof.
  apply (@cycle_without_duration_divides_by_zero Cases.whole_charge
           Cases.one_sample_cycle 0 5 (Runs.sample 0 "charge" 5) []).
  - discriminate.
  - constructor; [reflexivity | constructor].
  - reflexivity.
Defined.

Lemma one_row_when_cycle_n_present_witness :
  exists features,
    ExclusionCriteria.create_features (Runs.fractions_of Runs.rebound)
      (Runs.protocol 1 2) Runs.after_first_sample (Runs.early_cycle 2)
      Runs.three_cycles = Ok features
    /\ ExclusionCriteria.n_rows features = 1%nat.
Proof.
  assert (E : exists features,
             ExclusionCriteria.create_features (Runs.fractions_of Runs.rebound)
               (Runs.protocol 1 2) Runs.after_first_sample (Runs.early_cycle 2)
               Runs.three_cycles = Ok features)
    by (eexists; vm_compute; reflexivity).
  destruct E as [features E]. exists features. split; [exact E |].
  apply (@one_row_when_cycle_n_present (Runs.fractions_of Runs.rebound)
           (Runs.protocol 1 2) Runs.after_first_sample (Runs.early_cycle 2)
           Runs.three_cycles features E).
  reflexivity.
Defined.

Lemma EOL_rule_on_one_row_witness :
  exists features,
    ExclusionCriteria.EOL_rule (Runs.early_cycle 2) Runs.rebound
      {| ExclusionCriteria.n_rows := 1; ExclusionCriteria.cols := [] |} = Ok features
    /\ ExclusionCriteria.n_rows features = 1%nat
    /\ ExclusionCriteria.column "fractional_capacity_at_EOT" features
       = Ok [ExclusionCriteria.Num (75 # 100)]
    /\ ExclusionCriteria.column "is_below_fractional_capacity_at_EOT" features
       = Ok [ExclusionCriteria.Flag true].
Proof.
  exact (@EOL_rule_on_one_row (Runs.early_cycle 2) Runs.rebound
           {| ExclusionCriteria.n_rows := 1; ExclusionCriteria.cols := [] |}
           [Some 1] (Some (75 # 100)) (Some (105 # 100)) eq_refl eq_refl).
Defined.

(** ** The filter on the diagnostic data *)

Section DiagnosticDataFacts.

Import DiagnosticData.

Variable P : Type.

Lemma same_group_refl (r : row P) : same_group r r = true.
Proof. unfold same_group. now rewrite !Z.eqb_refl. Qed.

(** A group is kept when one of its rows has a time. *)
Lemma group_kept (rows : list (row P)) (r : row P) :
  negb (forallb (fun r' => isnull (test_time r')) (filter (same_group r) rows)) = true
  <-> exists r', In r' rows /\ same_group r r' = true /\ test_time r' <> None.
Proof.
  rewrite negb_true_iff. split.
  - intros H.
    destruct (existsb (fun r' => negb (isnull (test_time r')))
                (filter (same_group r) rows)) eqn:E.
    + apply existsb_exists in E. destruct E as (r' & Hin & Hr').
      apply filter_In in Hin. destruct Hin as [Hin Hg].
      exists r'. repeat split; try assumption.
      intros Hn. rewrite Hn in Hr'. discriminate.
    + exfalso.
      assert (F : forallb (fun r' => isnull (test_time r'))
                    (filter (same_group r) rows) = true).
      { apply forallb_forall. intros r' Hin.
        destruct (isnull (test_time r')) eqn:En; [reflexivity |].
        assert (Ex : existsb (fun r' => negb (isnull (test_time r')))
                       (filter (same_group r) rows) = true).
        { apply existsb_exists. exists r'. split; [assumption | now rewrite En]. }
        congruence. }
      congruence.
  - intros (r' & Hin & Hg & Hn).
    destruct (forallb _ _) eqn:F; [|reflexivity].
    rewrite forallb_forall in F.
    assert (Hin' : In r' (filter (same_group r) rows)) by (apply filter_In; now split).
    specialize (F _ Hin'). destruct (test_time r'); [discriminate | contradiction].
Qed.

Lemma filter_all (X : Type) (f : X -> bool) (l : list X) :
  (forall x, In x l -> f x = true) -> filter f l = l.
Proof.
  induction l as [|x l IH]; intros H; cbn; [reflexivity |].
  rewrite (H x (or_introl eq_refl)). f_equal. apply IH. intros y Hy. apply H. now right.
Qed.

(** What remains: no row of a final diagnostic, and every row in the
    company of a remaining row of its group that has a time. *)
Lemma filter_diagnostic_data_kept (hp : hyperparameters) (rows : list (row P))
  (r : row P) :
  In r (filter_diagnostic_data hp rows) ->
  In r rows
  /\ final_diagnostic hp r = false
  /\ exists r', In r' (filter_diagnostic_data hp rows)
       /\ same_group r r' = true /\ test_time r' <> None.
Proof.
  unfold filter_diagnostic_data, drop_null_groups. intros H.
  apply filter_In in H. destruct H as [Hin Hg].
  pose proof Hin as Hin0. unfold drop_final_diagnostic in Hin0.
  apply filter_In in Hin0. destruct Hin0 as [Hrows Hf].
  split; [assumption |]. split; [now apply negb_true_iff in Hf |].
  apply group_kept in Hg. destruct Hg as (r' & Hin' & Hgr & Hn).
  exists r'. split; [|now split].
  apply filter_In. split; [assumption |].
  apply group_kept. exists r'. split; [assumption |].
  split; [apply same_group_refl | assumption].
Qed.

Lemma filter_twice (X : Type) (f g : X -> bool) (l : list X) :
  filter g (filter f l) = filter (fun x => f x && g x) l.
Proof.
  induction l as [|x l IH]; cbn; [reflexivity |].
  destruct (f x); cbn; [destruct (g x) |]; now rewrite IH.
Qed.

(** X21.  The two statements together are one selection of rows, so
    that rows are neither changed nor reordered: a row stays exactly when
    it is not a row of a final diagnostic (late test time with a low
    cycle index) and, among the rows that are not, one of its own group
    of cycle, step and step counter has a test time. *)
Theorem filter_diagnostic_data_spec (hp : hyperparameters) (rows : list (row P)) :
  filter_diagnostic_data hp rows
  = filter
      (fun r =>
         negb (final_diagnostic hp r)
         && existsb
              (fun r' =>
                 negb (final_diagnostic hp r') && same_group r r'
                 && negb (isnull (test_time r')))
              rows)
      rows.
Proof.
  unfold filter_diagnostic_data, drop_null_groups, drop_final_diagnostic.
  rewrite filter_twice. apply filter_ext. intros r.
  destruct (final_diagnostic hp r); cbn [negb andb]; [reflexivity |].
  apply eq_true_iff_eq. rewrite group_kept, existsb_exists. split.
  - intros (r' & Hin & Hg & Hn). apply filter_In in Hin. destruct Hin as [Hin Hf].
    exists r'. split; [assumption |]. rewrite Hf, Hg. cbn.
    destruct (test_time r'); [reflexivity | contradiction].
  - intros (r' & Hin & H). apply andb_true_iff in H. destruct H as [H Hn].
    apply andb_true_iff in H. destruct H as [Hf Hg].
    exists r'. split; [apply filter_In; now split |]. split; [assumption |].
    intros E. rewrite E in Hn. discriminate.
Qed.

(** X22.  Filtering twice is filtering once: dropping the rows of the
    final diagnostic never empties a group that the second step then
    keeps, and the second step leaves no group without a test time. *)
Theorem filter_diagnostic_data_idempotent (hp : hyperparameters)
  (rows : list (row P)) :
  filter_diagnostic_data hp (filter_diagnostic_data hp rows)
  = filter_diagnostic_data hp rows.
Proof.
  set (B := filter_diagnostic_data hp rows).
  assert (H1 : drop_final_diagnostic hp B = B).
  { apply filter_all. intros r Hr.
    apply filter_diagnostic_data_kept in Hr. destruct Hr as (_ & Hf & _). now rewrite Hf. }
  unfold filter_diagnostic_data at 1. rewrite H1.
  apply filter_all. intros r Hr. apply group_kept.
  apply filter_diagnostic_data_kept in Hr. destruct Hr as (_ & _ & Hex). exact Hex.
Qed.

End DiagnosticDataFacts.

(** ** [DiagnosticSummaryStats] *)

Section SummaryDiffFacts.

Import DiagnosticSummaryStats PyList.

Lemma py_item_nth (l : list Z) (i : nat) (v : Z) :
  py_item l (Z.of_nat i) = Ok v -> v = nth i l 0%Z.
Proof.
  unfold py_item, position.
  destruct (Z.of_nat i <? 0)%Z eqn:E0; [apply Z.ltb_lt in E0; lia |].
  rewrite E0. cbn [orb].
  destruct (Z.of_nat (List.length l) <=? Z.of_nat i)%Z; [discriminate |].
  rewrite Nat2Z.id.
  destruct (nth_error l i) as [a|] eqn:E; [|discriminate].
  intros [= <-]. symmetry. now apply nth_error_nth.
Qed.

Lemma metrics_loop_names (rows : list summary_row) (pos : list Z) (ct : string)
  (metrics : list string) (acc out : list Q * list string) :
  metrics_loop rows pos ct metrics acc = Ok out ->
  snd out
  = snd acc ++ map (summary_diff_label (nth 0 pos 0%Z) (nth 1 pos 0%Z) ct) metrics
  /\ List.length (fst out) = (List.length (fst acc) + List.length metrics)%nat.
Proof.
  revert acc. induction metrics as [|m metrics IH]; intros acc; cbn [metrics_loop].
  - intros [= <-]. cbn. rewrite app_nil_r. split; [reflexivity | lia].
  - destruct (summary_diff rows pos m); cbn [bind]; [|discriminate].
    unfold summary_diff_name.
    destruct (py_item pos 0) as [p0|] eqn:E0; cbn [bind]; [|discriminate].
    destruct (py_item pos 1) as [p1|] eqn:E1; cbn [bind]; [|discriminate].
    apply (py_item_nth pos 0) in E0. apply (py_item_nth pos 1) in E1. subst p0 p1.
    intros H. apply IH in H. cbn [fst snd] in H. destruct H as [H1 H2].
    rewrite H1, H2, length_app, <- app_assoc. cbn. split; [reflexivity | lia].
Qed.

Lemma cycle_types_loop_names (summary : list summary_row) (pos : list Z)
  (cycle_types metrics : list string) (acc out : list Q * list string) :
  cycle_types_loop summary pos cycle_types metrics acc = Ok out ->
  snd out
  = snd acc
    ++ flat_map
         (fun ct => map (summary_diff_label (nth 0 pos 0%Z) (nth 1 pos 0%Z) ct) metrics)
         cycle_types
  /\ List.length (fst out)
     = (List.length (fst acc) + List.length cycle_types * List.length metrics)%nat.
Proof.
  revert acc. induction cycle_types as [|ct cts IH]; intros acc; cbn [cycle_types_loop].
  - intros [= <-]. cbn. rewrite app_nil_r. split; [reflexivity | lia].
  - destruct (metrics_loop _ pos ct metrics acc) as [acc'|] eqn:E; cbn [bind];
      [|discriminate].
    intros H. apply IH in H. apply metrics_loop_names in E.
    destruct H as [H1 H2], E as [E1 E2].
    rewrite H1, H2, E1, E2, <- app_assoc. cbn [flat_map List.length].
    split; [reflexivity | lia].
Qed.

(** X23.  What [get_summary_diff] returns has one value and one name
    for every pair of a cycle type and a metric, cycle type by cycle
    type; a name is [diag_sum_diff_], the two positions, and the cycle
    type followed by the metric without a separator. *)
Theorem get_summary_diff_names (hp : hyperparameters) (dp : DataPath)
  (pos : option (list Z)) (cycle_types metrics : list string)
  (values_ : list Q) (names : list string) :
  get_summary_diff hp dp pos cycle_types metrics = Ok (values_, names) ->
  names
  = flat_map
      (fun ct =>
         map (summary_diff_label (nth 0 (positions hp pos) 0%Z)
                (nth 1 (positions hp pos) 0%Z) ct) metrics)
      cycle_types
  /\ List.length values_ = (List.length cycle_types * List.length metrics)%nat
  /\ List.length names = List.length values_.
Proof.
  unfold get_summary_diff. intros H. apply cycle_types_loop_names in H.
  cbn [fst snd List.length app] in H. destruct H as [H1 H2].
  split; [exact H1 |]. split; [lia |].
  rewrite H1, H2. clear.
  induction cycle_types as [|ct cts IH]; cbn [flat_map List.length]; [reflexivity |].
  rewrite length_app, length_map, IH. lia.
Qed.

Lemma iloc_empty (A : Type) (i : Z) :
  iloc (@nil A) i = Raise (IndexError "single positional indexer is out-of-bounds").
Proof.
  unfold iloc, position. cbn [List.length Z.of_nat].
  destruct (i <? 0)%Z eqn:E.
  - assert (E' : (0 + i <? 0)%Z = true) by (apply Z.ltb_lt; apply Z.ltb_lt in E; lia).
    now rewrite E'.
  - cbn [orb]. rewrite E. cbn [orb].
    assert (E' : (0 <=? i)%Z = true) by (apply Z.leb_le; apply Z.ltb_ge in E; lia).
    now rewrite E'.
Qed.

Lemma summary_diff_no_rows (pos : list Z) (metric : string) :
  exists msg, summary_diff [] pos metric = Raise (IndexError msg).
Proof.
  unfold summary_diff. destruct (py_item pos 1) as [p1|e] eqn:E; cbn [bind].
  - rewrite iloc_empty. cbn. eexists. reflexivity.
  - unfold py_item in E. destruct (position _ _); [destruct (nth_error _ _) |];
      try discriminate; injection E as <-; eexists; reflexivity.
Qed.

Lemma cycle_types_loop_absent (summary : list summary_row) (pos : list Z)
  (cycle_types metrics : list string) (ct : string) (acc : list Q * list string) :
  In ct cycle_types -> metrics <> [] -> of_type ct summary = [] ->
  exists e, cycle_types_loop summary pos cycle_types metrics acc = Raise e.
Proof.
  intros Hin Hm Hct. revert acc.
  induction cycle_types as [|c cts IH]; intros acc; [contradiction |]. cbn.
  destruct Hin as [-> | Hin].
  - rewrite Hct. destruct metrics as [|m metrics]; [contradiction |]. cbn.
    destruct (summary_diff_no_rows pos m) as [msg ->]. cbn. eexists. reflexivity.
  - destruct (metrics_loop _ pos c metrics acc) as [acc'|e]; cbn [bind].
    + now apply IH.
    + now exists e.
Qed.

(** X24.  A cycle type that is asked for and has no row in the
    diagnostic summary makes [get_summary_diff] raise: nothing is
    returned for the other cycle types either. *)
Theorem get_summary_diff_absent_cycle_type (hp : hyperparameters)
  (dp : DataPath) (pos : option (list Z))
  (cycle_types metrics : list string) (ct : string) :
  In ct cycle_types -> metrics <> [] ->
  (forall r, In r (diagnostic_summary dp) -> cycle_type r <> ct) ->
  exists e, get_summary_diff hp dp pos cycle_types metrics = Raise e.
Proof.
  intros Hin Hm Hab. unfold get_summary_diff.
  apply cycle_types_loop_absent with (ct := ct); try assumption.
  unfold of_type. induction (diagnostic_summary dp) as [|r summary IH]; cbn;
    [reflexivity |].
  destruct (String.eqb (cycle_type r) ct) eqn:E.
  - apply String.eqb_eq in E. exfalso. apply (Hab r); [now left | assumption].
  - apply IH. intros r' Hr'. apply Hab. now right.
Qed.

Section ValidateFacts.

Variable check_diagnostic_validation : DataPath -> bool * option string.

Lemma fold_left_Zmax_ge (l : list Z) (a : Z) :
  (a <= fold_left Z.max l a)%Z /\ forall z, In z l -> (z <= fold_left Z.max l a)%Z.
Proof.
  revert a. induction l as [|x l IH]; intros a; cbn.
  - split; [lia | tauto].
  - destruct (IH (Z.max a x)) as [H1 H2]. split; [lia |].
    intros z [<- | Hz]; [lia | now apply H2].
Qed.

Lemma nunique_le_length (l : list Z) : (nunique l <= List.length l)%nat.
Proof.
  unfold nunique. induction l as [|x l IH]; cbn; [lia |].
  destruct (in_dec Z.eq_dec x l); cbn; lia.
Qed.

(** X25.  When [validate] accepts a run, every position of
    [diag_pos_list] that is not negative is a row of the diagnostic
    summary of the configured cycle type, so that [iloc] in
    [get_summary_diff] finds it. *)
Theorem validate_covers_positions (hp : hyperparameters) (dp : DataPath)
  (msg : option string) (p : Z) :
  validate check_diagnostic_validation hp dp = Ok (true, msg) ->
  In p (diag_pos_list hp) -> (0 <= p)%Z ->
  exists r,
    iloc (of_type (diagnostic_cycle_type hp) (diagnostic_summary dp)) p = Ok r
    /\ cycle_type r = diagnostic_cycle_type hp.
Proof.
  unfold validate. destruct (check_diagnostic_validation dp) as [val m0].
  destruct val; [|discriminate].
  destruct (diag_pos_list hp) as [|z l] eqn:El; [contradiction |]. cbn [py_max bind].
  destruct (_ <=? _)%Z eqn:E; [|discriminate]. intros _ Hin Hp.
  apply Z.leb_le in E.
  set (rows := of_type (diagnostic_cycle_type hp) (diagnostic_summary dp)) in *.
  assert (Hmax : (p <= fold_left Z.max l z)%Z).
  { destruct (fold_left_Zmax_ge l z) as [H1 H2]. destruct Hin as [<- | Hin]; auto. }
  pose proof (nunique_le_length (map cycle_index rows)) as Hn. rewrite length_map in Hn.
  assert (Hlt : (Z.to_nat p < List.length rows)%nat) by lia.
  unfold iloc, position.
  destruct (p <? 0)%Z eqn:E0; [apply Z.ltb_lt in E0; lia |].
  rewrite E0. cbn [orb].
  destruct (Z.of_nat (List.length rows) <=? p)%Z eqn:E1; [apply Z.leb_le in E1; lia |].
  destruct (nth_error rows (Z.to_nat p)) as [r|] eqn:Er.
  - exists r. split; [reflexivity |].
    apply nth_error_In in Er. unfold rows, of_type in Er.
    apply filter_In in Er. destruct Er as [_ Er]. now apply String.eqb_eq in Er.
  - apply nth_error_None in Er. lia.
Qed.

End ValidateFacts.

End SummaryDiffFacts.

Lemma get_summary_diff_names_witness :
  exists values_ names,
    DiagnosticSummaryStats.get_summary_diff
      DiagnosticSummaryStats.DEFAULT_HYPERPARAMETERS Cases.two_diagnostics None
      ["rpt_0.2C"] ["discharge_capacity"; "discharge_energy"] = Ok (values_, names)
    /\ names = ["diag_sum_diff_0_1_rpt_0.2Cdischarge_capacity";
                "diag_sum_diff_0_1_rpt_0.2Cdischarge_energy"]
    /\ List.length values_ = 2%nat
    /\ List.length names = List.length values_.
Proof.
  assert (E : exists out,
             DiagnosticSummaryStats.get_summary_diff
               DiagnosticSummaryStats.DEFAULT_HYPERPARAMETERS Cases.two_diagnostics None
               ["rpt_0.2C"] ["discharge_capacity"; "discharge_energy"] = Ok out)
    by (eexists; vm_compute; reflexivity).
  destruct E as [[values_ names] E]. exists values_, names. split; [exact E |].
  exact (@get_summary_diff_names DiagnosticSummaryStats.DEFAULT_HYPERPARAMETERS
           Cases.two_diagnostics None ["rpt_0.2C"]
           ["discharge_capacity"; "discharge_energy"] values_ names E).
Defined.

Lemma get_summary_diff_absent_cycle_type_witness :
  exists e,
    DiagnosticSummaryStats.get_summary_diff
      DiagnosticSummaryStats.DEFAULT_HYPERPARAMETERS Cases.two_diagnostics None
      DiagnosticSummaryStats.DEFAULT_cycle_types ["discharge_capacity"] = Raise e.
Proof.
  apply (@get_summary_diff_absent_cycle_type
           DiagnosticSummaryStats.DEFAULT_HYPERPARAMETERS Cases.two_diagnostics None
           DiagnosticSummaryStats.DEFAULT_cycle_types ["discharge_capacity"] "rpt_2C").
  - cbn. tauto.
  - discriminate.
  - intros r [<- | [<- | [<- | []]]]; discriminate.
Defined.

Lemma validate_covers_positions_witness :
  exists r,
    PyList.iloc
      (DiagnosticSummaryStats.of_type "rpt_0.2C"
         (DiagnosticSummaryStats.diagnostic_summary Cases.two_diagnostics)) 1
    = Ok r
    /\ DiagnosticSummaryStats.cycle_type r = "rpt_0.2C".
Proof.
  apply (@validate_covers_positions (fun _ => (true, None))
           DiagnosticSummaryStats.DEFAULT_HYPERPARAMETERS Cases.two_diagnostics
           None 1%Z).
  - reflexivity.
  - cbn. tauto.
  - lia.
Defined.

(** ** [CycleSummaryStats.create_features] *)

Section CycleSummaryFeaturesFacts.

Import CycleSummaryFeatures.

Variable V : Type.
Variable zero : V.
Variable np_var np_mean skew kurtosis : list Q -> V.
Variable py_min : list Q -> result V.
Variable sum_absolute sum_square : list Q -> V.
Variable np_absolute np_log10 : V -> V.

Lemma loc_set_length (X X' : list V) (first last : nat) (stats : list V) :
  loc_set X first last stats = Ok X' ->
  (first <= last)%nat -> (last < List.length X)%nat ->
  List.length X' = List.length X.
Proof.
  unfold loc_set. intros H Hf Hl.
  destruct (List.length stats =? last + 1 - first)%nat eqn:E.
  - apply Nat.eqb_eq in E. injection H as <-.
    rewrite !length_app, length_firstn, length_skipn. lia.
  - destruct stats as [|v [|]]; try discriminate. injection H as <-.
    rewrite !length_app, length_firstn, length_skipn, repeat_length. lia.
Qed.

Lemma feature_columns_length (qs names : list string) :
  List.length (CycleSummaryStats.feature_columns qs names)
  = (List.length qs * List.length names)%nat.
Proof.
  unfold CycleSummaryStats.feature_columns.
  induction qs as [|q qs IH]; cbn [flat_map List.length Nat.mul]; [reflexivity |].
  now rewrite length_app, length_map, IH.
Qed.

Ltac bind_ok H x E :=
  match type of H with
  | bind ?m _ = Ok _ =>
      destruct m as [x|] eqn:E; [cbn [bind] in H | discriminate H]
  end.

(** X26.  [create_features] only returns when [statistics] holds exactly
    seven names: the labels are built from [statistics] and have to fit
    the 28 columns.  The table then has 28 columns, labelled statistic by
    statistic within each of the four quantities. *)
Theorem create_features_needs_seven_names (hp : hyperparameters)
  (rows : list data_row) (X : list (string * V)) :
  create_features zero np_var np_mean skew kurtosis py_min sum_absolute sum_square
    np_absolute np_log10 hp rows = Ok X ->
  List.length (statistics hp) = 7%nat
  /\ List.length X = 28%nat
  /\ map fst X = CycleSummaryStats.feature_columns quantities (statistics hp).
Proof.
  intros H. unfold create_features in H.
  remember (CycleSummaryStats.feature_columns quantities (statistics hp)) as labels
    eqn:El.
  bind_ok H c1 E1. bind_ok H c0 E0.
  bind_ok H s1 Es1. bind_ok H X1 EX1. bind_ok H s2 Es2. bind_ok H X2 EX2.
  bind_ok H s3 Es3. bind_ok H X3 EX3. bind_ok H s4 Es4. bind_ok H X4 EX4.
  apply loc_set_length in EX1; [|lia | rewrite repeat_length; lia].
  apply loc_set_length in EX2; [|lia | rewrite EX1, repeat_length; lia].
  apply loc_set_length in EX3; [|lia | rewrite EX2, EX1, repeat_length; lia].
  apply loc_set_length in EX4; [|lia | rewrite EX3, EX2, EX1, repeat_length; lia].
  rewrite EX3, EX2, EX1, repeat_length in EX4.
  unfold set_columns in H.
  destruct (_ =? _)%nat eqn:E; [|discriminate]. injection H as <-.
  apply Nat.eqb_eq in E. rewrite EX4 in E.
  pose proof (feature_columns_length quantities (statistics hp)) as Hl.
  rewrite <- El in Hl. change (List.length quantities) with 4%nat in Hl.
  split; [lia |]. split.
  - rewrite length_combine. lia.
  - apply map_fst_combine. lia.
Qed.

Lemma step_column_map (h : data_row -> data_row) (rows : list data_row) (cycle : Z)
  (step : string) (column : data_row -> option Q) :
  (forall r, cycle_index (h r) = cycle_index r) ->
  (forall r, step_type (h r) = step_type r) ->
  (forall r, step_type r = step -> column (h r) = column r) ->
  step_column (map h rows) cycle step column = step_column rows cycle step column.
Proof.
  intros Hc Hs Hcol. unfold step_column.
  induction rows as [|r rows IH]; cbn; [reflexivity |].
  rewrite Hc. destruct (Z.eqb (cycle_index r) cycle); [|exact IH].
  cbn. rewrite Hs. destruct (String.eqb (step_type r) step) eqn:E; [|exact IH].
  cbn. apply String.eqb_eq in E. now rewrite (Hcol r E), IH.
Qed.

(** X27.  The features of the discharge energy are computed from the
    rows of the charge steps (lines 190-193): whatever discharge energy
    the rows of the other steps carry, the table, or the exception, is
    the same. *)
Theorem discharge_energy_read_on_charge_steps (hp : hyperparameters)
  (rows : list data_row) (g : data_row -> option Q) :
  create_features zero np_var np_mean skew kurtosis py_min sum_absolute sum_square
    np_absolute np_log10 hp (map (with_discharge_energy g) rows)
  = create_features zero np_var np_mean skew kurtosis py_min sum_absolute sum_square
      np_absolute np_log10 hp rows.
Proof.
  assert (Hc : forall r, cycle_index (with_discharge_energy g r) = cycle_index r).
  { intros r. unfold with_discharge_energy. now destruct (String.eqb _ _). }
  assert (Hs : forall r, step_type (with_discharge_energy g r) = step_type r).
  { intros r. unfold with_discharge_energy. now destruct (String.eqb _ _). }
  assert (Hd : forall cycle step column,
             (forall r, step_type r = step ->
                        column (with_discharge_energy g r) = column r) ->
             step_column (map (with_discharge_energy g) rows) cycle step column
             = step_column rows cycle step column).
  { intros cycle step column Hcol. now apply step_column_map. }
  unfold create_features.
  destruct (PyList.py_item (cycle_comp_num hp) 1) as [c1|]; cbn [bind]; [|reflexivity].
  destruct (PyList.py_item (cycle_comp_num hp) 0) as [c0|]; cbn [bind]; [|reflexivity].
  unfold difference_statistics.
  rewrite !(Hd _ "charge" charge_capacity), !(Hd _ "discharge" discharge_capacity),
    !(Hd _ "charge" charge_energy), !(Hd _ "charge" discharge_energy); try reflexivity;
    intros r Hr; unfold with_discharge_energy; rewrite Hr; reflexivity.
Qed.

End CycleSummaryFeaturesFacts.

Lemma create_features_needs_seven_names_witness :
  exists X,
    Cases.symbolic_features CycleSummaryFeatures.DEFAULT_HYPERPARAMETERS
      Cases.two_cycles = Ok X
    /\ List.length X = 28%nat
    /\ map fst X
       = CycleSummaryStats.feature_columns CycleSummaryFeatures.quantities
           CycleSummaryStats.DEFAULT_statistics.
Proof.
  assert (E : exists X,
             Cases.symbolic_features CycleSummaryFeatures.DEFAULT_HYPERPARAMETERS
               Cases.two_cycles = Ok X)
    by (eexists; vm_compute; reflexivity).
  destruct E as [X E]. exists X. split; [exact E |].
  exact (proj2 (@create_features_needs_seven_names _ _ _ _ _ _ _ _ _ _ _
                  CycleSummaryFeatures.DEFAULT_HYPERPARAMETERS Cases.two_cycles X E)).
Defined.

(** ** The tables that are returned *)

Section CycleSummaryTable.

Import CycleSummaryFeatures.

Variable V : Type.
Variable zero : V.
Variable np_var np_mean skew kurtosis : list Q -> V.
Variable py_min : list Q -> result V.
Variable sum_absolute sum_square : list Q -> V.
Variable np_absolute np_log10 : V -> V.

Lemma all_seven_statistics (hp : hyperparameters) (array : list Q) (m : V) :
  (forall s, In s (statistics hp) <-> In s CycleSummaryStats.DEFAULT_statistics) ->
  py_min array = Ok m ->
  get_summary_statistics np_var np_mean skew kurtosis py_min sum_absolute sum_square
    np_absolute np_log10 hp array
  = Ok (seven_statistics np_var np_mean skew kurtosis sum_absolute sum_square
          np_absolute np_log10 array m).
Proof.
  intros Hs Hm. unfold get_summary_statistics, CycleSummaryStats.get_summary_statistics.
  assert (Hsup : Forall (fun s => In s CycleSummaryStats.DEFAULT_statistics)
                   (statistics hp)).
  { apply Forall_forall. intros s. apply Hs. }
  rewrite (supported_names Hsup).
  assert (Hin : forall s, In s CycleSummaryStats.DEFAULT_statistics ->
                          CycleSummaryStats.py_in s (statistics hp) = true).
  { intros s H. apply py_in_In. now apply Hs. }
  rewrite !Hin by (cbn; tauto).
  unfold CycleSummaryStats.append_if. rewrite Hm. reflexivity.
Qed.

(** X28.  When [statistics] holds the seven supported names, in any
    order, and the four differences can be formed and have a minimum,
    [create_features] returns the table of 28 columns whose labels follow
    the order of [statistics] while the values of each quantity are in
    the fixed order variance, minimum, mean, skewness, kurtosis, sum of
    absolute values, sum of squares; the fourth quantity is computed
    from the charge steps. *)
Theorem create_features_table (hp : hyperparameters) (rows : list data_row)
  (c0 c1 : Z) (others : list Z) (d1 d2 d3 d4 : list (option Q)) (m1 m2 m3 m4 : V) :
  cycle_comp_num hp = c0 :: c1 :: others ->
  (forall s, In s (statistics hp) <-> In s CycleSummaryStats.DEFAULT_statistics) ->
  List.length (statistics hp) = 7%nat ->
  np_subtract (step_column rows c1 "charge" charge_capacity)
    (step_column rows c0 "charge" charge_capacity) = Ok d1 ->
  np_subtract (step_column rows c1 "discharge" discharge_capacity)
    (step_column rows c0 "discharge" discharge_capacity) = Ok d2 ->
  np_subtract (step_column rows c1 "charge" charge_energy)
    (step_column rows c0 "charge" charge_energy) = Ok d3 ->
  np_subtract (step_column rows c1 "charge" discharge_energy)
    (step_column rows c0 "charge" discharge_energy) = Ok d4 ->
  py_min (drop_nan d1) = Ok m1 -> py_min (drop_nan d2) = Ok m2 ->
  py_min (drop_nan d3) = Ok m3 -> py_min (drop_nan d4) = Ok m4 ->
  create_features zero np_var np_mean skew kurtosis py_min sum_absolute sum_square
    np_absolute np_log10 hp rows
  = Ok (combine (CycleSummaryStats.feature_columns quantities (statistics hp))
          (seven_statistics np_var np_mean skew kurtosis sum_absolute sum_square
             np_absolute np_log10 (drop_nan d1) m1
           ++ seven_statistics np_var np_mean skew kurtosis sum_absolute sum_square
                np_absolute np_log10 (drop_nan d2) m2
           ++ seven_statistics np_var np_mean skew kurtosis sum_absolute sum_square
                np_absolute np_log10 (drop_nan d3) m3
           ++ seven_statistics np_var np_mean skew kurtosis sum_absolute sum_square
                np_absolute np_log10 (drop_nan d4) m4)).
Proof.
  intros Hc Hs Hl H1 H2 H3 H4 Hm1 Hm2 Hm3 Hm4.
  unfold create_features. rewrite Hc.
  assert (E1 : PyList.py_item (c0 :: c1 :: others) 1 = Ok c1).
  { unfold PyList.py_item, PyList.position. cbn [Z.ltb Z.compare orb].
    destruct (Z.of_nat (List.length (c0 :: c1 :: others)) <=? 1)%Z eqn:E;
      [apply Z.leb_le in E; cbn [List.length] in E; lia | reflexivity]. }
  assert (E0 : PyList.py_item (c0 :: c1 :: others) 0 = Ok c0).
  { unfold PyList.py_item, PyList.position. cbn [Z.ltb Z.compare orb].
    destruct (Z.of_nat (List.length (c0 :: c1 :: others)) <=? 0)%Z eqn:E;
      [apply Z.leb_le in E; cbn [List.length] in E; lia | reflexivity]. }
  rewrite E1, E0. cbn [bind]. unfold difference_statistics.
  rewrite H1, H2, H3, H4. cbn [bind].
  rewrite (all_seven_statistics hp Hs Hm1), (all_seven_statistics hp Hs Hm2),
    (all_seven_statistics hp Hs Hm3), (all_seven_statistics hp Hs Hm4).
  cbn [bind]. unfold seven_statistics, loc_set.
  cbn [List.length Nat.add Nat.sub Nat.eqb repeat firstn skipn app bind].
  unfold set_columns. rewrite feature_columns_length, Hl. reflexivity.
Qed.

End CycleSummaryTable.

Lemma create_features_table_witness :
  exists X,
    Cases.symbolic_features
      {| CycleSummaryFeatures.cycle_comp_num := [10; 100]%Z;
         CycleSummaryFeatures.statistics :=
           ["min"; "var"; "mean"; "skew"; "kurtosis"; "abs"; "square"] |}
      Cases.two_cycles = Ok X
    /\ nth_error X 0 = Some ("min_charging_capacity", ("var", 2%nat))
    /\ nth_error X 1 = Some ("var_charging_capacity", ("min", 2%nat)).
Proof.
  eexists. split.
  - apply (@create_features_table _ ("zero", 0%nat) (Cases.reduction "var")
             (Cases.reduction "mean") (Cases.reduction "skew")
             (Cases.reduction "kurtosis") Cases.reduction_min
             (Cases.reduction "abs") (Cases.reduction "square")
             (fun v => v) (fun v => v)
             {| CycleSummaryFeatures.cycle_comp_num := [10; 100]%Z;
                CycleSummaryFeatures.statistics :=
                  ["min"; "var"; "mean"; "skew"; "kurtosis"; "abs"; "square"] |}
             Cases.two_cycles 10%Z 100%Z []
             [Some ((9 # 10) - 1); Some ((18 # 10) - 2)]
             [Some ((18 # 10) - 2); Some ((9 # 10) - 1)]
             [Some (3 - 4); Some (7 - 8)]
             [Some (0 - 0); Some (0 - 0)]
             ("min", 2%nat) ("min", 2%nat) ("min", 2%nat) ("min", 2%nat));
      try reflexivity.
    intros s. cbn. tauto.
  - split; reflexivity.
Defined.

Section SummaryDiffTable.

Import DiagnosticSummaryStats PyList.

Lemma summary_diff_positions (rows : list summary_row) (pos : list Z) (metric : string)
  (d : Q) :
  summary_diff rows pos metric = Ok d ->
  py_item pos 0 = Ok (nth 0 pos 0%Z) /\ py_item pos 1 = Ok (nth 1 pos 0%Z).
Proof.
  unfold summary_diff.
  destruct (py_item pos 1) as [p1|] eqn:E1; cbn [bind]; [|discriminate].
  destruct (iloc rows p1); cbn [bind]; [|discriminate].
  destruct (row_item _ metric); cbn [bind]; [|discriminate].
  destruct (py_item pos 0) as [p0|] eqn:E0; cbn [bind]; [|discriminate].
  intros _. pose proof (py_item_nth pos 0 E0). pose proof (py_item_nth pos 1 E1).
  now subst.
Qed.

Lemma metrics_loop_table (rows : list summary_row) (pos : list Z) (ct : string)
  (metrics : list string) (d : string -> Q) (acc : list Q * list string) :
  (forall m, In m metrics -> summary_diff rows pos m = Ok (d m)) ->
  metrics_loop rows pos ct metrics acc
  = Ok (fst acc ++ map d metrics,
        snd acc ++ map (summary_diff_label (nth 0 pos 0%Z) (nth 1 pos 0%Z) ct) metrics).
Proof.
  revert acc. induction metrics as [|m metrics IH]; intros acc H; cbn [metrics_loop map].
  - rewrite !app_nil_r. now destruct acc.
  - pose proof (H m (or_introl eq_refl)) as Hm. rewrite Hm. cbn [bind].
    destruct (summary_diff_positions _ _ _ Hm) as [E0 E1].
    unfold summary_diff_name. rewrite E0, E1. cbn [bind].
    rewrite IH by (intros m' Hm'; apply H; now right).
    cbn [fst snd]. now rewrite <- !app_assoc.
Qed.

Lemma cycle_types_loop_table (summary : list summary_row) (pos : list Z)
  (cycle_types metrics : list string) (d : string -> string -> Q)
  (acc : list Q * list string) :
  (forall ct m, In ct cycle_types -> In m metrics ->
     summary_diff (of_type ct summary) pos m = Ok (d ct m)) ->
  cycle_types_loop summary pos cycle_types metrics acc
  = Ok (fst acc ++ flat_map (fun ct => map (d ct) metrics) cycle_types,
        snd acc
        ++ flat_map
             (fun ct =>
                map (summary_diff_label (nth 0 pos 0%Z) (nth 1 pos 0%Z) ct) metrics)
             cycle_types).
Proof.
  revert acc. induction cycle_types as [|ct cts IH]; intros acc H;
    cbn [cycle_types_loop flat_map].
  - rewrite !app_nil_r. now destruct acc.
  - rewrite (metrics_loop_table _ _ ct metrics (d ct))
      by (intros m Hm; apply H; [now left | assumption]).
    cbn [bind]. rewrite IH by (intros ct' m Hct Hm; apply H; [now right | assumption]).
    cbn [fst snd]. now rewrite <- !app_assoc.
Qed.

(** The relative difference of one metric between the rows at two
    positions of a cycle type. *)
Lemma summary_diff_value (rows : list summary_row) (pos : list Z) (metric : string)
  (p0 p1 : Z) (r0 r1 : summary_row) (v0 v1 : Q) :
  py_item pos 0 = Ok p0 -> py_item pos 1 = Ok p1 ->
  iloc rows p0 = Ok r0 -> iloc rows p1 = Ok r1 ->
  row_item r0 metric = Ok v0 -> row_item r1 metric = Ok v1 ->
  ~ v0 == 0 ->
  summary_diff rows pos metric = Ok ((v1 - v0) / v0).
Proof.
  intros E0 E1 H0 H1 Hv0 Hv1 Hz. unfold summary_diff.
  rewrite E1. cbn [bind]. rewrite H1. cbn [bind]. rewrite Hv1. cbn [bind].
  rewrite E0. cbn [bind]. rewrite H0. cbn [bind]. rewrite Hv0. cbn [bind].
  destruct (Qeq_bool v0 0) eqn:E; [apply Qeq_bool_iff in E; contradiction | reflexivity].
Qed.

(** X29.  [get_summary_diff] returns as soon as, for every requested
    cycle type, the summary of that type has a row at each of the two
    positions, and these rows have every requested metric, with a value
    other than zero at the first position.  The values are the relative
    differences [(v1 - v0) / v0], one per cycle type and metric, cycle
    type by cycle type, next to their names. *)
Theorem get_summary_diff_table (hp : hyperparameters) (dp : DataPath)
  (pos : option (list Z)) (cycle_types metrics : list string) (p0 p1 : Z)
  (r0 r1 : string -> summary_row) (v0 v1 : string -> string -> Q) :
  py_item (positions hp pos) 0 = Ok p0 ->
  py_item (positions hp pos) 1 = Ok p1 ->
  (forall ct, In ct cycle_types ->
     iloc (of_type ct (diagnostic_summary dp)) p0 = Ok (r0 ct)
     /\ iloc (of_type ct (diagnostic_summary dp)) p1 = Ok (r1 ct)) ->
  (forall ct m, In ct cycle_types -> In m metrics ->
     row_item (r0 ct) m = Ok (v0 ct m)
     /\ row_item (r1 ct) m = Ok (v1 ct m)
     /\ ~ v0 ct m == 0) ->
  get_summary_diff hp dp pos cycle_types metrics
  = Ok (flat_map (fun ct => map (fun m => (v1 ct m - v0 ct m) / v0 ct m) metrics)
          cycle_types,
        flat_map (fun ct => map (summary_diff_label p0 p1 ct) metrics) cycle_types).
Proof.
  intros E0 E1 Hrows Hvals. unfold get_summary_diff.
  rewrite (cycle_types_loop_table _ _ cycle_types metrics
             (fun ct m => (v1 ct m - v0 ct m) / v0 ct m)).
  - cbn [fst snd app].
    now rewrite <- (py_item_nth _ 0 E0), <- (py_item_nth _ 1 E1).
  - intros ct m Hct Hm. destruct (Hrows ct Hct) as [H0 H1].
    destruct (Hvals ct m Hct Hm) as (Hv0 & Hv1 & Hz).
    now apply summary_diff_value with (p0 := p0) (p1 := p1) (r0 := r0 ct) (r1 := r1 ct).
Qed.

End SummaryDiffTable.

Lemma get_summary_diff_table_witness :
  DiagnosticSummaryStats.get_summary_diff
    DiagnosticSummaryStats.DEFAULT_HYPERPARAMETERS Cases.two_diagnostics None
    ["rpt_0.2C"] ["discharge_capacity"; "discharge_energy"]
  = Ok ([(1 - 2) / 2; (6 - 8) / 8],
        ["diag_sum_diff_0_1_rpt_0.2Cdischarge_capacity";
         "diag_sum_diff_0_1_rpt_0.2Cdischarge_energy"]).
Proof.
  apply (@get_summary_diff_table
           DiagnosticSummaryStats.DEFAULT_HYPERPARAMETERS Cases.two_diagnostics None
           ["rpt_0.2C"] ["discharge_capacity"; "discharge_energy"] 0%Z 1%Z
           (fun _ => Cases.diagnostic_summary_row "rpt_0.2C" 1 2 8)
           (fun _ => Cases.diagnostic_summary_row "rpt_0.2C" 101 1 6)
           (fun _ m => if String.eqb m "discharge_capacity" then 2 else 8)
           (fun _ m => if String.eqb m "discharge_capacity" then 1 else 6)).
  - reflexivity.
  - reflexivity.
  - intros ct [<- | []]. split; reflexivity.
  - intros ct m [<- | []] [<- | [<- | []]];
      (split; [reflexivity | split; [reflexivity | intros H; discriminate H]]).
Defined.
